(** * LiteSDCard PHY: a cycle-accurate shallow embedding of [litesdcard/phy.py]

    Every Migen module of the file becomes a synchronous Mealy machine: a
    record of its registers, a record of its per-cycle inputs, and a [step]
    function returning the registers after the clock edge together with the
    combinatorial outputs of the cycle.  Conventions, following Migen:

    - a combinatorial signal that no active statement assigns is 0;
    - inside one FSM state the statements are read top to bottom and the last
      active [NextState] / [NextValue] on a register wins;
    - a [w]-bit register keeps its value modulo [2^w]; the operands of a
      comparison are evaluated at the width of the widest signal involved
      (the semantics of the emitted netlist), so [count == length - 1] on
      8-bit signals compares against [(length - 1) mod 256];
    - all machines modelled here live in the "sd" (line) clock domain; the
      clock-domain-crossing FIFOs at their boundary are the environment of the
      model: it presents [valid]/payload and answers [ready]. *)

From Stdlib Require Import ZArith List Bool Lia.
Import ListNotations.
Local Open Scope Z_scope.

(** ** Bit-vector helpers *)

(** Value kept by a [w]-bit register. *)
Definition wrap (w x : Z) : Z := x mod 2 ^ w.

(** Python slice [x[:w]] of a signal: its [w] low bits. *)
Definition low_bits (w x : Z) : Z := Z.land x (Z.ones w).

(** [d[lo:lo+w].eq(v)]: overwrite [w] bits of [d] starting at bit [lo]. *)
Definition set_slice (d lo w v : Z) : Z :=
  Z.lor (Z.ldiff d (Z.shiftl (Z.ones w) lo)) (Z.shiftl (low_bits w v) lo).

(** Generic run of a Mealy machine over a list of per-cycle inputs. *)
Section Mealy.
Context {S I O : Type} (step : S -> I -> S * O).

Fixpoint run (s : S) (ins : list I) : S * list O :=
  match ins with
  | [] => (s, [])
  | i :: ins' =>
      let (s1, o) := step s i in
      let (s2, os) := run s1 ins' in
      (s2, o :: os)
  end.

Definition final (s : S) (ins : list I) : S := fst (run s ins).
Definition trace (s : S) (ins : list I) : list O := snd (run s ins).
End Mealy.

(** ** Pads (the [_sdpads_layout] record) *)

(** Input side: [cmd.i] (1 bit) and [data.i] (4 bits). *)
Record pads_i := { cmd_i : Z; data_i : Z }.

(** Output side driven by a module: [clk], [cmd.o]/[cmd.oe], [data.o]/[data.oe]. *)
Record pads_o := {
  clk : bool; cmd_o : bool; cmd_oe : bool; data_o : Z; data_oe : bool }.

(** All outputs at their reset value: what a state that assigns nothing drives. *)
Definition pads_quiet : pads_o :=
  {| clk := false; cmd_o := false; cmd_oe := false; data_o := 0; data_oe := false |}.

(** ** SDPHYClocker *)

(** [divider = Signal(8); self.sync += divider.eq(divider + 1)] *)
Definition divider_next (divider : Z) : Z := wrap 8 (divider + 1).

(** The dictionary built by
    [for i in range(1, 8): cases[2**i] = clk.eq(divider[i-1])]:
    key [2**i] selects counter bit [i-1]. *)
Definition clocker_cases : list (Z * Z) :=
  map (fun i => (2 ^ i, i - 1)) [1; 2; 3; 4; 5; 6; 7].

(** [Case(self.divider.storage, cases)] with
    [cases["default"] = clk.eq(divider[0])]: the counter bit tapped. *)
Definition clocker_tap (storage : Z) : Z :=
  match find (fun c => fst c =? storage) clocker_cases with
  | Some c => snd c
  | None => 0
  end.

Definition cd_sd_clk (storage divider : Z) : bool :=
  Z.testbit divider (clocker_tap storage).

(** The free-running counter [t] base-clock cycles after reset. *)
Fixpoint divider_at (t : nat) : Z :=
  match t with
  | O => 0
  | S t' => divider_next (divider_at t')
  end.

(** Line clock level [t] base-clock cycles after reset. *)
Definition clk_at (storage : Z) (t : nat) : bool :=
  cd_sd_clk storage (divider_at t).

(** An 8-bit value that is a power of two. *)
Definition is_pow2 (d : Z) : bool :=
  existsb (fun i => d =? 2 ^ i) [0; 1; 2; 3; 4; 5; 6; 7].

(** A square wave that changes level every [h] base-clock cycles, starting
    low: its frequency is [base_clock / (2 * h)]. *)
Definition square_wave (h : Z) (t : nat) : bool := Z.odd (Z.of_nat t / h).

(** ** SDPHYR: the bit stream reader *)

Record sdphyr_params := {
  p_cmd : bool;             (* cmd=True: sample cmd.i, else data.i *)
  p_data_width : Z;         (* data_width *)
  p_skip_start_bit : bool   (* skip_start_bit *)
}.

(** Registers of the reader: [run], the up-converter's [demux], [strobe_all]
    and [source.data], and the one-deep buffer's [valid] and payload.  The
    [first]/[last] flags of the streams are never driven here
    ([converter.sink.last] stays 0) and no consumer reads them. *)
Record sdphyr_state := {
  r_run : bool;
  r_demux : Z;
  r_strobe_all : bool;
  r_conv_data : Z;
  r_buf_valid : bool;
  r_buf_data : Z
}.

Definition sdphyr_reset : sdphyr_state :=
  {| r_run := false; r_demux := 0; r_strobe_all := false; r_conv_data := 0;
     r_buf_valid := false; r_buf_data := 0 |}.

(** [pads_in_data = pads_in.cmd.i[:data_width] if cmd else pads_in.data.i[:data_width]] *)
Definition pads_in_data (p : sdphyr_params) (pads : pads_i) : Z :=
  low_bits (p_data_width p) (if p_cmd p then cmd_i pads else data_i pads).

(** [start.eq(pads_in_data == 0)] *)
Definition sdphyr_start (p : sdphyr_params) (pads : pads_i) : bool :=
  pads_in_data p pads =? 0.

(** Number of input samples per output byte:
    [stream.Converter(data_width, 8, reverse=True)]. *)
Definition conv_ratio (p : sdphyr_params) : Z := 8 / p_data_width p.

(** One clock edge of the reader without reset.  [source_ready] is the
    consumer's [source.ready].

    Up-converter: [sink.ready = ~strobe_all | source.ready],
    [source.valid = strobe_all], [load_part = sink.valid & sink.ready]; on a
    load the sample is written to slot [ratio-1-demux] ([reverse=True]) and
    [demux] advances, setting [strobe_all] when the last slot is filled;
    [strobe_all] is cleared when the buffer takes the byte.
    Buffer: [pipe_ce = source.ready | ~valid]; when [pipe_ce] it latches the
    converter's [valid] and payload. *)
Definition sdphyr_next (p : sdphyr_params) (st : sdphyr_state)
    (pads : pads_i) (source_ready : bool) : sdphyr_state :=
  let sample := pads_in_data p pads in
  let start := sdphyr_start p pads in
  let conv_sink_valid :=
    if p_skip_start_bit p then r_run st else start || r_run st in
  let pipe_ce := source_ready || negb (r_buf_valid st) in
  let conv_sink_ready := negb (r_strobe_all st) || pipe_ce in
  let load_part := conv_sink_valid && conv_sink_ready in
  let demux_last := r_demux st =? conv_ratio p - 1 in
  let slot := conv_ratio p - r_demux st - 1 in
  {| r_run := start || r_run st;
     r_demux :=
       if load_part then (if demux_last then 0 else r_demux st + 1)
       else r_demux st;
     r_strobe_all :=
       if load_part && demux_last then true
       else if pipe_ce then false else r_strobe_all st;
     r_conv_data :=
       if load_part
       then set_slice (r_conv_data st) (slot * p_data_width p) (p_data_width p) sample
       else r_conv_data st;
     r_buf_valid := if pipe_ce then r_strobe_all st else r_buf_valid st;
     r_buf_data := if pipe_ce then r_conv_data st else r_buf_data st |}.

(** [@ResetInserter()]: an asserted [reset] puts every register of the reader,
    converter and buffer included, back to its reset value at the edge. *)
Definition sdphyr_step (p : sdphyr_params) (st : sdphyr_state)
    (pads : pads_i) (source_ready reset : bool) : sdphyr_state :=
  if reset then sdphyr_reset else sdphyr_next p st pads source_ready.

(** [source.valid] and [source.data] of the reader: the buffer's outputs. *)
Definition sdphyr_valid (st : sdphyr_state) : bool := r_buf_valid st.
Definition sdphyr_data (st : sdphyr_state) : Z := r_buf_data st.

(** The reader on its own, never reset, as a Mealy machine whose output is
    [source.valid] of the cycle. *)
Definition sdphyr_cycle (p : sdphyr_params) (st : sdphyr_state)
    (i : pads_i * bool) : sdphyr_state * bool :=
  (sdphyr_step p st (fst i) (snd i) false, sdphyr_valid st).

(** State of a reader released from reset after the given cycles. *)
Definition sdphyr_after (p : sdphyr_params) (ins : list (pads_i * bool)) : sdphyr_state :=
  final (sdphyr_cycle p) sdphyr_reset ins.

(** Index of the first cycle whose sample is all-zero (start detection). *)
Fixpoint first_start (p : sdphyr_params) (ins : list (pads_i * bool)) : option nat :=
  match ins with
  | [] => None
  | i :: ins' =>
      if sdphyr_start p (fst i) then Some O
      else option_map S (first_start p ins')
  end.

(** ** Stream endpoints seen from the line domain *)

(** Modelled from the spec: [litesdcard/common.py] is not part of the sources
    at hand; the spec names two result tags, [OK] and [TIMEOUT], carried in
    the 3-bit [status] field.  [OK] is the field's idle value. *)
Definition SDCARD_STREAM_STATUS_OK : Z := 0.
Definition SDCARD_STREAM_STATUS_TIMEOUT : Z := 1.

(** A byte stream arriving from the control domain
    ([stream.Endpoint([("data", 8)])] behind [sink_cdc]). *)
Record byte_sink := { bs_valid : bool; bs_data : Z; bs_last : bool }.

(** What a reader drives on its result stream
    ([stream.Endpoint([("data", 8), ("status", 3)])], towards [source_cdc]). *)
Record result_src := {
  src_valid : bool; src_data : Z; src_status : Z; src_last : bool }.

Definition src_quiet : result_src :=
  {| src_valid := false; src_data := 0; src_status := 0; src_last := false |}.

(** ** SDPHYInit *)

Inductive init_fsm := INIT_IDLE | INIT_INITIALIZE.
Record init_state := { init_st : init_fsm; init_count : Z }.
Definition init_reset : init_state := {| init_st := INIT_IDLE; init_count := 0 |}.

(** Input: [ps_initialize.o], the synchronised trigger pulse. *)
Definition init_step (s : init_state) (ps_initialize_o : bool) : init_state * pads_o :=
  match init_st s with
  | INIT_IDLE =>
      ({| init_st := if ps_initialize_o then INIT_INITIALIZE else INIT_IDLE;
          init_count := 0 |},
       pads_quiet)
  | INIT_INITIALIZE =>
      ({| init_st := if init_count s =? 80 - 1 then INIT_IDLE else INIT_INITIALIZE;
          init_count := wrap 8 (init_count s + 1) |},
       {| clk := true; cmd_o := true; cmd_oe := true; data_o := 15; data_oe := true |})
  end.

(** ** SDPHYCMDW: the command writer *)

Inductive cmdw_fsm := CMDW_IDLE | CMDW_WRITE | CMDW_CLK8.
Record cmdw_state := { cmdw_st : cmdw_fsm; cmdw_count : Z }.
Definition cmdw_reset : cmdw_state := {| cmdw_st := CMDW_IDLE; cmdw_count := 0 |}.

Record cmdw_out := {
  cmdw_pads : pads_o;
  cmdw_sink_ready : bool;   (* sink.ready: the byte is consumed this cycle *)
  cmdw_done : bool          (* self.done *)
}.

(** [Case(count, {i: pads_out.cmd.o.eq(sink.data[8-1-i]) for i in range(8)})]:
    no default branch, so [cmd.o] stays 0 for any other [count]. *)
Definition cmdw_bit (count data : Z) : bool :=
  if (0 <=? count) && (count <? 8) then Z.testbit data (8 - 1 - count) else false.

Definition cmdw_step (s : cmdw_state) (sink : byte_sink) : cmdw_state * cmdw_out :=
  match cmdw_st s with
  | CMDW_IDLE =>
      ({| cmdw_st := if bs_valid sink then CMDW_WRITE else CMDW_IDLE;
          cmdw_count := 0 |},
       {| cmdw_pads := pads_quiet; cmdw_sink_ready := false;
          cmdw_done := negb (bs_valid sink) |})
  | CMDW_WRITE =>
      let at_end := cmdw_count s =? 8 - 1 in
      ({| cmdw_st :=
            if at_end then (if bs_last sink then CMDW_CLK8 else CMDW_IDLE)
            else CMDW_WRITE;
          cmdw_count := wrap 8 (cmdw_count s + 1) |},
       {| cmdw_pads :=
            {| clk := true; cmd_o := cmdw_bit (cmdw_count s) (bs_data sink);
               cmd_oe := true; data_o := 0; data_oe := false |};
          cmdw_sink_ready := at_end && negb (bs_last sink);
          cmdw_done := false |})
  | CMDW_CLK8 =>
      let at_end := cmdw_count s =? 8 - 1 in
      ({| cmdw_st := if at_end then CMDW_IDLE else CMDW_CLK8;
          cmdw_count := wrap 8 (cmdw_count s + 1) |},
       {| cmdw_pads :=
            {| clk := true; cmd_o := true; cmd_oe := true;
               data_o := 0; data_oe := false |};
          cmdw_sink_ready := at_end;
          cmdw_done := false |})
  end.

(** The writer closed over its input stream: the handoff buffer presents the
    head of the queue of pending bytes (each with its [last] mark) until the
    writer asserts [ready]. *)
Definition sink_of_queue (q : list (Z * bool)) : byte_sink :=
  match q with
  | [] => {| bs_valid := false; bs_data := 0; bs_last := false |}
  | (d, l) :: _ => {| bs_valid := true; bs_data := d; bs_last := l |}
  end.

Definition cmdw_cycle (sq : cmdw_state * list (Z * bool)) (_ : unit)
  : (cmdw_state * list (Z * bool)) * pads_o :=
  let (s, q) := sq in
  let (s', o) := cmdw_step s (sink_of_queue q) in
  ((s', if cmdw_sink_ready o then tl q else q), cmdw_pads o).

(** The bits a card sees on the command line: the value driven in each cycle
    in which the line clock is enabled and the writer drives the line. *)
Definition cmd_line_bits (tr : list pads_o) : list bool :=
  map cmd_o (filter (fun o => clk o && cmd_oe o) tr).

(** MSB-first serialisation of a byte. *)
Definition byte_bits (b : Z) : list bool :=
  map (fun i => Z.testbit b (7 - i)) [0; 1; 2; 3; 4; 5; 6; 7].

(** ** SDPHYCMDR: the command reader *)

Inductive cmdr_fsm := CMDR_IDLE | CMDR_WAIT | CMDR_CMD | CMDR_CLK8 | CMDR_TIMEOUT.

Record cmdr_state := {
  cmdr_st : cmdr_fsm;
  cmdr_count : Z;           (* count = Signal(8) *)
  cmdr_timeout : Z;         (* timeout = Signal(32, reset=...) *)
  cmdr_rst : bool;          (* cmdr.reset, written through NextValue *)
  cmdr_rd : sdphyr_state    (* cmdr = SDPHYR(cmd=True, data_width=1, skip_start_bit=False) *)
}.

Definition cmdr_params : sdphyr_params :=
  {| p_cmd := true; p_data_width := 1; p_skip_start_bit := false |}.

Record cmdr_in := {
  ci_pads : pads_i;
  ci_valid : bool;          (* sink.valid: a request is pending *)
  ci_length : Z;            (* sink.length *)
  ci_last : bool;           (* sink.last *)
  ci_cmdw_done : bool;      (* cmdw.done *)
  ci_ready : bool           (* source.ready *)
}.

Record cmdr_out := {
  co_pads : pads_o;
  co_sink_ready : bool;     (* sink.ready: the request is consumed this cycle *)
  co_src : result_src
}.

Definition clk_only : pads_o :=
  {| clk := true; cmd_o := false; cmd_oe := false; data_o := 0; data_oe := false |}.

(** [timeout_reset] is [int(cmd_timeout*sys_clk_freq)], the reset value of
    the 32-bit [timeout] register: the register holds it modulo [2^32].

    [source.last.eq(count == (sink.length - 1))] is modelled as the generated
    netlist evaluates it: both sides at the width of the 8-bit operands, so
    that [length - 1] is taken modulo [2^8].  Migen's simulator evaluates
    the right-hand side as an unbounded integer; the two readings differ
    only for [length = 0]. *)
Definition cmdr_step (timeout_reset : Z) (s : cmdr_state) (i : cmdr_in)
  : cmdr_state * cmdr_out :=
  let rd := cmdr_rd s in
  let rd_next ready := sdphyr_step cmdr_params rd (ci_pads i) ready (cmdr_rst s) in
  match cmdr_st s with
  | CMDR_IDLE =>
      let go := ci_valid i && ci_cmdw_done i in
      ({| cmdr_st := if go then CMDR_WAIT else CMDR_IDLE;
          cmdr_count := 0;
          cmdr_timeout := wrap 32 timeout_reset;
          cmdr_rst := if go then true else cmdr_rst s;
          cmdr_rd := rd_next false |},
       {| co_pads := pads_quiet; co_sink_ready := false; co_src := src_quiet |})
  | CMDR_WAIT =>
      let expired := cmdr_timeout s =? 0 in
      ({| cmdr_st :=
            if expired then CMDR_TIMEOUT
            else if sdphyr_valid rd then CMDR_CMD else CMDR_WAIT;
          cmdr_count := cmdr_count s;
          cmdr_timeout := wrap 32 (cmdr_timeout s - 1);
          cmdr_rst := false;
          cmdr_rd := rd_next false |},
       {| co_pads := clk_only; co_sink_ready := expired; co_src := src_quiet |})
  | CMDR_CMD =>
      let expired := cmdr_timeout s =? 0 in
      let valid := sdphyr_valid rd in
      let last := cmdr_count s =? wrap 8 (ci_length i - 1) in
      let xfer := valid && ci_ready i in
      ({| cmdr_st :=
            if expired then CMDR_TIMEOUT
            else if xfer && last then (if ci_last i then CMDR_CLK8 else CMDR_IDLE)
            else CMDR_CMD;
          cmdr_count :=
            if xfer then (if last && ci_last i then 0 else wrap 8 (cmdr_count s + 1))
            else cmdr_count s;
          cmdr_timeout := wrap 32 (cmdr_timeout s - 1);
          cmdr_rst := cmdr_rst s;
          cmdr_rd := rd_next xfer |},
       {| co_pads := clk_only;
          co_sink_ready := (xfer && last) || expired;
          co_src := {| src_valid := valid; src_data := sdphyr_data rd;
                       src_status := SDCARD_STREAM_STATUS_OK; src_last := last |} |})
  | CMDR_CLK8 =>
      ({| cmdr_st := if cmdr_count s =? 8 - 1 then CMDR_IDLE else CMDR_CLK8;
          cmdr_count := wrap 8 (cmdr_count s + 1);
          cmdr_timeout := cmdr_timeout s;
          cmdr_rst := cmdr_rst s;
          cmdr_rd := rd_next false |},
       {| co_pads := {| clk := true; cmd_o := true; cmd_oe := true;
                        data_o := 0; data_oe := false |};
          co_sink_ready := false; co_src := src_quiet |})
  | CMDR_TIMEOUT =>
      ({| cmdr_st := if ci_ready i then CMDR_IDLE else CMDR_TIMEOUT;
          cmdr_count := cmdr_count s;
          cmdr_timeout := cmdr_timeout s;
          cmdr_rst := cmdr_rst s;
          cmdr_rd := rd_next false |},
       {| co_pads := pads_quiet; co_sink_ready := false;
          co_src := {| src_valid := true; src_data := 0;
                       src_status := SDCARD_STREAM_STATUS_TIMEOUT; src_last := true |} |})
  end.

(** The pending read request on [sink] ([length] or [block_length], [last]). *)
Record read_req := { rq_length : Z; rq_last : bool }.

(** What the card and the result stream do in one cycle: the pad inputs and
    the downstream [source.ready]. *)
Record line_in := { li_pads : pads_i; li_ready : bool }.

(** A result item handed to the result stream: (data, status, last). *)
Definition item : Type := Z * Z * bool.

(** The item transferred on a result stream in a cycle, if any: there is one
    when [source.valid] meets [source.ready]. *)
Definition emitted (src : result_src) (ready : bool) : list item :=
  if src_valid src && ready
  then [(src_data src, src_status src, src_last src)]
  else [].

(** Items transferred during a run, in order. *)
Definition items_of {P : Type} (tr : list (P * list item)) : list item :=
  concat (map snd tr).

(** The command reader closed over its request stream while the command writer
    stays idle ([cmdw.done] = 1): the head of the request queue is presented
    until [sink.ready].  The output of a cycle is what the reader drives on
    the pads and the item it hands over. *)
Definition cmdr_cycle (timeout_reset : Z) (sq : cmdr_state * list read_req)
    (li : line_in) : (cmdr_state * list read_req) * (pads_o * list item) :=
  let (s, q) := sq in
  let i := {| ci_pads := li_pads li;
              ci_valid := match q with [] => false | _ => true end;
              ci_length := match q with [] => 0 | r :: _ => rq_length r end;
              ci_last := match q with [] => false | r :: _ => rq_last r end;
              ci_cmdw_done := true;
              ci_ready := li_ready li |} in
  let (s', o) := cmdr_step timeout_reset s i in
  ((s', if co_sink_ready o then tl q else q),
   (co_pads o, emitted (co_src o) (li_ready li))).

(** ** SDPHYCRCR: the CRC response decoder *)

Inductive crcr_fsm := CRCR_IDLE | CRCR_WAIT_CHECK.

Record crcr_state := {
  crcr_st : crcr_fsm;
  crcr_rst : bool;          (* crcr.reset *)
  crcr_rd : sdphyr_state    (* crcr = SDPHYR(data=True, data_width=1, skip_start_bit=True) *)
}.

Definition crcr_params : sdphyr_params :=
  {| p_cmd := false; p_data_width := 1; p_skip_start_bit := true |}.

Record crcr_out := { crc_valid : bool; crc_error : bool }.

Definition crcr_reset : crcr_state :=
  {| crcr_st := CRCR_IDLE; crcr_rst := false; crcr_rd := sdphyr_reset |}.

(** Inputs: the pads and the [start] pulse. *)
Definition crcr_step (s : crcr_state) (i : pads_i * bool) : crcr_state * crcr_out :=
  let (pads, start) := i in
  let rd := crcr_rd s in
  match crcr_st s with
  | CRCR_IDLE =>
      ({| crcr_st := if start then CRCR_WAIT_CHECK else CRCR_IDLE;
          crcr_rst := if start then true else crcr_rst s;
          crcr_rd := sdphyr_step crcr_params rd pads false (crcr_rst s) |},
       {| crc_valid := false; crc_error := false |})
  | CRCR_WAIT_CHECK =>
      let got := sdphyr_valid rd in
      ({| crcr_st := if got then CRCR_IDLE else CRCR_WAIT_CHECK;
          crcr_rst := false;
          crcr_rd := sdphyr_step crcr_params rd pads true (crcr_rst s) |},
       {| crc_valid := got && negb (sdphyr_data rd =? 5);
          crc_error := got && (sdphyr_data rd =? 5) |})
  end.

(** A decision: a cycle in which [valid] or [error] is asserted. *)
Definition crc_decision (o : crcr_out) : bool := crc_valid o || crc_error o.

(** ** SDPHYDATAW: the data writer *)

Inductive dataw_fsm :=
  DATAW_IDLE | DATAW_START | DATAW_DATA | DATAW_STOP | DATAW_RESPONSE.

Record dataw_state := {
  dataw_st : dataw_fsm;
  dataw_wrstarted : bool;
  dataw_count : Z;
  dataw_crc : crcr_state
}.

Definition dataw_reset : dataw_state :=
  {| dataw_st := DATAW_IDLE; dataw_wrstarted := false; dataw_count := 0;
     dataw_crc := crcr_reset |}.

Record dataw_out := { dataw_pads : pads_o; dataw_sink_ready : bool }.

Definition drive_data (v : Z) : pads_o :=
  {| clk := true; cmd_o := false; cmd_oe := false; data_o := v; data_oe := true |}.

(** [sink.data[4:8]] and [sink.data[0:4]]. *)
Definition high_nibble (d : Z) : Z := low_bits 4 (Z.shiftr d 4).
Definition low_nibble (d : Z) : Z := low_bits 4 d.

Definition dataw_step (s : dataw_state) (i : pads_i * byte_sink) : dataw_state * dataw_out :=
  let (pads, sink) := i in
  let crc_next start := fst (crcr_step (dataw_crc s) (pads, start)) in
  match dataw_st s with
  | DATAW_IDLE =>
      ({| dataw_st :=
            if bs_valid sink
            then (if dataw_wrstarted s then DATAW_DATA else DATAW_START)
            else DATAW_IDLE;
          dataw_wrstarted := dataw_wrstarted s;
          dataw_count := dataw_count s;
          dataw_crc := crc_next false |},
       {| dataw_pads :=
            if bs_valid sink
            then drive_data (if dataw_wrstarted s then high_nibble (bs_data sink) else 0)
            else pads_quiet;
          dataw_sink_ready := false |})
  | DATAW_START =>
      ({| dataw_st := DATAW_DATA; dataw_wrstarted := true;
          dataw_count := dataw_count s; dataw_crc := crc_next false |},
       {| dataw_pads := drive_data (high_nibble (bs_data sink));
          dataw_sink_ready := false |})
  | DATAW_DATA =>
      ({| dataw_st := if bs_last sink then DATAW_STOP else DATAW_IDLE;
          dataw_wrstarted := dataw_wrstarted s;
          dataw_count := dataw_count s; dataw_crc := crc_next false |},
       {| dataw_pads := drive_data (low_nibble (bs_data sink));
          dataw_sink_ready := negb (bs_last sink) |})
  | DATAW_STOP =>
      ({| dataw_st := DATAW_RESPONSE; dataw_wrstarted := false;
          dataw_count := dataw_count s; dataw_crc := crc_next true |},
       {| dataw_pads := drive_data 15; dataw_sink_ready := false |})
  | DATAW_RESPONSE =>
      let waiting := dataw_count s <? 16 in
      let released := negb waiting && Z.testbit (data_i pads) 0 in
      ({| dataw_st := if released then DATAW_IDLE else DATAW_RESPONSE;
          dataw_wrstarted := dataw_wrstarted s;
          dataw_count :=
            if waiting then wrap 8 (dataw_count s + 1)
            else if released then 0 else dataw_count s;
          dataw_crc := crc_next false |},
       {| dataw_pads := clk_only; dataw_sink_ready := released |})
  end.

(** ** SDPHYDATAR: the data reader *)

Inductive datar_fsm :=
  DATAR_IDLE | DATAR_WAIT | DATAR_DATA | DATAR_CLK40 | DATAR_TIMEOUT.

Record datar_state := {
  datar_st : datar_fsm;
  datar_count : Z;          (* count = Signal(10) *)
  datar_timeout : Z;        (* timeout = Signal(32, reset=...) *)
  datar_rst : bool;         (* datar.reset *)
  datar_rd : sdphyr_state   (* datar = SDPHYR(data=True, data_width=4, skip_start_bit=True) *)
}.

Definition datar_params : sdphyr_params :=
  {| p_cmd := false; p_data_width := 4; p_skip_start_bit := true |}.

Record datar_in := {
  di_pads : pads_i;
  di_valid : bool;          (* sink.valid *)
  di_block_length : Z;      (* sink.block_length *)
  di_last : bool;           (* sink.last *)
  di_ready : bool           (* source.ready *)
}.

Record datar_out := {
  do_pads : pads_o;
  do_sink_ready : bool;
  do_src : result_src
}.

(** [timeout_reset] is [int(data_timeout*sys_clk_freq)], the reset value of
    the 32-bit [timeout] register: the register holds it modulo [2^32].

    [source.last.eq(count == (sink.block_length + 8 - 1))] is modelled as
    the generated netlist evaluates it: both sides at the width of the
    10-bit operands, so that the sum is taken modulo [2^10].  Migen's
    simulator evaluates the right-hand side as an unbounded integer; the two
    readings differ only for [block_length >= 1017]. *)
Definition datar_step (timeout_reset : Z) (s : datar_state) (i : datar_in)
  : datar_state * datar_out :=
  let rd := datar_rd s in
  let rd_next ready := sdphyr_step datar_params rd (di_pads i) ready (datar_rst s) in
  match datar_st s with
  | DATAR_IDLE =>
      ({| datar_st := if di_valid i then DATAR_WAIT else DATAR_IDLE;
          datar_count := 0;
          datar_timeout := if di_valid i then wrap 32 timeout_reset else datar_timeout s;
          datar_rst := if di_valid i then true else datar_rst s;
          datar_rd := rd_next false |},
       {| do_pads := if di_valid i then clk_only else pads_quiet;
          do_sink_ready := false; do_src := src_quiet |})
  | DATAR_WAIT =>
      let expired := datar_timeout s =? 0 in
      ({| datar_st :=
            if expired then DATAR_TIMEOUT
            else if sdphyr_valid rd then DATAR_DATA else DATAR_WAIT;
          datar_count := datar_count s;
          datar_timeout := wrap 32 (datar_timeout s - 1);
          datar_rst := false;
          datar_rd := rd_next false |},
       {| do_pads := clk_only; do_sink_ready := expired; do_src := src_quiet |})
  | DATAR_DATA =>
      let expired := datar_timeout s =? 0 in
      let valid := sdphyr_valid rd in
      let last := datar_count s =? wrap 10 (di_block_length i + 8 - 1) in
      let xfer := valid && di_ready i in
      ({| datar_st :=
            if expired then DATAR_TIMEOUT
            else if xfer && last then (if di_last i then DATAR_CLK40 else DATAR_IDLE)
            else DATAR_DATA;
          datar_count :=
            if xfer then (if last && di_last i then 0 else wrap 10 (datar_count s + 1))
            else datar_count s;
          datar_timeout := wrap 32 (datar_timeout s - 1);
          datar_rst := datar_rst s;
          datar_rd := rd_next xfer |},
       {| do_pads := clk_only;
          do_sink_ready := (xfer && last) || expired;
          do_src := {| src_valid := valid; src_data := sdphyr_data rd;
                       src_status := SDCARD_STREAM_STATUS_OK; src_last := last |} |})
  | DATAR_CLK40 =>
      ({| datar_st := if datar_count s =? 40 - 1 then DATAR_IDLE else DATAR_CLK40;
          datar_count := wrap 10 (datar_count s + 1);
          datar_timeout := datar_timeout s;
          datar_rst := datar_rst s;
          datar_rd := rd_next false |},
       {| do_pads := clk_only; do_sink_ready := false; do_src := src_quiet |})
  | DATAR_TIMEOUT =>
      ({| datar_st := if di_ready i then DATAR_IDLE else DATAR_TIMEOUT;
          datar_count := datar_count s;
          datar_timeout := datar_timeout s;
          datar_rst := datar_rst s;
          datar_rd := rd_next false |},
       {| do_pads := pads_quiet; do_sink_ready := false;
          do_src := {| src_valid := true; src_data := 0;
                       src_status := SDCARD_STREAM_STATUS_TIMEOUT; src_last := true |} |})
  end.

(** The data reader closed over its request stream. *)
Definition datar_cycle (timeout_reset : Z) (sq : datar_state * list read_req)
    (li : line_in) : (datar_state * list read_req) * (pads_o * list item) :=
  let (s, q) := sq in
  let i := {| di_pads := li_pads li;
              di_valid := match q with [] => false | _ => true end;
              di_block_length := match q with [] => 0 | r :: _ => rq_length r end;
              di_last := match q with [] => false | r :: _ => rq_last r end;
              di_ready := li_ready li |} in
  let (s', o) := datar_step timeout_reset s i in
  ((s', if do_sink_ready o then tl q else q),
   (do_pads o, emitted (do_src o) (li_ready li))).

(** ** SDPHY: the five modules on the shared pads *)

Record sdphy_state := {
  phy_init : init_state;
  phy_cmdw : cmdw_state;
  phy_cmdr : cmdr_state;
  phy_dataw : dataw_state;
  phy_datar : datar_state
}.

Record sdphy_in := {
  pi_pads : pads_i;              (* sdpads.cmd.i / sdpads.data.i *)
  pi_initialize : bool;          (* init's synchronised trigger *)
  pi_cmdw_sink : byte_sink;
  pi_cmdr_valid : bool;
  pi_cmdr_req : read_req;
  pi_cmdr_ready : bool;
  pi_dataw_sink : byte_sink;
  pi_datar_valid : bool;
  pi_datar_req : read_req;
  pi_datar_ready : bool
}.

(** The [pads_out] of the five modules in one cycle, in the order of the
    source's list [[init, cmdw, cmdr, dataw, datar]]. *)
Record sdphy_out := {
  po_init : pads_o;
  po_cmdw : pads_o;
  po_cmdr : pads_o;
  po_dataw : pads_o;
  po_datar : pads_o
}.

Definition sdphy_modules (o : sdphy_out) : list pads_o :=
  [po_init o; po_cmdw o; po_cmdr o; po_dataw o; po_datar o].

(** The four protocol state machines (the initialisation sequencer left out). *)
Definition sdphy_fsms (o : sdphy_out) : list pads_o :=
  [po_cmdw o; po_cmdr o; po_dataw o; po_datar o].

(** [reduce(or_, [m.pads_out.X for m in [init, cmdw, cmdr, dataw, datar]])] *)
Definition reduce_or_bool (f : pads_o -> bool) (ms : list pads_o) : bool :=
  match ms with
  | [] => false
  | m :: rest => fold_left orb (map f rest) (f m)
  end.

Definition reduce_or_bits (f : pads_o -> Z) (ms : list pads_o) : Z :=
  match ms with
  | [] => 0
  | m :: rest => fold_left Z.lor (map f rest) (f m)
  end.

Definition sdpads (o : sdphy_out) : pads_o :=
  let ms := sdphy_modules o in
  {| clk := reduce_or_bool clk ms;
     cmd_oe := reduce_or_bool cmd_oe ms;
     cmd_o := reduce_or_bool cmd_o ms;
     data_oe := reduce_or_bool data_oe ms;
     data_o := reduce_or_bits data_o ms |}.

(** The engine after reset; the two 32-bit timeout registers hold their
    reset values modulo [2^32]. *)
Definition sdphy_reset (cmd_timeout_reset data_timeout_reset : Z) : sdphy_state :=
  {| phy_init := init_reset;
     phy_cmdw := cmdw_reset;
     phy_cmdr := {| cmdr_st := CMDR_IDLE; cmdr_count := 0;
                    cmdr_timeout := wrap 32 cmd_timeout_reset; cmdr_rst := false;
                    cmdr_rd := sdphyr_reset |};
     phy_dataw := dataw_reset;
     phy_datar := {| datar_st := DATAR_IDLE; datar_count := 0;
                     datar_timeout := wrap 32 data_timeout_reset; datar_rst := false;
                     datar_rd := sdphyr_reset |} |}.

(** One line-domain cycle of the whole engine; [cmdw.done] of the cycle is
    wired into the command reader. *)
Definition sdphy_step (cmd_timeout_reset data_timeout_reset : Z)
    (s : sdphy_state) (i : sdphy_in) : sdphy_state * sdphy_out :=
  let (init', o_init) := init_step (phy_init s) (pi_initialize i) in
  let (cmdw', o_cmdw) := cmdw_step (phy_cmdw s) (pi_cmdw_sink i) in
  let (cmdr', o_cmdr) :=
    cmdr_step cmd_timeout_reset (phy_cmdr s)
      {| ci_pads := pi_pads i; ci_valid := pi_cmdr_valid i;
         ci_length := rq_length (pi_cmdr_req i); ci_last := rq_last (pi_cmdr_req i);
         ci_cmdw_done := cmdw_done o_cmdw; ci_ready := pi_cmdr_ready i |} in
  let (dataw', o_dataw) := dataw_step (phy_dataw s) (pi_pads i, pi_dataw_sink i) in
  let (datar', o_datar) :=
    datar_step data_timeout_reset (phy_datar s)
      {| di_pads := pi_pads i; di_valid := pi_datar_valid i;
         di_block_length := rq_length (pi_datar_req i);
         di_last := rq_last (pi_datar_req i); di_ready := pi_datar_ready i |} in
  ({| phy_init := init'; phy_cmdw := cmdw'; phy_cmdr := cmdr';
      phy_dataw := dataw'; phy_datar := datar' |},
   {| po_init := o_init; po_cmdw := cmdw_pads o_cmdw; po_cmdr := co_pads o_cmdr;
      po_dataw := dataw_pads o_dataw; po_datar := do_pads o_datar |}).

(** Number of protocol state machines asserting an output-enable ([cmd.oe] or
    [data.oe]) in a cycle, and the per-line counts. *)
Definition count_true (f : pads_o -> bool) (ms : list pads_o) : nat :=
  length (filter f ms).

Definition oe_drivers (o : sdphy_out) : nat :=
  count_true (fun m => cmd_oe m || data_oe m) (sdphy_fsms o).
Definition cmd_oe_drivers (o : sdphy_out) : nat := count_true cmd_oe (sdphy_fsms o).
Definition data_oe_drivers (o : sdphy_out) : nat := count_true data_oe (sdphy_fsms o).

(** A state is reachable when some input sequence leads to it from reset. *)
Definition sdphy_reachable (tc td : Z) (s : sdphy_state) : Prop :=
  exists ins, final (sdphy_step tc td) (sdphy_reset tc td) ins = s.

(** ** Notions used to state and prove the properties *)

(** A reader that has not seen a start condition since its reset. *)
Definition rd_idle (st : sdphyr_state) : Prop :=
  r_run st = false /\ r_demux st = 0 /\
  r_strobe_all st = false /\ r_buf_valid st = false.

(** Cycles by which [skip_start_bit] delays the first sample. *)
Definition skip_delay (p : sdphyr_params) : Z :=
  if p_skip_start_bit p then 1 else 0.

(** Bounds on a reader [k] cycles after the edge that ended its start cycle. *)
Definition rd_young (p : sdphyr_params) (st : sdphyr_state) (k : Z) : Prop :=
  0 <= r_demux st <= conv_ratio p - 1 /\
  r_demux st <= k - skip_delay p /\
  (r_strobe_all st = true -> conv_ratio p <= k - skip_delay p) /\
  (r_buf_valid st = true -> conv_ratio p + 1 <= k - skip_delay p).

(** Pad inputs with the given level on the command line / the data lines. *)
Definition cmd_level (b : Z) : pads_i := {| cmd_i := b; data_i := 15 |}.
Definition data_level (v : Z) : pads_i := {| cmd_i := 1; data_i := v |}.

(** Four cycles on the 4-bit reader of the data path: the start nibble and
    three more samples. *)
Definition four_nibbles : list (pads_i * bool) :=
  map (fun v => (data_level v, true)) [0; 1; 2; 3].

(** Inputs of the whole engine in a cycle in which nothing is requested and
    the lines idle high. *)
Definition byte_sink_idle : byte_sink :=
  {| bs_valid := false; bs_data := 0; bs_last := false |}.

Definition sdphy_quiet_in : sdphy_in :=
  {| pi_pads := {| cmd_i := 1; data_i := 15 |};
     pi_initialize := false;
     pi_cmdw_sink := byte_sink_idle;
     pi_cmdr_valid := false;
     pi_cmdr_req := {| rq_length := 0; rq_last := false |};
     pi_cmdr_ready := true;
     pi_dataw_sink := byte_sink_idle;
     pi_datar_valid := false;
     pi_datar_req := {| rq_length := 0; rq_last := false |};
     pi_datar_ready := true |}.

(** A command reader and a data reader parked in their TIMEOUT state. *)
Definition cmdr_timed_out : cmdr_state :=
  {| cmdr_st := CMDR_TIMEOUT; cmdr_count := 0; cmdr_timeout := 0;
     cmdr_rst := false; cmdr_rd := sdphyr_reset |}.

Definition cmdr_in_quiet : cmdr_in :=
  {| ci_pads := cmd_level 1; ci_valid := false; ci_length := 0; ci_last := false;
     ci_cmdw_done := true; ci_ready := true |}.

Definition datar_in_quiet : datar_in :=
  {| di_pads := data_level 15; di_valid := false; di_block_length := 0;
     di_last := false; di_ready := true |}.

Definition datar_idle (timeout : Z) : datar_state :=
  {| datar_st := DATAR_IDLE; datar_count := 0; datar_timeout := timeout;
     datar_rst := false; datar_rd := sdphyr_reset |}.

Definition cmdr_idle (timeout : Z) : cmdr_state :=
  {| cmdr_st := CMDR_IDLE; cmdr_count := 0; cmdr_timeout := timeout;
     cmdr_rst := false; cmdr_rd := sdphyr_reset |}.

(** A one-byte response read (marked [last]) followed by a new command byte
    handed to the writer while the reader sends its trailer: fifteen cycles
    of inputs for the whole engine. *)
Definition overlap_in (b : Z) (read_pending write_pending : bool) : sdphy_in :=
  {| pi_pads := cmd_level b; pi_initialize := false;
     pi_cmdw_sink := {| bs_valid := write_pending; bs_data := 64; bs_last := false |};
     pi_cmdr_valid := read_pending;
     pi_cmdr_req := {| rq_length := 1; rq_last := true |};
     pi_cmdr_ready := true;
     pi_dataw_sink := byte_sink_idle; pi_datar_valid := false;
     pi_datar_req := {| rq_length := 0; rq_last := false |};
     pi_datar_ready := true |}.

Definition overlap_inputs : list sdphy_in :=
  map (fun b => overlap_in b true false) [1; 1; 0; 0; 0; 0; 0; 0; 0; 0; 1; 1; 1]
  ++ [overlap_in 1 false true; overlap_in 1 false true].

(** Line cycles the writer spends on a queue of bytes, as the code has it:
    one IDLE cycle and eight WRITE cycles per byte, and the CLK8 state for a
    byte marked [last]; CLK8 is entered with [count] = 8 and left when the
    8-bit counter has wrapped round to 7. *)
Definition cmdw_trailer : nat := 256.

Fixpoint cmdw_cycles (q : list (Z * bool)) : nat :=
  match q with
  | [] => 0
  | (_, l) :: q' => (9 + (if l then cmdw_trailer else 0) + cmdw_cycles q')%nat
  end.

(** What the writer puts on the command line for a queue of bytes. *)
Definition cmdw_line (q : list (Z * bool)) : list bool :=
  flat_map (fun bl : Z * bool =>
              byte_bits (fst bl) ++
              (if snd bl then repeat true cmdw_trailer else [])) q.

(** CMD0 (GO_IDLE_STATE) as the controller hands it to the writer: six bytes,
    the last one marked [last]. *)
Definition cmd0_bytes : list (Z * bool) :=
  [(64, false); (0, false); (0, false); (0, false); (0, false); (149, true)].

(** A line cycle seen by a reader: the sampled level and a ready result stream. *)
Definition cmd_sample (x : Z) : line_in :=
  {| li_pads := cmd_level x; li_ready := true |}.
Definition data_sample (v : Z) : line_in :=
  {| li_pads := data_level v; li_ready := true |}.

(** The command reader two cycles after it accepted a request: the embedded
    reader has just been reset, the byte counter is 0 and the state machine
    waits in [st] (WAIT, or CMD when a stale byte was pending in the reader
    while it was being reset). *)
Definition cmdr_armed (st : cmdr_fsm) (timeout : Z) : cmdr_state :=
  {| cmdr_st := st; cmdr_count := 0; cmdr_timeout := timeout;
     cmdr_rst := false; cmdr_rd := sdphyr_reset |}.

(** The command reader with byte number [m] complete in the converter
    ([strobe_all] set, value [d]) and not yet moved to the buffer. *)
Definition cmdr_full (st : cmdr_fsm) (m timeout d e : Z) : cmdr_state :=
  {| cmdr_st := st; cmdr_count := m; cmdr_timeout := timeout; cmdr_rst := false;
     cmdr_rd := {| r_run := true; r_demux := 0; r_strobe_all := true;
                   r_conv_data := d; r_buf_valid := false; r_buf_data := e |} |}.

(** The byte formed by eight one-bit samples, first sample in bit 7. *)
Definition sample_byte (xs : list Z) : Z :=
  fold_left (fun acc x => 2 * acc + low_bits 1 x) xs 0.

(** The converter's data register after loading the samples [xs] into the
    slots [7 - demux], [7 - demux - 1], ... of [d]. *)
Fixpoint conv_load (d demux : Z) (xs : list Z) : Z :=
  match xs with
  | [] => d
  | x :: xs' => conv_load (set_slice d ((8 - demux - 1) * 1) 1 (low_bits 1 x)) (demux + 1) xs'
  end.

(** The command reader in the cycle after it accepted a request: WAIT, with
    [cmdr.reset] still asserted and the reader's registers not yet cleared. *)
Definition cmdr_accepted (T : Z) (rd : sdphyr_state) : cmdr_state :=
  {| cmdr_st := CMDR_WAIT; cmdr_count := 0; cmdr_timeout := T;
     cmdr_rst := true; cmdr_rd := rd |}.

(** The line shows no start condition during the given cycles. *)
Definition no_start (p : sdphyr_params) (ws : list line_in) : Prop :=
  Forall (fun li => sdphyr_start p (li_pads li) = false) ws.

(** The result stream is not ready / ready during the given cycles. *)
Definition stalled (ws : list line_in) : Prop :=
  Forall (fun li => li_ready li = false) ws.
Definition flowing (ws : list line_in) : Prop :=
  Forall (fun li => li_ready li = true) ws.

(** The single item of a timed-out transaction. *)
Definition timeout_item : item := (0, SDCARD_STREAM_STATUS_TIMEOUT, true).

(** The command reader while the converter collects a byte: [k] samples are
    loaded, the buffer is empty. *)
Definition cmdr_loading (st : cmdr_fsm) (m timeout k d e : Z) : cmdr_state :=
  {| cmdr_st := st; cmdr_count := m; cmdr_timeout := timeout; cmdr_rst := false;
     cmdr_rd := {| r_run := true; r_demux := k; r_strobe_all := false;
                   r_conv_data := d; r_buf_valid := false; r_buf_data := e |} |}.

(** The command reader with byte [b] waiting in the buffer while the converter
    collects the next one. *)
Definition cmdr_holding (st : cmdr_fsm) (m timeout k d b : Z) : cmdr_state :=
  {| cmdr_st := st; cmdr_count := m; cmdr_timeout := timeout; cmdr_rst := false;
     cmdr_rd := {| r_run := true; r_demux := k; r_strobe_all := false;
                   r_conv_data := d; r_buf_valid := true; r_buf_data := b |} |}.

(** One load of the 1-bit converter at position [k]. *)
Definition conv_put (d k x : Z) : Z :=
  set_slice d ((8 - k - 1) * 1) 1 (low_bits 1 x).

(** The items of a successful transaction: every byte with status OK, [last]
    on the final one only. *)
Fixpoint mark_last (bs : list Z) : list item :=
  match bs with
  | [] => []
  | [b] => [(b, SDCARD_STREAM_STATUS_OK, true)]
  | b :: bs' => (b, SDCARD_STREAM_STATUS_OK, false) :: mark_last bs'
  end.

(** State of the command reader once a transaction is over: back in IDLE, or
    in CLK8 when the request was marked [last]. *)
Definition cmdr_over (s : cmdr_state) : Prop :=
  cmdr_st s = CMDR_IDLE \/ cmdr_st s = CMDR_CLK8.

(** Eight consecutive samples of a one-bit line, in the order they arrive. *)
Record octet := {
  o0 : Z; o1 : Z; o2 : Z; o3 : Z; o4 : Z; o5 : Z; o6 : Z; o7 : Z }.

Definition octet_samples (o : octet) : list Z :=
  [o0 o; o1 o; o2 o; o3 o; o4 o; o5 o; o6 o; o7 o].

(** The byte the reader assembles from an octet. *)
Definition octet_byte (o : octet) : Z := sample_byte (octet_samples o).

(** The line cycles that carry a sequence of octets on the command line. *)
Definition octets_in (gs : list octet) : list line_in :=
  flat_map (fun g => map cmd_sample (octet_samples g)) gs.

(** Status and [last] flag of an item. *)
Definition item_flags (it : item) : Z * bool := (snd (fst it), snd it).
Definition item_data (it : item) : Z := fst (fst it).

(** A byte sequence as the controller queues it for the command writer: no
    byte but the final one is marked, and the final one carries [l]. *)
Fixpoint mark_queue (bs : list Z) (l : bool) : list (Z * bool) :=
  match bs with
  | [] => []
  | [b] => [(b, l)]
  | b :: bs' => (b, false) :: mark_queue bs' l
  end.

(** The command line as the writer drives it, fed back to the reader's input:
    one sample per clocked bit. *)
Definition loop_back (line : list bool) : list line_in :=
  map (fun b => cmd_sample (Z.b2z b)) line.

(** The eight line samples of a byte sent MSB first. *)
Definition octet_of_byte (b : Z) : octet :=
  {| o0 := Z.b2z (Z.testbit b 7); o1 := Z.b2z (Z.testbit b 6);
     o2 := Z.b2z (Z.testbit b 5); o3 := Z.b2z (Z.testbit b 4);
     o4 := Z.b2z (Z.testbit b 3); o5 := Z.b2z (Z.testbit b 2);
     o6 := Z.b2z (Z.testbit b 1); o7 := Z.b2z (Z.testbit b 0) |}.

(** An octet that begins with a start bit, and a long response made of it. *)
Definition start_octet : octet :=
  {| o0 := 0; o1 := 1; o2 := 0; o3 := 1; o4 := 0; o5 := 1; o6 := 0; o7 := 1 |}.

(** Whether the decoder's reader presents a byte in cycle [k] of a run. *)
Definition crcr_token_ready (s : crcr_state) (ins : list (pads_i * bool)) (k : nat) : bool :=
  sdphyr_valid (crcr_rd (final crcr_step s (firstn k ins))).

(** The byte the decoder's reader presents in cycle [k] of a run. *)
Definition crcr_token (s : crcr_state) (ins : list (pads_i * bool)) (k : nat) : Z :=
  sdphyr_data (crcr_rd (final crcr_step s (firstn k ins))).

Definition crc_silent : crcr_out := {| crc_valid := false; crc_error := false |}.

(** The data lines after a write: data line 0 idles high for two cycles, then
    the card sends a start bit and the eight bits 0000 0101; two more cycles
    follow.  No further start pulse is given. *)
Definition crc_response : list (pads_i * bool) :=
  map (fun v => (data_level v, false))
      [15; 15; 15; 14; 14; 14; 14; 14; 14; 15; 14; 15; 15; 15].

(** What the initialisation sequencer drives in INITIALIZE: clock enabled,
    command line and the four data lines driven high. *)
Definition init_pads : pads_o :=
  {| clk := true; cmd_o := true; cmd_oe := true; data_o := 15; data_oe := true |}.


(** The whole engine with the initialisation sequencer in INITIALIZE and
    every other machine at reset. *)
Definition sdphy_initializing : sdphy_state :=
  {| phy_init := {| init_st := INIT_INITIALIZE; init_count := 0 |};
     phy_cmdw := cmdw_reset;
     phy_cmdr := cmdr_idle 0;
     phy_dataw := dataw_reset;
     phy_datar := datar_idle 0 |}.

(** A reader whose buffer and converter both hold a complete byte. *)
Definition rd_two_bytes : sdphyr_state :=
  {| r_run := true; r_demux := 0; r_strobe_all := true; r_conv_data := 52;
     r_buf_valid := true; r_buf_data := 18 |}.

(** *** States of the data reader during a block *)

(** Two cycles after a request was accepted: the 4-bit reader has just been
    reset and the state machine waits in [st] (WAIT, or DATA when a stale byte
    was pending in the reader while it was being reset). *)
Definition datar_armed (st : datar_fsm) (timeout : Z) : datar_state :=
  {| datar_st := st; datar_count := 0; datar_timeout := timeout;
     datar_rst := false; datar_rd := sdphyr_reset |}.

(** The cycle after acceptance: WAIT with [datar.reset] still asserted. *)
Definition datar_accepted (T : Z) (rd : sdphyr_state) : datar_state :=
  {| datar_st := DATAR_WAIT; datar_count := 0; datar_timeout := T;
     datar_rst := true; datar_rd := rd |}.

(** Converter collecting a byte ([k] nibbles loaded), buffer empty. *)
Definition datar_loading (st : datar_fsm) (m timeout k d e : Z) : datar_state :=
  {| datar_st := st; datar_count := m; datar_timeout := timeout; datar_rst := false;
     datar_rd := {| r_run := true; r_demux := k; r_strobe_all := false;
                    r_conv_data := d; r_buf_valid := false; r_buf_data := e |} |}.

(** A complete byte [d] in the converter, buffer empty. *)
Definition datar_full (st : datar_fsm) (m timeout d e : Z) : datar_state :=
  {| datar_st := st; datar_count := m; datar_timeout := timeout; datar_rst := false;
     datar_rd := {| r_run := true; r_demux := 0; r_strobe_all := true;
                    r_conv_data := d; r_buf_valid := false; r_buf_data := e |} |}.

(** Byte [b] in the buffer, converter collecting the next one. *)
Definition datar_holding (st : datar_fsm) (m timeout k d b : Z) : datar_state :=
  {| datar_st := st; datar_count := m; datar_timeout := timeout; datar_rst := false;
     datar_rd := {| r_run := true; r_demux := k; r_strobe_all := false;
                    r_conv_data := d; r_buf_valid := true; r_buf_data := b |} |}.

(** Byte [b] in the buffer and a complete byte [d] in the converter. *)
Definition datar_both (st : datar_fsm) (m timeout d b : Z) : datar_state :=
  {| datar_st := st; datar_count := m; datar_timeout := timeout; datar_rst := false;
     datar_rd := {| r_run := true; r_demux := 0; r_strobe_all := true;
                    r_conv_data := d; r_buf_valid := true; r_buf_data := b |} |}.

(** One load of the 4-bit converter at position [k]. *)
Definition conv_put4 (d k x : Z) : Z :=
  set_slice d ((2 - k - 1) * 4) 4 (low_bits 4 x).

(** The byte formed by two nibble samples, the first in the high half. *)
Definition pair_byte (g : Z * Z) : Z :=
  Z.lor (Z.shiftl (low_bits 4 (fst g)) 4) (low_bits 4 (snd g)).

(** The line cycles that carry a sequence of nibble pairs on the data lines. *)
Definition pairs_in (gs : list (Z * Z)) : list line_in :=
  flat_map (fun g => [data_sample (fst g); data_sample (snd g)]) gs.

(** The data reader once a block is over: IDLE, or CLK40 when the request
    was marked [last]. *)
Definition datar_over (s : datar_state) : Prop :=
  datar_st s = DATAR_IDLE \/ datar_st s = DATAR_CLK40.

(** Nine nibble pairs: a one-byte block followed by eight CRC bytes. *)
Definition nine_pairs : list (Z * Z) :=
  [(1, 2); (3, 4); (5, 6); (7, 8); (9, 10); (11, 12); (13, 14); (15, 1); (2, 3)].

(** The data writer closed over its input stream: the handoff buffer presents
    the head of the queue of pending bytes (each with its [last] mark) until
    the writer asserts [ready]; the input of a cycle is the pads. *)
Definition dataw_cycle (sq : dataw_state * list (Z * bool)) (p : pads_i)
  : (dataw_state * list (Z * bool)) * pads_o :=
  let (s, q) := sq in
  let (s', o) := dataw_step s (p, sink_of_queue q) in
  ((s', if dataw_sink_ready o then tl q else q), dataw_pads o).

(** The two nibbles of a byte in the order the writer drives them. *)
Definition byte_nibbles (d : Z) : list Z := [high_nibble d; low_nibble d].

(** A block on the data lines: start nibble, the bytes, stop nibble. *)
Definition block_nibbles (bytes : list Z) : list Z :=
  0 :: flat_map byte_nibbles bytes ++ [15].


(** The writer's own registers, apart from the embedded CRC decoder. *)
Definition dataw_regs (s : dataw_state) : dataw_fsm * bool * Z :=
  (dataw_st s, dataw_wrstarted s, dataw_count s).

(** The writer with the state of its CRC decoder replaced. *)
Definition dataw_with_crc (s : dataw_state) (c : crcr_state) : dataw_state :=
  {| dataw_st := dataw_st s; dataw_wrstarted := dataw_wrstarted s;
     dataw_count := dataw_count s; dataw_crc := c |}.

(** What holds of the writer's registers in every state it can reach. *)
Definition dataw_inv (s : dataw_state) : Prop :=
  0 <= dataw_count s <= 16 /\
  match dataw_st s with
  | DATAW_IDLE => dataw_count s = 0
  | DATAW_START => dataw_count s = 0 /\ dataw_wrstarted s = false
  | DATAW_DATA | DATAW_STOP => dataw_count s = 0 /\ dataw_wrstarted s = true
  | DATAW_RESPONSE => dataw_wrstarted s = false
  end.

(** The data lines as the writer drives them, fed back to the reader's
    input: one sample per clocked nibble. *)
Definition data_loop_back (tr : list pads_o) : list line_in :=
  map (fun o => data_sample (data_o o)) (filter (fun o => clk o && data_oe o) tr).

(** The nibble pair of a byte. *)
Definition nibble_pair (d : Z) : Z * Z := (high_nibble d, low_nibble d).

(** *** States of the CRC status decoder *)

(** A running reader whose converter has collected [k] samples into [d];
    [v] and [e] are the buffer's valid flag and payload. *)
Definition rd_loading (k d : Z) (v : bool) (e : Z) : sdphyr_state :=
  {| r_run := true; r_demux := k; r_strobe_all := false; r_conv_data := d;
     r_buf_valid := v; r_buf_data := e |}.

(** A running reader whose converter holds the complete byte [d]. *)
Definition rd_full (d : Z) (v : bool) (e : Z) : sdphyr_state :=
  {| r_run := true; r_demux := 0; r_strobe_all := true; r_conv_data := d;
     r_buf_valid := v; r_buf_data := e |}.

(** The decoder with [crcr.reset] deasserted. *)
Definition crcr_at (st : crcr_fsm) (rd : sdphyr_state) : crcr_state :=
  {| crcr_st := st; crcr_rst := false; crcr_rd := rd |}.

(** One cycle of input to the decoder: the level of the data lines, without
    and with the [start] pulse. *)
Definition crc_in (v : Z) : pads_i * bool := (data_level v, false).
Definition crc_start (v : Z) : pads_i * bool := (data_level v, true).

(** The decision taken on a token. *)
Definition crc_verdict (token : Z) : crcr_out :=
  {| crc_valid := negb (token =? 5); crc_error := token =? 5 |}.

(** Data line 0 is high in every one of the given cycles. *)
Definition d0_high (vs : list Z) : Prop := Forall (fun v => low_bits 1 v <> 0) vs.

(** The reader holds no complete byte, in the buffer or in the converter. *)
Definition rd_no_byte (rd : sdphyr_state) : Prop :=
  r_buf_valid rd = false /\ r_strobe_all rd = false.

(** ** SDPHYIOEmulator: the pads of an emulated card *)

(** What the emulated card presents: [pads.cmd_o], [pads.cmd_t] (tristate,
    1 = released), [pads.dat_o] and the per-line [pads.dat_t]. *)
Record emu_card := {
  pad_cmd_o : bool; pad_cmd_t : bool; pad_dat_o : Z; pad_dat_t : Z }.

(** What the emulated card is given: [pads.clk], [pads.cmd_i], [pads.dat_i]. *)
Record emu_host := { pad_clk : bool; pad_cmd_i : bool; pad_dat_i : Z }.

(** [If(sdpads.clk, pads.clk.eq(~ClockSignal("sd")))]; [pads.cmd_i] and
    [pads.dat_i] default to high and follow the engine's value when it
    enables its output. *)
Definition emulator_to_card (sd_clk : bool) (o : pads_o) : emu_host :=
  {| pad_clk := if clk o then negb sd_clk else false;
     pad_cmd_i := if cmd_oe o then cmd_o o else true;
     pad_dat_i := if data_oe o then data_o o else 15 |}.

(** [sdpads.data.i.eq(0b1111)], then for each line [i] of the four:
    [If(~pads.dat_t[i], sdpads.data.i[i].eq(pads.dat_o[i]))]. *)
Definition emulator_data_i (c : emu_card) : Z :=
  fold_left
    (fun d i =>
       if negb (Z.testbit (pad_dat_t c) i)
       then set_slice d i 1 (Z.b2z (Z.testbit (pad_dat_o c) i))
       else d)
    [0; 1; 2; 3] 15.

(** [sdpads.cmd.i.eq(1)], [If(~pads.cmd_t, sdpads.cmd.i.eq(pads.cmd_o))]. *)
Definition emulator_to_host (c : emu_card) : pads_i :=
  {| cmd_i := if negb (pad_cmd_t c) then Z.b2z (pad_cmd_o c) else 1;
     data_i := emulator_data_i c |}.

(** ** Command writer and command reader side by side *)

(** The command writer closed over its queue, observed through [done]. *)
Definition cmdw_done_cycle (sq : cmdw_state * list (Z * bool)) (_ : unit)
  : (cmdw_state * list (Z * bool)) * bool :=
  let (s, q) := sq in
  let (s', o) := cmdw_step s (sink_of_queue q) in
  ((s', if cmdw_sink_ready o then tl q else q), cmdw_done o).

(** The two command modules as [SDPHY] instantiates them, each closed over
    its queue: the reader is given the writer's [done] of the same cycle.
    The output is the writer's pads, then the reader's pads and the items
    handed to the result stream. *)
Definition cmd_cycle (timeout_reset : Z)
    (st : (cmdw_state * list (Z * bool)) * (cmdr_state * list read_req))
    (li : line_in)
  : ((cmdw_state * list (Z * bool)) * (cmdr_state * list read_req))
    * (pads_o * (pads_o * list item)) :=
  let (wst, rst) := st in
  let (w, wq) := wst in
  let (c, rq) := rst in
  let (w', ow) := cmdw_step w (sink_of_queue wq) in
  let i := {| ci_pads := li_pads li;
              ci_valid := match rq with [] => false | _ => true end;
              ci_length := match rq with [] => 0 | r :: _ => rq_length r end;
              ci_last := match rq with [] => false | r :: _ => rq_last r end;
              ci_cmdw_done := cmdw_done ow;
              ci_ready := li_ready li |} in
  let (c', oc) := cmdr_step timeout_reset c i in
  (((w', if cmdw_sink_ready ow then tl wq else wq),
    (c', if co_sink_ready oc then tl rq else rq)),
   (cmdw_pads ow, (co_pads oc, emitted (co_src oc) (li_ready li)))).

(** The byte stream offers nothing in the given cycles. *)
Definition sink_empty (ins : list (pads_i * byte_sink)) : Prop :=
  Forall (fun i => bs_valid (snd i) = false) ins.

(** ** Who drives the shared lines *)

(** The states in which each machine asserts an output-enable, read off the
    [fsm.act] blocks: the command writer in WRITE and CLK8, the command
    reader in CLK8, the data writer in START, DATA and STOP and, in IDLE, as
    soon as a byte is offered. *)
Definition cmdw_drives_cmd (s : cmdw_state) : bool :=
  match cmdw_st s with CMDW_IDLE => false | _ => true end.

Definition cmdr_drives_cmd (s : cmdr_state) : bool :=
  match cmdr_st s with CMDR_CLK8 => true | _ => false end.

Definition dataw_drives_data (s : dataw_state) (sink : byte_sink) : bool :=
  match dataw_st s with
  | DATAW_IDLE => bs_valid sink
  | DATAW_RESPONSE => false
  | _ => true
  end.

(** The four protocol state machines are all in IDLE. *)
Definition fsms_idle (s : sdphy_state) : Prop :=
  cmdw_st (phy_cmdw s) = CMDW_IDLE /\ cmdr_st (phy_cmdr s) = CMDR_IDLE /\
  dataw_st (phy_dataw s) = DATAW_IDLE /\ datar_st (phy_datar s) = DATAR_IDLE.

(** The controller is polite in a cycle when it offers the command writer no
    byte while the command reader is away from IDLE. *)
Definition cmd_polite (s : sdphy_state) (i : sdphy_in) : bool :=
  match cmdr_st (phy_cmdr s) with
  | CMDR_IDLE => true
  | _ => negb (bs_valid (pi_cmdw_sink i))
  end.

(** A run of the engine from [s] in which the controller is polite in every
    cycle. *)
Fixpoint cmd_disciplined (tc td : Z) (s : sdphy_state) (ins : list sdphy_in) : bool :=
  match ins with
  | [] => true
  | i :: ins' =>
      cmd_polite s i && cmd_disciplined tc td (fst (sdphy_step tc td s i)) ins'
  end.

(** A module that does not assert an enable puts zero on the matching
    value output. *)
Definition quiet_when_off (m : pads_o) : Prop :=
  (cmd_oe m = false -> cmd_o m = false) /\ (data_oe m = false -> data_o m = 0).

(** While the command reader is away from IDLE the command writer is idle. *)
Definition reader_has_line (s : sdphy_state) : Prop :=
  cmdr_st (phy_cmdr s) <> CMDR_IDLE -> cmdw_st (phy_cmdw s) = CMDW_IDLE.

(** The run of [overlap_inputs] up to its final cycle, and that cycle. *)
Definition overlap_before : list sdphy_in :=
  map (fun b => overlap_in b true false) [1; 1; 0; 0; 0; 0; 0; 0; 0; 0; 1; 1; 1]
  ++ [overlap_in 1 false true].

Definition overlap_final : sdphy_in := overlap_in 1 false true.

(** A polite run: a command byte is written while a read request waits, the
    one-byte response is read, and the reader sends its trailer. *)
Definition polite_inputs : list sdphy_in :=
  repeat (overlap_in 1 true true) 9
  ++ map (fun b => overlap_in b true false) [1; 1; 1; 0; 0; 0; 0; 0; 0; 0; 0; 1; 1; 1].

Definition polite_final : sdphy_in := overlap_in 1 false false.

(** * Proofs *)

(** ** Runs of Mealy machines *)

Section MealyFacts.
Context {S I O : Type} (step : S -> I -> S * O).

Lemma run_app (s : S) (xs ys : list I) :
  run step s (xs ++ ys) =
    (final step (final step s xs) ys,
     trace step s xs ++ trace step (final step s xs) ys).
Proof.
  unfold final, trace.
  revert s; induction xs as [|x xs IH]; intros s; simpl.
  - destruct (run step s ys); reflexivity.
  - destruct (step s x) as [s1 o]. rewrite IH.
    destruct (run step s1 xs) as [s2 os]; reflexivity.
Qed.

Lemma final_app (s : S) (xs ys : list I) :
  final step s (xs ++ ys) = final step (final step s xs) ys.
Proof. unfold final at 1. rewrite run_app. reflexivity. Qed.

Lemma trace_app (s : S) (xs ys : list I) :
  trace step s (xs ++ ys) = trace step s xs ++ trace step (final step s xs) ys.
Proof. unfold trace at 1. rewrite run_app. reflexivity. Qed.

Lemma final_cons (s : S) (x : I) (xs : list I) :
  final step s (x :: xs) = final step (fst (step s x)) xs.
Proof.
  unfold final; simpl. destruct (step s x) as [s1 o]; simpl.
  destruct (run step s1 xs); reflexivity.
Qed.

Lemma trace_cons (s : S) (x : I) (xs : list I) :
  trace step s (x :: xs) = snd (step s x) :: trace step (fst (step s x)) xs.
Proof.
  unfold trace; simpl. destruct (step s x) as [s1 o]; simpl.
  destruct (run step s1 xs); reflexivity.
Qed.

Lemma final_nil (s : S) : final step s [] = s.
Proof. reflexivity. Qed.

Lemma trace_nil (s : S) : trace step s [] = [].
Proof. reflexivity. Qed.

Lemma run_final (s : S) (xs : list I) (s' : S) (tr : list O) :
  run step s xs = (s', tr) -> final step s xs = s'.
Proof. unfold final. now intros ->. Qed.

Lemma run_trace (s : S) (xs : list I) (s' : S) (tr : list O) :
  run step s xs = (s', tr) -> trace step s xs = tr.
Proof. unfold trace. now intros ->. Qed.

Lemma run_app_eq (s s1 s2 : S) (xs ys : list I) (t1 t2 : list O) :
  run step s xs = (s1, t1) -> run step s1 ys = (s2, t2) ->
  run step s (xs ++ ys) = (s2, t1 ++ t2).
Proof.
  intros H1 H2. rewrite run_app.
  rewrite (run_final _ _ _ _ H1), (run_trace _ _ _ _ H1).
  rewrite (run_final _ _ _ _ H2), (run_trace _ _ _ _ H2). reflexivity.
Qed.

Lemma trace_length (s : S) (xs : list I) : length (trace step s xs) = length xs.
Proof.
  revert s; induction xs as [|x xs IH]; intros s.
  - reflexivity.
  - rewrite trace_cons. simpl. now rewrite IH.
Qed.
End MealyFacts.

(** ** Registers and bit fields *)

Lemma wrap_small (w x : Z) : 0 <= x < 2 ^ w -> wrap w x = x.
Proof. intros H. unfold wrap. now apply Z.mod_small. Qed.

Lemma testbit_low_bits (w x i : Z) :
  0 <= w -> 0 <= i ->
  Z.testbit (low_bits w x) i = Z.testbit x i && (i <? w).
Proof.
  intros Hw Hi. unfold low_bits. rewrite Z.land_spec.
  destruct (Z.ltb_spec i w).
  - rewrite Z.ones_spec_low by lia. reflexivity.
  - rewrite Z.ones_spec_high by lia. reflexivity.
Qed.

Lemma testbit_set_slice (d lo w v i : Z) :
  0 <= lo -> 0 <= w -> 0 <= i ->
  Z.testbit (set_slice d lo w v) i =
    if (lo <=? i) && (i <? lo + w) then Z.testbit v (i - lo) else Z.testbit d i.
Proof.
  intros Hlo Hw Hi. unfold set_slice.
  rewrite Z.lor_spec, Z.ldiff_spec, !Z.shiftl_spec by lia.
  destruct (Z.leb_spec lo i); cbn [andb].
  - rewrite testbit_low_bits by lia.
    destruct (Z.ltb_spec i (lo + w)).
    + rewrite Z.ones_spec_low by lia.
      replace (i - lo <? w) with true by (symmetry; apply Z.ltb_lt; lia).
      destruct (Z.testbit d i), (Z.testbit v (i - lo)); reflexivity.
    + rewrite Z.ones_spec_high by lia.
      replace (i - lo <? w) with false by (symmetry; apply Z.ltb_ge; lia).
      destruct (Z.testbit d i), (Z.testbit v (i - lo)); reflexivity.
  - rewrite !(Z.testbit_neg_r _ (i - lo)) by lia.
    destruct (Z.testbit d i); reflexivity.
Qed.

(** ** SDPHYClocker *)

Lemma divider_at_mod (t : nat) : divider_at t = Z.of_nat t mod 256.
Proof.
  induction t as [|t IH].
  - reflexivity.
  - cbn [divider_at]. unfold divider_next, wrap. rewrite IH.
    change (2 ^ 8) with 256.
    rewrite Nat2Z.inj_succ, <- Z.add_1_r.
    now rewrite Zplus_mod_idemp_l.
Qed.

Lemma counter_bit_square (t : nat) (k : Z) :
  0 <= k < 8 -> Z.testbit (divider_at t) k = square_wave (2 ^ k) t.
Proof.
  intros Hk. rewrite divider_at_mod. change 256 with (2 ^ 8).
  rewrite Z.mod_pow2_bits_low by lia.
  unfold square_wave. rewrite Z.testbit_odd, Z.shiftr_div_pow2 by lia.
  reflexivity.
Qed.

Lemma clocker_tap_cases (storage : Z) :
  clocker_tap storage =
    if storage =? 2 then 0 else if storage =? 4 then 1
    else if storage =? 8 then 2 else if storage =? 16 then 3
    else if storage =? 32 then 4 else if storage =? 64 then 5
    else if storage =? 128 then 6 else 0.
Proof.
  unfold clocker_tap, clocker_cases. cbn [map find fst snd].
  change (2 ^ 1) with 2; change (2 ^ 2) with 4; change (2 ^ 3) with 8;
    change (2 ^ 4) with 16; change (2 ^ 5) with 32; change (2 ^ 6) with 64;
    change (2 ^ 7) with 128.
  rewrite !(Z.eqb_sym _ storage).
  repeat (destruct (storage =? _); [reflexivity|]). reflexivity.
Qed.

(** The default branch taps the counter's least-significant bit; it is taken
    by 0, by 1 and by every value that is not a power of two. *)
Lemma clocker_default (storage divider : Z) :
  is_pow2 storage = false \/ storage = 1 ->
  cd_sd_clk storage divider = Z.testbit divider 0.
Proof.
  intros H. unfold cd_sd_clk. rewrite clocker_tap_cases.
  destruct H as [H| ->]; [|reflexivity].
  unfold is_pow2 in H. cbn [existsb] in H.
  repeat (apply orb_false_elim in H; destruct H as [? H]).
  change (2 ^ 1) with 2 in *; change (2 ^ 2) with 4 in *; change (2 ^ 3) with 8 in *;
    change (2 ^ 4) with 16 in *; change (2 ^ 5) with 32 in *; change (2 ^ 6) with 64 in *;
    change (2 ^ 7) with 128 in *.
  repeat match goal with Hx : (storage =? _) = false |- _ => rewrite Hx; clear Hx end.
  reflexivity.
Qed.

(** C5 as stated fails: with the divider register at its reset value 128 the
    line clock is counter bit 6, which is already high 64 base cycles after
    reset, whereas a clock of frequency base_clock/(2*128) is still low. *)
Lemma clocker_claimed_rate_fails :
  is_pow2 128 = true /\ clk_at 128 64 = true /\ square_wave 128 64 = false.
Proof. repeat split; vm_compute; reflexivity. Qed.

(** C5 (amended): every divider value is accepted.  For 0, for 1 and for every
    value that is not a power of two the line clock is the counter's
    least-significant bit, a square wave of frequency base_clock/2.  For a
    power of two between 2 and 128 the clock is the counter bit selected by
    the case table, a square wave changing level every divider/2 base cycles,
    that is of frequency base_clock/divider. *)
Theorem clocker_rate (storage : Z) (t : nat) :
  clk_at storage t =
    (if is_pow2 storage && (2 <=? storage)
     then square_wave (storage / 2) t
     else Z.testbit (divider_at t) 0)
  /\ Z.testbit (divider_at t) 0 = square_wave 1 t.
Proof.
  split; [|apply (counter_bit_square t 0); lia].
  unfold clk_at.
  destruct (is_pow2 storage) eqn:Hp; cbn [andb].
  - unfold is_pow2 in Hp. cbn [existsb] in Hp.
    repeat (apply orb_true_elim in Hp; destruct Hp as [Hp|Hp]);
      try discriminate Hp; apply Z.eqb_eq in Hp; subst storage;
      unfold cd_sd_clk; rewrite clocker_tap_cases.
    all: repeat match goal with
           | |- context [2 ^ ?k] =>
               let v := eval vm_compute in (2 ^ k) in change (2 ^ k) with v
           end;
         cbv beta iota delta [Z.eqb Pos.eqb Z.leb Z.compare Pos.compare Pos.compare_cont];
         try reflexivity;
         match goal with
         | |- Z.testbit _ ?k = square_wave (?c / 2) _ =>
             change (c / 2) with (2 ^ k); apply counter_bit_square; lia
         end.
  - apply clocker_default. now left.
Qed.

(** ** SDPHYR *)

Lemma rd_idle_next (p : sdphyr_params) (st : sdphyr_state) (pads : pads_i) (rdy : bool) :
  rd_idle st -> sdphyr_start p pads = false ->
  rd_idle (sdphyr_next p st pads rdy).
Proof.
  intros (Hr & Hd & Hs & Hb) Hst. unfold rd_idle, sdphyr_next.
  cbn [r_run r_demux r_strobe_all r_buf_valid].
  rewrite Hr, Hd, Hs, Hb, Hst.
  destruct (p_skip_start_bit p), rdy; cbn; auto.
Qed.

Lemma rd_idle_start (p : sdphyr_params) (st : sdphyr_state) (pads : pads_i) (rdy : bool) :
  2 <= conv_ratio p ->
  rd_idle st -> sdphyr_start p pads = true ->
  rd_young p (sdphyr_next p st pads rdy) 1.
Proof.
  intros Hratio (Hr & Hd & Hs & Hb) Hst. unfold rd_young, sdphyr_next, skip_delay.
  cbn [r_run r_demux r_strobe_all r_buf_valid].
  rewrite Hr, Hd, Hs, Hb, Hst.
  replace (0 =? conv_ratio p - 1) with false by (symmetry; apply Z.eqb_neq; lia).
  destruct (p_skip_start_bit p), rdy; cbn; repeat split; try lia; discriminate.
Qed.

Lemma rd_young_next (p : sdphyr_params) (st : sdphyr_state) (pads : pads_i)
    (rdy : bool) (k : Z) :
  rd_young p st k -> rd_young p (sdphyr_next p st pads rdy) (k + 1).
Proof.
  intros (Hd & Hk & Hs & Hb). unfold rd_young, sdphyr_next.
  cbn [r_run r_demux r_strobe_all r_buf_valid].
  set (load := (if p_skip_start_bit p then r_run st
                else sdphyr_start p pads || r_run st)
               && (negb (r_strobe_all st) || (rdy || negb (r_buf_valid st)))).
  destruct (Z.eqb_spec (r_demux st) (conv_ratio p - 1)) as [He|He];
    destruct load, (rdy || negb (r_buf_valid st)); cbn [andb];
    repeat split; intros; try lia; try discriminate;
    try (specialize (Hs ltac:(assumption)); lia);
    try (specialize (Hb ltac:(assumption)); lia).
Qed.

Lemma rd_young_run (p : sdphyr_params) (ins : list (pads_i * bool))
    (st : sdphyr_state) (k : Z) :
  rd_young p st k ->
  rd_young p (final (sdphyr_cycle p) st ins) (k + Z.of_nat (length ins)).
Proof.
  revert st k; induction ins as [|i ins IH]; intros st k H.
  - cbn [length Z.of_nat]. rewrite Z.add_0_r. exact H.
  - rewrite final_cons. cbn [sdphyr_cycle fst sdphyr_step length].
    replace (k + Z.of_nat (S (length ins))) with (k + 1 + Z.of_nat (length ins)) by lia.
    apply IH. now apply rd_young_next.
Qed.

Lemma rd_idle_run (p : sdphyr_params) (ins : list (pads_i * bool)) (st : sdphyr_state) :
  2 <= conv_ratio p -> rd_idle st ->
  match first_start p ins with
  | None => rd_idle (final (sdphyr_cycle p) st ins)
  | Some t0 =>
      rd_young p (final (sdphyr_cycle p) st ins)
        (Z.of_nat (length ins) - Z.of_nat t0)
  end.
Proof.
  intros Hratio. revert st; induction ins as [|i ins IH]; intros st H.
  - exact H.
  - cbn [first_start]. rewrite final_cons. cbn [sdphyr_cycle fst sdphyr_step].
    destruct (sdphyr_start p (fst i)) eqn:Hst.
    + replace (Z.of_nat (length (i :: ins)) - Z.of_nat 0)
        with (1 + Z.of_nat (length ins)) by (cbn [length]; lia).
      apply rd_young_run. now apply rd_idle_start.
    + specialize (IH _ (rd_idle_next p st (fst i) (snd i) H Hst)).
      destruct (first_start p ins) as [t0|]; cbn [option_map].
      * replace (Z.of_nat (length (i :: ins)) - Z.of_nat (S t0))
          with (Z.of_nat (length ins) - Z.of_nat t0) by (cbn [length]; lia).
        exact IH.
      * exact IH.
Qed.

Lemma first_start_sample (p : sdphyr_params) (ins : list (pads_i * bool)) (t0 : nat) :
  first_start p ins = Some t0 ->
  exists i, nth_error ins t0 = Some i /\ pads_in_data p (fst i) = 0.
Proof.
  revert t0; induction ins as [|i ins IH]; intros t0; cbn [first_start].
  - discriminate.
  - destruct (sdphyr_start p (fst i)) eqn:Hst.
    + intros [= <-]. exists i. split; [reflexivity|].
      now apply Z.eqb_eq.
    + destruct (first_start p ins) as [t|]; cbn [option_map]; [|discriminate].
      intros [= <-]. destruct (IH t eq_refl) as (j & Hj & Hz).
      exists j. split; assumption.
Qed.

(** C7 as stated fails for width 4: the start condition is seen in cycle 0
    and the reader presents a byte in cycle 4, long before the 32 cycles
    ([width] x 8) of the claim. *)
Lemma reader_width4_early :
  p_data_width datar_params = 4 /\
  first_start datar_params four_nibbles = Some 0%nat /\
  sdphyr_valid (sdphyr_after datar_params four_nibbles) = true /\
  ~ (0 + p_data_width datar_params * 8 <= Z.of_nat (length four_nibbles)).
Proof.
  split; [reflexivity|]. split; [reflexivity|]. split; [reflexivity|].
  vm_compute. intros H. now apply H.
Qed.

(** C7 (amended): for line widths 1 and 4, a reader released from reset
    presents a byte only after a start condition, and the start condition is
    a cycle whose sampled value is all-zero.  The first byte is presented at
    least 8/width + 1 line cycles after that cycle (9 for width 1, 3 for
    width 4), one more when the start sample is skipped. *)
Theorem reader_first_byte_latency (p : sdphyr_params) (ins : list (pads_i * bool)) :
  p_data_width p = 1 \/ p_data_width p = 4 ->
  sdphyr_valid (sdphyr_after p ins) = true ->
  exists t0 i,
    first_start p ins = Some t0 /\
    nth_error ins t0 = Some i /\ pads_in_data p (fst i) = 0 /\
    Z.of_nat t0 + 8 / p_data_width p + 1 + skip_delay p <= Z.of_nat (length ins).
Proof.
  intros Hw Hv.
  assert (Hratio : 2 <= conv_ratio p).
  { unfold conv_ratio. destruct Hw as [-> | ->]; vm_compute; discriminate. }
  assert (Hidle : rd_idle sdphyr_reset) by (repeat split).
  pose proof (rd_idle_run p ins sdphyr_reset Hratio Hidle) as H.
  unfold sdphyr_after, sdphyr_valid in Hv.
  destruct (first_start p ins) as [t0|] eqn:Hfs.
  - destruct (first_start_sample p ins t0 Hfs) as (i & Hi & Hz).
    exists t0, i. repeat split; try assumption.
    destruct H as (_ & _ & _ & Hb). specialize (Hb Hv).
    unfold conv_ratio in Hb. lia.
  - destruct H as (_ & _ & _ & Hb). congruence.
Qed.

Lemma reader_first_byte_latency_witness :
  exists t0 i,
    first_start datar_params four_nibbles = Some t0 /\
    nth_error four_nibbles t0 = Some i /\ pads_in_data datar_params (fst i) = 0 /\
    Z.of_nat t0 + 8 / p_data_width datar_params + 1 + skip_delay datar_params
      <= Z.of_nat (length four_nibbles).
Proof.
  apply (reader_first_byte_latency datar_params four_nibbles).
  - right; reflexivity.
  - reflexivity.
Defined.

(** ** Result items of the two readers *)

(** C4: whenever the command reader or the data reader drives its result
    stream with status TIMEOUT, it also drives [last] (and [valid]): a timeout
    item is always the final item of its transaction. *)
Theorem timeout_status_is_last (tc td : Z) (cs : cmdr_state) (ci : cmdr_in)
    (ds : datar_state) (di : datar_in) (src : result_src) :
  src = co_src (snd (cmdr_step tc cs ci)) \/
  src = do_src (snd (datar_step td ds di)) ->
  src_status src = SDCARD_STREAM_STATUS_TIMEOUT ->
  src_last src = true /\ src_valid src = true.
Proof.
  intros [-> | ->].
  - unfold cmdr_step. destruct (cmdr_st cs); cbn; intros H;
      first [discriminate H | now split].
  - unfold datar_step. destruct (datar_st ds); cbn; intros H;
      first [discriminate H | now split].
Qed.

Lemma timeout_status_is_last_witness :
  src_last (co_src (snd (cmdr_step 250000 cmdr_timed_out cmdr_in_quiet))) = true /\
  src_valid (co_src (snd (cmdr_step 250000 cmdr_timed_out cmdr_in_quiet))) = true.
Proof.
  apply (timeout_status_is_last 250000 250000 cmdr_timed_out cmdr_in_quiet
           (datar_idle 0) datar_in_quiet).
  - left; reflexivity.
  - reflexivity.
Defined.

(** ** SDPHY: who drives the shared lines *)

Lemma reduce_or_bool_5 (f : pads_o -> bool) (a b c d e : pads_o) :
  reduce_or_bool f [a; b; c; d; e] = f a || f b || f c || f d || f e.
Proof. reflexivity. Qed.

(** C9 as stated fails in both directions.  In the reset state with nothing
    requested none of the four state machines asserts an output-enable, so
    it is not the case that exactly one does in every reachable state.  And
    a command byte handed to the writer while the reader sends its trailer
    makes both machines assert the command line's output-enable in the same
    cycle, so "at most one" does not hold of the command line either. *)
Lemma drivers_zero_or_two :
  ~ (forall s i, sdphy_reachable 250000 250000 s ->
       oe_drivers (snd (sdphy_step 250000 250000 s i)) = 1%nat)
  /\ ~ (forall s i, sdphy_reachable 250000 250000 s ->
          (cmd_oe_drivers (snd (sdphy_step 250000 250000 s i)) <= 1)%nat).
Proof.
  split; intros H.
  - specialize (H (sdphy_reset 250000 250000) sdphy_quiet_in).
    assert (Hr : sdphy_reachable 250000 250000 (sdphy_reset 250000 250000))
      by (exists []; reflexivity).
    specialize (H Hr). vm_compute in H. discriminate H.
  - specialize (H (final (sdphy_step 250000 250000) (sdphy_reset 250000 250000)
                     overlap_before) overlap_final).
    assert (Hr : sdphy_reachable 250000 250000
                   (final (sdphy_step 250000 250000) (sdphy_reset 250000 250000)
                      overlap_before))
      by (exists overlap_before; reflexivity).
    specialize (H Hr).
    assert (E : cmd_oe_drivers
                  (snd (sdphy_step 250000 250000
                          (final (sdphy_step 250000 250000) (sdphy_reset 250000 250000)
                             overlap_before) overlap_final)) = 2%nat)
      by (vm_compute; reflexivity).
    rewrite E in H. lia.
Qed.

Lemma dataw_no_cmd_oe (s : dataw_state) (i : pads_i * byte_sink) :
  cmd_oe (dataw_pads (snd (dataw_step s i))) = false.
Proof.
  destruct i as [pads sink]. unfold dataw_step.
  destruct (dataw_st s); cbn; try reflexivity.
  destruct (bs_valid sink); reflexivity.
Qed.

Lemma datar_no_oe (t : Z) (s : datar_state) (i : datar_in) :
  cmd_oe (do_pads (snd (datar_step t s i))) = false /\
  data_oe (do_pads (snd (datar_step t s i))) = false.
Proof.
  unfold datar_step. destruct (datar_st s); cbn; try (split; reflexivity).
  destruct (di_valid i); split; reflexivity.
Qed.

Lemma cmdw_oe_states (s : cmdw_state) (sink : byte_sink) :
  data_oe (cmdw_pads (snd (cmdw_step s sink))) = false /\
  (cmd_oe (cmdw_pads (snd (cmdw_step s sink))) = true ->
   cmdw_st s = CMDW_WRITE \/ cmdw_st s = CMDW_CLK8).
Proof.
  unfold cmdw_step. destruct (cmdw_st s); cbn; split; auto; discriminate.
Qed.

Lemma cmdr_oe_states (t : Z) (s : cmdr_state) (i : cmdr_in) :
  data_oe (co_pads (snd (cmdr_step t s i))) = false /\
  (cmd_oe (co_pads (snd (cmdr_step t s i))) = true -> cmdr_st s = CMDR_CLK8).
Proof.
  unfold cmdr_step. destruct (cmdr_st s); cbn; split; auto; discriminate.
Qed.

Lemma sdphy_step_out (tc td : Z) (s : sdphy_state) (i : sdphy_in) :
  snd (sdphy_step tc td s i) =
    let o_cmdw := snd (cmdw_step (phy_cmdw s) (pi_cmdw_sink i)) in
    {| po_init := snd (init_step (phy_init s) (pi_initialize i));
       po_cmdw := cmdw_pads o_cmdw;
       po_cmdr := co_pads (snd (cmdr_step tc (phy_cmdr s)
         {| ci_pads := pi_pads i; ci_valid := pi_cmdr_valid i;
            ci_length := rq_length (pi_cmdr_req i); ci_last := rq_last (pi_cmdr_req i);
            ci_cmdw_done := cmdw_done o_cmdw; ci_ready := pi_cmdr_ready i |}));
       po_dataw := dataw_pads (snd (dataw_step (phy_dataw s) (pi_pads i, pi_dataw_sink i)));
       po_datar := do_pads (snd (datar_step td (phy_datar s)
         {| di_pads := pi_pads i; di_valid := pi_datar_valid i;
            di_block_length := rq_length (pi_datar_req i);
            di_last := rq_last (pi_datar_req i); di_ready := pi_datar_ready i |})) |}.
Proof.
  unfold sdphy_step.
  destruct (init_step _ _), (cmdw_step _ _), (cmdr_step _ _ _),
    (dataw_step _ _), (datar_step _ _ _); reflexivity.
Qed.

Lemma sdphy_step_cmdr (tc td : Z) (s : sdphy_state) (i : sdphy_in) :
  phy_cmdr (fst (sdphy_step tc td s i)) =
    fst (cmdr_step tc (phy_cmdr s)
      {| ci_pads := pi_pads i; ci_valid := pi_cmdr_valid i;
         ci_length := rq_length (pi_cmdr_req i); ci_last := rq_last (pi_cmdr_req i);
         ci_cmdw_done := cmdw_done (snd (cmdw_step (phy_cmdw s) (pi_cmdw_sink i)));
         ci_ready := pi_cmdr_ready i |}).
Proof.
  unfold sdphy_step.
  destruct (init_step _ _), (cmdw_step _ _), (cmdr_step _ _ _),
    (dataw_step _ _), (datar_step _ _ _); reflexivity.
Qed.

Lemma sdphy_step_cmdw (tc td : Z) (s : sdphy_state) (i : sdphy_in) :
  phy_cmdw (fst (sdphy_step tc td s i)) = fst (cmdw_step (phy_cmdw s) (pi_cmdw_sink i)).
Proof.
  unfold sdphy_step.
  destruct (init_step _ _), (cmdw_step _ _), (cmdr_step _ _ _),
    (dataw_step _ _), (datar_step _ _ _); reflexivity.
Qed.

(** The handshake on [cmdw.done] and a polite controller keep the command
    writer idle for as long as the command reader is away from IDLE. *)
Lemma reader_has_line_step (tc td : Z) (s : sdphy_state) (i : sdphy_in) :
  reader_has_line s -> cmd_polite s i = true ->
  reader_has_line (fst (sdphy_step tc td s i)).
Proof.
  unfold reader_has_line, cmd_polite. intros Hinv Hpol.
  rewrite sdphy_step_cmdr, sdphy_step_cmdw.
  destruct (cmdr_st (phy_cmdr s)) eqn:Hr.
  - (* the reader is idle: it only leaves IDLE when the writer is done *)
    unfold cmdr_step. rewrite Hr. cbn [fst cmdr_st ci_valid ci_cmdw_done].
    unfold cmdw_step.
    destruct (cmdw_st (phy_cmdw s)); cbn [fst snd cmdw_st cmdw_done];
      destruct (pi_cmdr_valid i), (bs_valid (pi_cmdw_sink i));
      cbn [andb negb]; intros H; try reflexivity; now elim H.
  - intros _. unfold cmdw_step.
    rewrite (Hinv ltac:(discriminate)). cbn [fst cmdw_st].
    apply negb_true_iff in Hpol. rewrite Hpol. reflexivity.
  - intros _. unfold cmdw_step.
    rewrite (Hinv ltac:(discriminate)). cbn [fst cmdw_st].
    apply negb_true_iff in Hpol. rewrite Hpol. reflexivity.
  - intros _. unfold cmdw_step.
    rewrite (Hinv ltac:(discriminate)). cbn [fst cmdw_st].
    apply negb_true_iff in Hpol. rewrite Hpol. reflexivity.
  - intros _. unfold cmdw_step.
    rewrite (Hinv ltac:(discriminate)). cbn [fst cmdw_st].
    apply negb_true_iff in Hpol. rewrite Hpol. reflexivity.
Qed.

Lemma reader_has_line_run (tc td : Z) (ins : list sdphy_in) :
  forall (s : sdphy_state) (i : sdphy_in),
  reader_has_line s ->
  cmd_disciplined tc td s (ins ++ [i]) = true ->
  reader_has_line (final (sdphy_step tc td) s ins)
  /\ cmd_polite (final (sdphy_step tc td) s ins) i = true.
Proof.
  induction ins as [|j ins IH]; intros s i Hinv Hd.
  - cbn [app cmd_disciplined] in Hd. apply andb_true_iff in Hd.
    split; [exact Hinv|apply Hd].
  - cbn [app cmd_disciplined] in Hd. apply andb_true_iff in Hd. destruct Hd as [Hp Hd].
    rewrite final_cons. apply IH; [|exact Hd].
    now apply reader_has_line_step.
Qed.

Lemma quiet_modules (tc td : Z) (s : sdphy_state) (i : sdphy_in) :
  Forall quiet_when_off (sdphy_modules (snd (sdphy_step tc td s i))).
Proof.
  rewrite sdphy_step_out. cbv zeta. unfold sdphy_modules, quiet_when_off.
  cbn [po_init po_cmdw po_cmdr po_dataw po_datar].
  repeat constructor.
  - unfold init_step. destruct (init_st (phy_init s)); cbn; congruence.
  - unfold init_step. destruct (init_st (phy_init s)); cbn; congruence.
  - unfold cmdw_step. destruct (cmdw_st (phy_cmdw s)); cbn; congruence.
  - unfold cmdw_step. destruct (cmdw_st (phy_cmdw s)); cbn; congruence.
  - unfold cmdr_step. destruct (cmdr_st (phy_cmdr s)); cbn; congruence.
  - unfold cmdr_step. destruct (cmdr_st (phy_cmdr s)); cbn; congruence.
  - unfold dataw_step. destruct (dataw_st (phy_dataw s)); cbn; try congruence.
    destruct (bs_valid (pi_dataw_sink i)); cbn; congruence.
  - unfold dataw_step. destruct (dataw_st (phy_dataw s)); cbn; try congruence.
    destruct (bs_valid (pi_dataw_sink i)); cbn; congruence.
  - unfold datar_step. destruct (datar_st (phy_datar s)); cbn; try congruence.
    destruct (pi_datar_valid i); cbn; congruence.
  - unfold datar_step. destruct (datar_st (phy_datar s)); cbn; try congruence.
    destruct (pi_datar_valid i); cbn; congruence.
Qed.

(** With a single module asserting an enable, the OR-reduction is that
    module's value: the others contribute zero. *)
Lemma or_mux_cmd (a b c d e m : pads_o) :
  Forall quiet_when_off [a; b; c; d; e] ->
  In m [a; b; c; d; e] -> cmd_oe m = true ->
  count_true cmd_oe [a; b; c; d; e] = 1%nat ->
  reduce_or_bool cmd_o [a; b; c; d; e] = cmd_o m.
Proof.
  intros Hq Hin Hm Hcnt.
  inversion Hq as [|? ? [Qa _] Hq1]; subst. inversion Hq1 as [|? ? [Qb _] Hq2]; subst.
  inversion Hq2 as [|? ? [Qc _] Hq3]; subst. inversion Hq3 as [|? ? [Qd _] Hq4]; subst.
  inversion Hq4 as [|? ? [Qe _] _]; subst.
  rewrite reduce_or_bool_5. unfold count_true in Hcnt. cbn [filter] in Hcnt.
  destruct (cmd_oe a) eqn:Ea, (cmd_oe b) eqn:Eb, (cmd_oe c) eqn:Ec,
           (cmd_oe d) eqn:Ed, (cmd_oe e) eqn:Ee;
    cbn [length] in Hcnt; try discriminate Hcnt;
    rewrite ?(Qa eq_refl), ?(Qb eq_refl), ?(Qc eq_refl), ?(Qd eq_refl), ?(Qe eq_refl);
    cbn [In] in Hin;
    destruct Hin as [<-|[<-|[<-|[<-|[<-|[]]]]]]; try congruence;
    cbn [orb]; rewrite ?orb_false_r; reflexivity.
Qed.

Lemma or_mux_data (a b c d e m : pads_o) :
  Forall quiet_when_off [a; b; c; d; e] ->
  In m [a; b; c; d; e] -> data_oe m = true ->
  count_true data_oe [a; b; c; d; e] = 1%nat ->
  reduce_or_bits data_o [a; b; c; d; e] = data_o m.
Proof.
  intros Hq Hin Hm Hcnt.
  inversion Hq as [|? ? [_ Qa] Hq1]; subst. inversion Hq1 as [|? ? [_ Qb] Hq2]; subst.
  inversion Hq2 as [|? ? [_ Qc] Hq3]; subst. inversion Hq3 as [|? ? [_ Qd] Hq4]; subst.
  inversion Hq4 as [|? ? [_ Qe] _]; subst.
  unfold reduce_or_bits. cbn [map fold_left].
  unfold count_true in Hcnt. cbn [filter] in Hcnt.
  destruct (data_oe a) eqn:Ea, (data_oe b) eqn:Eb, (data_oe c) eqn:Ec,
           (data_oe d) eqn:Ed, (data_oe e) eqn:Ee;
    cbn [length] in Hcnt; try discriminate Hcnt;
    rewrite ?(Qa eq_refl), ?(Qb eq_refl), ?(Qc eq_refl), ?(Qd eq_refl), ?(Qe eq_refl);
    cbn [In] in Hin;
    destruct Hin as [<-|[<-|[<-|[<-|[<-|[]]]]]]; try congruence;
    rewrite ?Z.lor_0_r, ?Z.lor_0_l; reflexivity.
Qed.

(** C9 (amended): in every state of the combined engine and in every line
    cycle:
    - at most one of the four state machines asserts the data lines'
      output-enable: the command writer, the command reader and the data
      reader never do, and the data writer does so in START, DATA and STOP
      and, in IDLE, exactly when a byte is offered to it;
    - the data reader and the data writer never assert the command line's
      output-enable; the command writer asserts it exactly in WRITE and CLK8
      and the command reader exactly in CLK8;
    - in a cycle in which the command reader leaves IDLE none of the four
      asserts the command line's output-enable;
    - in a state reached from reset by a run in which the controller offers
      the command writer no byte while the command reader is away from IDLE,
      at most one of the four asserts the command line's output-enable;
    - when the four machines are all in IDLE and no byte is offered to the
      data writer, none of them asserts an output-enable;
    - the shared bus outputs are the OR of the outputs of the five modules,
      the initialisation sequencer included; a module that does not assert
      an enable contributes the value zero, so that when a single module
      asserts the command (data) enable the bus carries that module's
      command (data) value. *)
Theorem line_drivers (tc td : Z) (s : sdphy_state) (i : sdphy_in) :
  let step := sdphy_step tc td s i in
  let o := snd step in
  (data_oe_drivers o <= 1)%nat
  /\ data_oe (po_cmdw o) = false /\ data_oe (po_cmdr o) = false
  /\ data_oe (po_datar o) = false /\ cmd_oe (po_datar o) = false
  /\ cmd_oe (po_dataw o) = false
  /\ (cmdr_st (phy_cmdr s) = CMDR_IDLE ->
      cmdr_st (phy_cmdr (fst step)) = CMDR_WAIT ->
      cmd_oe_drivers o = 0%nat)
  /\ clk (sdpads o) =
       clk (po_init o) || clk (po_cmdw o) || clk (po_cmdr o)
       || clk (po_dataw o) || clk (po_datar o)
  /\ cmd_oe (sdpads o) =
       cmd_oe (po_init o) || cmd_oe (po_cmdw o) || cmd_oe (po_cmdr o)
       || cmd_oe (po_dataw o) || cmd_oe (po_datar o)
  /\ cmd_o (sdpads o) =
       cmd_o (po_init o) || cmd_o (po_cmdw o) || cmd_o (po_cmdr o)
       || cmd_o (po_dataw o) || cmd_o (po_datar o)
  /\ data_oe (sdpads o) =
       data_oe (po_init o) || data_oe (po_cmdw o) || data_oe (po_cmdr o)
       || data_oe (po_dataw o) || data_oe (po_datar o)
  /\ data_o (sdpads o) =
       Z.lor (Z.lor (Z.lor (Z.lor (data_o (po_init o)) (data_o (po_cmdw o)))
                       (data_o (po_cmdr o))) (data_o (po_dataw o)))
             (data_o (po_datar o))
  /\ data_oe (po_dataw o) = dataw_drives_data (phy_dataw s) (pi_dataw_sink i)
  /\ cmd_oe (po_cmdw o) = cmdw_drives_cmd (phy_cmdw s)
  /\ cmd_oe (po_cmdr o) = cmdr_drives_cmd (phy_cmdr s)
  /\ (forall ins,
        s = final (sdphy_step tc td) (sdphy_reset tc td) ins ->
        cmd_disciplined tc td (sdphy_reset tc td) (ins ++ [i]) = true ->
        (cmd_oe_drivers o <= 1)%nat)
  /\ (fsms_idle s -> bs_valid (pi_dataw_sink i) = false -> oe_drivers o = 0%nat)
  /\ Forall quiet_when_off (sdphy_modules o)
  /\ (forall m, In m (sdphy_modules o) -> cmd_oe m = true ->
        count_true cmd_oe (sdphy_modules o) = 1%nat ->
        cmd_o (sdpads o) = cmd_o m)
  /\ (forall m, In m (sdphy_modules o) -> data_oe m = true ->
        count_true data_oe (sdphy_modules o) = 1%nat ->
        data_o (sdpads o) = data_o m).
Proof.
  intros step o.
  assert (Ho : o = snd (sdphy_step tc td s i)) by reflexivity.
  rewrite sdphy_step_out in Ho. cbv zeta in Ho.
  set (ow := snd (cmdw_step (phy_cmdw s) (pi_cmdw_sink i))) in *.
  set (ci := {| ci_pads := pi_pads i; ci_valid := pi_cmdr_valid i;
                ci_length := rq_length (pi_cmdr_req i);
                ci_last := rq_last (pi_cmdr_req i);
                ci_cmdw_done := cmdw_done ow; ci_ready := pi_cmdr_ready i |}) in *.
  set (di := {| di_pads := pi_pads i; di_valid := pi_datar_valid i;
                di_block_length := rq_length (pi_datar_req i);
                di_last := rq_last (pi_datar_req i);
                di_ready := pi_datar_ready i |}) in *.
  destruct (cmdw_oe_states (phy_cmdw s) (pi_cmdw_sink i)) as [Hw1 Hw2].
  destruct (cmdr_oe_states tc (phy_cmdr s) ci) as [Hr1 Hr2].
  destruct (datar_no_oe td (phy_datar s) di) as [Hd1 Hd2].
  pose proof (dataw_no_cmd_oe (phy_dataw s) (pi_pads i, pi_dataw_sink i)) as Hdw.
  fold ow in Hw1, Hw2.
  assert (E1 : po_cmdw o = cmdw_pads ow) by (rewrite Ho; reflexivity).
  assert (E2 : po_cmdr o = co_pads (snd (cmdr_step tc (phy_cmdr s) ci)))
    by (rewrite Ho; reflexivity).
  assert (E3 : po_dataw o =
               dataw_pads (snd (dataw_step (phy_dataw s) (pi_pads i, pi_dataw_sink i))))
    by (rewrite Ho; reflexivity).
  assert (E4 : po_datar o = do_pads (snd (datar_step td (phy_datar s) di)))
    by (rewrite Ho; reflexivity).
  assert (Hcnt : forall f, count_true f (sdphy_fsms o) =
            ((if f (po_cmdw o) then 1 else 0) + (if f (po_cmdr o) then 1 else 0)
             + (if f (po_dataw o) then 1 else 0) + (if f (po_datar o) then 1 else 0))%nat).
  { intros f. unfold count_true, sdphy_fsms. cbn [filter].
    destruct (f (po_cmdw o)), (f (po_cmdr o)), (f (po_dataw o)), (f (po_datar o));
      reflexivity. }
  assert (Cw : cmd_oe (po_cmdw o) = cmdw_drives_cmd (phy_cmdw s)).
  { rewrite E1. subst ow. unfold cmdw_step, cmdw_drives_cmd.
    destruct (cmdw_st (phy_cmdw s)); reflexivity. }
  assert (Cr : cmd_oe (po_cmdr o) = cmdr_drives_cmd (phy_cmdr s)).
  { rewrite E2. unfold cmdr_step, cmdr_drives_cmd.
    destruct (cmdr_st (phy_cmdr s)); reflexivity. }
  assert (Dw : data_oe (po_dataw o) = dataw_drives_data (phy_dataw s) (pi_dataw_sink i)).
  { rewrite E3. unfold dataw_step, dataw_drives_data.
    destruct (dataw_st (phy_dataw s)); try reflexivity.
    destruct (bs_valid (pi_dataw_sink i)); reflexivity. }
  assert (Hq : Forall quiet_when_off (sdphy_modules o))
    by (subst o step; apply quiet_modules).
  split; [|split; [|split; [|split; [|split; [|split; [|split]]]]]].
  - unfold data_oe_drivers. rewrite Hcnt, E1, E2, E4, Hw1, Hr1, Hd2.
    destruct (data_oe (po_dataw o)); cbn; lia.
  - now rewrite E1.
  - now rewrite E2.
  - now rewrite E4.
  - now rewrite E4.
  - now rewrite E3.
  - intros Hidle Hwait.
    assert (Hdone : cmdw_done ow = true).
    { assert (Hs : cmdr_st (phy_cmdr (fst step)) =
                   cmdr_st (fst (cmdr_step tc (phy_cmdr s) ci))).
      { subst step. rewrite sdphy_step_cmdr. reflexivity. }
      rewrite Hs in Hwait. unfold cmdr_step in Hwait. rewrite Hidle in Hwait.
      cbn in Hwait.
      destruct (pi_cmdr_valid i), (cmdw_done ow); cbn in Hwait; congruence. }
    assert (Hwidle : cmd_oe (cmdw_pads ow) = false).
    { clear - Hdone. subst ow. unfold cmdw_step in *.
      destruct (cmdw_st (phy_cmdw s)); cbn in *; congruence. }
    assert (Hridle : cmd_oe (co_pads (snd (cmdr_step tc (phy_cmdr s) ci))) = false).
    { clear - Hidle. unfold cmdr_step. rewrite Hidle. reflexivity. }
    unfold cmd_oe_drivers. rewrite Hcnt, E1, E2, E3, E4, Hwidle, Hridle, Hdw, Hd1.
    reflexivity.
  - repeat (split; [reflexivity|]).
    split; [exact Dw|]. split; [exact Cw|]. split; [exact Cr|].
    split; [|split; [|split; [exact Hq|split]]].
    + (* a polite controller: the reader's trailer finds the writer idle *)
      intros ins Hs Hdisc.
      assert (H0 : reader_has_line (sdphy_reset tc td)).
      { unfold reader_has_line, sdphy_reset. cbn. congruence. }
      destruct (reader_has_line_run tc td ins (sdphy_reset tc td) i H0 Hdisc)
        as [Hinv _].
      rewrite <- Hs in Hinv. unfold reader_has_line in Hinv.
      unfold cmd_oe_drivers. rewrite Hcnt, Cw, Cr.
      rewrite E3, Hdw, E4, Hd1.
      unfold cmdr_drives_cmd, cmdw_drives_cmd.
      destruct (cmdr_st (phy_cmdr s)) eqn:Er;
        try (rewrite (Hinv ltac:(discriminate)); cbn; lia).
      destruct (cmdw_st (phy_cmdw s)); cbn; lia.
    + (* every machine idle and nothing offered to the data writer *)
      intros (I1 & I2 & I3 & I4) Hv.
      unfold oe_drivers. rewrite Hcnt, Cw, Cr, Dw.
      rewrite E1, Hw1, E2, Hr1, E3, Hdw, E4, Hd1, Hd2.
      unfold cmdw_drives_cmd, cmdr_drives_cmd, dataw_drives_data.
      rewrite I1, I2, I3, Hv. reflexivity.
    + intros m Hin Hm Hone.
      apply (or_mux_cmd (po_init o) (po_cmdw o) (po_cmdr o) (po_dataw o) (po_datar o) m
               Hq Hin Hm Hone).
    + intros m Hin Hm Hone.
      apply (or_mux_data (po_init o) (po_cmdw o) (po_cmdr o) (po_dataw o) (po_datar o) m
               Hq Hin Hm Hone).
Qed.

Lemma line_drivers_witness :
  cmd_disciplined 250000 250000 (sdphy_reset 250000 250000)
    (polite_inputs ++ [polite_final]) = true
  /\ (cmd_oe_drivers
        (snd (sdphy_step 250000 250000
                (final (sdphy_step 250000 250000) (sdphy_reset 250000 250000)
                   polite_inputs) polite_final)) <= 1)%nat.
Proof.
  split; [vm_compute; reflexivity|].
  pose proof (line_drivers 250000 250000
                (final (sdphy_step 250000 250000) (sdphy_reset 250000 250000)
                   polite_inputs)
                polite_final) as H.
  cbv zeta in H.
  destruct H as (_ & _ & _ & _ & _ & _ & _ & _ & _ & _ & _ & _ & _ & _ & _ & Hd & _).
  apply (Hd polite_inputs); [reflexivity | vm_compute; reflexivity].
Defined.

(** In the polite run of the witness the command reader is sending its
    trailer in the final cycle and is the only machine driving the line. *)
Example polite_run_reader_drives :
  let s := final (sdphy_step 250000 250000) (sdphy_reset 250000 250000) polite_inputs in
  cmdr_st (phy_cmdr s) = CMDR_CLK8
  /\ cmd_oe_drivers (snd (sdphy_step 250000 250000 s polite_final)) = 1%nat.
Proof. split; vm_compute; reflexivity. Qed.

(** The command line's output-enable is not exclusive by construction: the
    command reader only checks [cmdw.done] when it accepts a request, so a
    byte handed to the writer while the reader sends its trailer makes both
    machines drive the line in the same cycle. *)
Example cmd_line_two_drivers :
  cmd_oe_drivers
    (last (trace (sdphy_step 250000 250000) (sdphy_reset 250000 250000) overlap_inputs)
          (snd (sdphy_step 250000 250000 (sdphy_reset 250000 250000) sdphy_quiet_in)))
  = 2%nat.
Proof. vm_compute. reflexivity. Qed.

(** ** SDPHYCMDW *)

Lemma cmd_line_bits_app (a b : list pads_o) :
  cmd_line_bits (a ++ b) = cmd_line_bits a ++ cmd_line_bits b.
Proof. unfold cmd_line_bits. now rewrite filter_app, map_app. Qed.

(** One byte, from IDLE: an idle cycle, eight bit cycles and, for a byte
    marked [last], the trailer. *)
Lemma cmdw_one_byte (c b : Z) (l : bool) (q : list (Z * bool)) :
  let s0 := ({| cmdw_st := CMDW_IDLE; cmdw_count := c |}, (b, l) :: q) in
  let n := (9 + (if l then cmdw_trailer else 0))%nat in
  final cmdw_cycle s0 (repeat tt n) = ({| cmdw_st := CMDW_IDLE; cmdw_count := 8 |}, q)
  /\ cmd_line_bits (trace cmdw_cycle s0 (repeat tt n)) =
       byte_bits b ++ (if l then repeat true cmdw_trailer else []).
Proof.
  destruct l; split; vm_compute; reflexivity.
Qed.

(** The writer serialises every queue of bytes MSB first; after a byte marked
    [last] it keeps the line high for [cmdw_trailer] cycles. *)
Lemma cmdw_serialises (q : list (Z * bool)) (c : Z) :
  let s0 := ({| cmdw_st := CMDW_IDLE; cmdw_count := c |}, q) in
  cmd_line_bits (trace cmdw_cycle s0 (repeat tt (cmdw_cycles q))) = cmdw_line q
  /\ snd (final cmdw_cycle s0 (repeat tt (cmdw_cycles q))) = []
  /\ cmdw_st (fst (final cmdw_cycle s0 (repeat tt (cmdw_cycles q)))) = CMDW_IDLE.
Proof.
  revert c; induction q as [|[b l] q IH]; intros c; cbv zeta.
  - repeat split.
  - cbn [cmdw_cycles cmdw_line flat_map fst snd].
    rewrite repeat_app, trace_app, final_app, cmd_line_bits_app.
    destruct (cmdw_one_byte c b l q) as [Hf Ht]. cbv zeta in Hf, Ht.
    rewrite Hf, Ht. destruct (IH 8) as (H1 & H2 & H3). cbv zeta in H1, H2, H3.
    rewrite H1. repeat split; assumption.
Qed.

(** C1, evaluated on the code: for CMD0 the command line carries the 48 bits
    of the six bytes, MSB first, and then stays high for 256 clocked cycles,
    not for 8; only then is the writer idle again. *)
Theorem cmdw_trailer_is_256_cycles :
  let tr := trace cmdw_cycle (cmdw_reset, cmd0_bytes) (repeat tt 400) in
  cmd_line_bits tr = flat_map (fun bl : Z * bool => byte_bits (fst bl)) cmd0_bytes ++ repeat true 256
  /\ cmd_line_bits tr <> flat_map (fun bl : Z * bool => byte_bits (fst bl)) cmd0_bytes ++ repeat true 8
  /\ cmdw_st (fst (final cmdw_cycle (cmdw_reset, cmd0_bytes) (repeat tt (6 * 9 + 8)))) = CMDW_CLK8
  /\ final cmdw_cycle (cmdw_reset, cmd0_bytes) (repeat tt (6 * 9 + 256)) =
       ({| cmdw_st := CMDW_IDLE; cmdw_count := 8 |}, []).
Proof.
  cbv zeta. split; [vm_compute; reflexivity|].
  split; [|split; vm_compute; reflexivity].
  intros H. apply (f_equal (@length bool)) in H. vm_compute in H. discriminate H.
Qed.

(** ** SDPHYCMDR *)

Lemma items_of_app {P : Type} (a b : list (P * list item)) :
  items_of (a ++ b) = items_of a ++ items_of b.
Proof. unfold items_of. now rewrite map_app, concat_app. Qed.

Lemma eqb_pos_false (t : Z) : 0 < t -> (t =? 0) = false.
Proof. intros H. apply Z.eqb_neq. lia. Qed.

Lemma wrap32_pred (t : Z) : 0 < t < 2 ^ 32 -> wrap 32 (t - 1) = t - 1.
Proof. intros H. apply wrap_small. lia. Qed.

(** While the line idles high an armed command reader only counts its
    timeout down. *)
Lemma cmdr_hold_step (T : Z) (st : cmdr_fsm) (tau : Z) (q : list read_req) (li : line_in) :
  st = CMDR_WAIT \/ st = CMDR_CMD ->
  0 < tau < 2 ^ 32 ->
  sdphyr_start cmdr_params (li_pads li) = false ->
  cmdr_cycle T (cmdr_armed st tau, q) li =
    ((cmdr_armed st (tau - 1), q), (clk_only, [])).
Proof.
  intros Hst Htau Hs.
  unfold cmdr_cycle, cmdr_step, cmdr_armed.
  destruct Hst as [-> | ->];
    cbn [cmdr_st cmdr_count cmdr_timeout cmdr_rst cmdr_rd ci_pads ci_ready
         sdphyr_valid sdphyr_data sdphyr_reset r_buf_valid r_buf_data
         andb orb co_sink_ready co_pads co_src emitted src_valid];
    rewrite (eqb_pos_false tau) by lia; rewrite wrap32_pred by lia;
    unfold sdphyr_step, sdphyr_next;
    cbn [r_run r_demux r_strobe_all r_conv_data r_buf_valid r_buf_data
         p_skip_start_bit cmdr_params sdphyr_reset andb orb negb];
    fold cmdr_params; rewrite Hs; reflexivity.
Qed.

Lemma cmdr_accept (T : Z) (s : cmdr_state) (r : read_req) (q : list read_req)
    (li : line_in) :
  0 <= T < 2 ^ 32 ->
  cmdr_st s = CMDR_IDLE ->
  cmdr_cycle T (s, r :: q) li =
    ((cmdr_accepted T
        (sdphyr_step cmdr_params (cmdr_rd s) (li_pads li) false (cmdr_rst s)),
      r :: q),
     (pads_quiet, [])).
Proof.
  intros HT Hs. unfold cmdr_cycle, cmdr_step. rewrite Hs, (wrap_small 32 T) by exact HT.
  reflexivity.
Qed.

Lemma cmdr_release (T : Z) (rd : sdphyr_state) (q : list read_req) (li : line_in) :
  0 < T < 2 ^ 32 ->
  cmdr_cycle T (cmdr_accepted T rd, q) li =
    ((cmdr_armed (if sdphyr_valid rd then CMDR_CMD else CMDR_WAIT) (T - 1), q),
     (clk_only, [])).
Proof.
  intros HT. unfold cmdr_cycle, cmdr_step, cmdr_accepted, cmdr_armed.
  cbn [cmdr_st cmdr_count cmdr_timeout cmdr_rst cmdr_rd sdphyr_step
       co_sink_ready co_pads co_src emitted src_valid src_quiet andb].
  rewrite (eqb_pos_false T) by lia. rewrite wrap32_pred by lia. reflexivity.
Qed.

Lemma cmdr_release_expired (rd : sdphyr_state) (r : read_req) (q : list read_req)
    (li : line_in) :
  exists s', cmdr_st s' = CMDR_TIMEOUT /\
    cmdr_cycle 0 (cmdr_accepted 0 rd, r :: q) li = ((s', q), (clk_only, [])).
Proof.
  eexists. split; [|reflexivity]. reflexivity.
Qed.

Lemma cmdr_hold (T : Z) (st : cmdr_fsm) (q : list read_req) (ws : list line_in) (tau : Z) :
  st = CMDR_WAIT \/ st = CMDR_CMD ->
  Z.of_nat (length ws) <= tau < 2 ^ 32 ->
  no_start cmdr_params ws ->
  run (cmdr_cycle T) (cmdr_armed st tau, q) ws =
    ((cmdr_armed st (tau - Z.of_nat (length ws)), q),
     repeat (clk_only, []) (length ws)).
Proof.
  intros Hst. revert tau; induction ws as [|w ws IH]; intros tau Htau Hns.
  - cbn. now rewrite Z.sub_0_r.
  - inversion Hns as [|? ? Hw Hws]; subst.
    cbn [length] in Htau. cbn [run].
    rewrite cmdr_hold_step by (auto; lia).
    rewrite IH by (auto; lia).
    cbn [length repeat]. f_equal. f_equal. f_equal. lia.
Qed.

Lemma cmdr_expire (T : Z) (st : cmdr_fsm) (r : read_req) (q : list read_req)
    (li : line_in) :
  st = CMDR_WAIT \/ st = CMDR_CMD ->
  exists s', cmdr_st s' = CMDR_TIMEOUT /\
    cmdr_cycle T (cmdr_armed st 0, r :: q) li = ((s', q), (clk_only, [])).
Proof.
  intros [-> | ->]; eexists; (split; [|reflexivity]); reflexivity.
Qed.

Lemma cmdr_timeout_stall (T : Z) (s : cmdr_state) (q : list read_req) (ws : list line_in) :
  cmdr_st s = CMDR_TIMEOUT -> stalled ws ->
  exists s', cmdr_st s' = CMDR_TIMEOUT /\
    final (cmdr_cycle T) (s, q) ws = (s', q) /\
    items_of (trace (cmdr_cycle T) (s, q) ws) = [].
Proof.
  revert s; induction ws as [|w ws IH]; intros s Hs Hst.
  - exists s. repeat split; auto.
  - inversion Hst as [|? ? Hw Hws]; subst.
    rewrite final_cons, trace_cons.
    assert (E : cmdr_cycle T (s, q) w =
                (({| cmdr_st := CMDR_TIMEOUT; cmdr_count := cmdr_count s;
                     cmdr_timeout := cmdr_timeout s; cmdr_rst := cmdr_rst s;
                     cmdr_rd := sdphyr_step cmdr_params (cmdr_rd s) (li_pads w)
                                  false (cmdr_rst s) |}, q),
                 (pads_quiet, []))).
    { unfold cmdr_cycle, cmdr_step. rewrite Hs.
      cbn [ci_ready co_sink_ready co_pads co_src emitted src_valid andb].
      rewrite Hw. reflexivity. }
    rewrite E. cbn [fst snd].
    edestruct IH as (s' & H1 & H2 & H3); [|exact Hws|].
    2:{ exists s'. split; [exact H1|]. split; [exact H2|].
        unfold items_of in *. cbn [map concat snd app]. exact H3. }
    reflexivity.
Qed.

Lemma cmdr_timeout_accept (T : Z) (s : cmdr_state) (q : list read_req) (li : line_in) :
  cmdr_st s = CMDR_TIMEOUT -> li_ready li = true ->
  exists s', cmdr_st s' = CMDR_IDLE /\
    cmdr_cycle T (s, q) li = ((s', q), (pads_quiet, [timeout_item])).
Proof.
  intros Hs Hr. eexists. split; [|unfold cmdr_cycle, cmdr_step; rewrite Hs;
    cbn [ci_ready co_sink_ready co_pads co_src emitted src_valid src_data
         src_status src_last andb]; rewrite Hr; reflexivity].
  reflexivity.
Qed.

(** C3: a request accepted by the command reader whose line shows no start
    condition while the timeout counter, reloaded on acceptance, runs down to
    zero ([T] cycles after the reader's reset) is consumed, and its result
    stream consists of exactly one item, with status TIMEOUT and [last] set,
    handed over as soon as the stream is ready; no data byte is produced and
    the reader is idle again. *)
Theorem cmdr_times_out (T : Z) (s : cmdr_state) (r : read_req) (q : list read_req)
    (i0 i1 : line_in) (ws stall : list line_in) (fin : line_in) :
  0 <= T < 2 ^ 32 ->
  cmdr_st s = CMDR_IDLE ->
  Z.of_nat (length ws) = T ->
  no_start cmdr_params ws ->
  stalled stall ->
  li_ready fin = true ->
  let ins := i0 :: i1 :: ws ++ stall ++ [fin] in
  items_of (trace (cmdr_cycle T) (s, r :: q) ins) = [timeout_item]
  /\ snd (final (cmdr_cycle T) (s, r :: q) ins) = q
  /\ cmdr_st (fst (final (cmdr_cycle T) (s, r :: q) ins)) = CMDR_IDLE.
Proof.
  intros HT Hs Hlen Hns Hstall Hfin ins. subst ins.
  assert (Hexp : exists s1, cmdr_st s1 = CMDR_TIMEOUT /\
            final (cmdr_cycle T) (s, r :: q) (i0 :: i1 :: ws) = (s1, q) /\
            items_of (trace (cmdr_cycle T) (s, r :: q) (i0 :: i1 :: ws)) = []).
  { rewrite !final_cons, !trace_cons, (cmdr_accept T s r q i0 ltac:(lia) Hs). cbn [fst snd].
    destruct ws as [|w ws _] using rev_ind.
    - cbn [length Z.of_nat] in Hlen. subst T.
      destruct (cmdr_release_expired
                  (sdphyr_step cmdr_params (cmdr_rd s) (li_pads i0) false (cmdr_rst s))
                  r q i1) as (s1 & H1 & H2).
      exists s1. rewrite H2. repeat split; auto.
    - rewrite length_app in Hlen. cbn [length] in Hlen.
      rewrite cmdr_release by lia. cbn [fst snd].
      apply Forall_app in Hns. destruct Hns as [Hns Hw].
      set (st := if sdphyr_valid _ then CMDR_CMD else CMDR_WAIT).
      assert (Hst : st = CMDR_WAIT \/ st = CMDR_CMD)
        by (subst st; destruct (sdphyr_valid _); auto).
      rewrite final_app, trace_app.
      pose proof (cmdr_hold T st (r :: q) ws (T - 1) Hst ltac:(lia) Hns) as Hh.
      rewrite (run_final _ _ _ _ _ Hh), (run_trace _ _ _ _ _ Hh).
      replace (T - 1 - Z.of_nat (length ws)) with 0 by lia.
      destruct (cmdr_expire T st r q w Hst) as (s1 & H1 & H2).
      exists s1. split; [exact H1|].
      rewrite final_cons, trace_cons, H2. cbn [fst snd final_nil].
      split; [reflexivity|].
      unfold items_of. cbn [map concat snd app].
      rewrite map_app, concat_app. cbn [map concat snd app].
      rewrite app_nil_r.
      clear. induction (length ws); cbn; auto. }
  destruct Hexp as (s1 & Hs1 & Hf1 & Hi1).
  change (i0 :: i1 :: ws ++ stall ++ [fin]) with ((i0 :: i1 :: ws) ++ stall ++ [fin]).
  rewrite !final_app, !trace_app, !items_of_app, Hf1, Hi1.
  destruct (cmdr_timeout_stall T s1 q stall Hs1 Hstall) as (s2 & Hs2 & Hf2 & Hi2).
  rewrite Hf2, Hi2.
  destruct (cmdr_timeout_accept T s2 q fin Hs2 Hfin) as (s3 & Hs3 & Hc3).
  rewrite final_cons, trace_cons, Hc3. cbn [fst snd final_nil].
  repeat split; auto.
Qed.

(** *** One cycle of the command reader while its bit reader runs *)

Lemma cmdr_rd_running (k : Z) (s : bool) (d : Z) (v : bool) (e : Z)
    (pads : pads_i) (rdy : bool) :
  sdphyr_step cmdr_params
    {| r_run := true; r_demux := k; r_strobe_all := s; r_conv_data := d;
       r_buf_valid := v; r_buf_data := e |} pads rdy false =
  let pipe_ce := rdy || negb v in
  let load := negb s || pipe_ce in
  {| r_run := true;
     r_demux := if load then (if k =? 7 then 0 else k + 1) else k;
     r_strobe_all := if load && (k =? 7) then true else if pipe_ce then false else s;
     r_conv_data := if load then conv_put d k (cmd_i pads) else d;
     r_buf_valid := if pipe_ce then s else v;
     r_buf_data := if pipe_ce then d else e |}.
Proof.
  unfold sdphyr_step, sdphyr_next.
  cbn [r_run r_demux r_strobe_all r_conv_data r_buf_valid r_buf_data
       p_skip_start_bit p_cmd p_data_width cmdr_params pads_in_data].
  rewrite !orb_true_r. reflexivity.
Qed.

Ltac cmdr_unfold :=
  unfold cmdr_cycle, cmdr_step, cmdr_armed, cmdr_loading, cmdr_full, cmdr_holding;
  cbn [cmdr_st cmdr_count cmdr_timeout cmdr_rst cmdr_rd ci_pads ci_ready ci_valid
       ci_length ci_last li_pads li_ready cmd_sample
       sdphyr_valid sdphyr_data r_buf_valid r_buf_data].

Ltac cmdr_fold_out :=
  cbn [co_sink_ready co_pads co_src emitted src_valid src_data src_status src_last
       src_quiet andb orb negb].

Lemma cmdr_start_bit (T : Z) (st : cmdr_fsm) (tau : Z) (q : list read_req) (x : Z) :
  st = CMDR_WAIT \/ st = CMDR_CMD ->
  0 < tau < 2 ^ 32 ->
  low_bits 1 x = 0 ->
  cmdr_cycle T (cmdr_armed st tau, q) (cmd_sample x) =
    ((cmdr_loading st 0 (tau - 1) 1 (conv_put 0 0 x) 0, q), (clk_only, [])).
Proof.
  intros Hst Htau Hx.
  assert (Hs : sdphyr_start cmdr_params (cmd_level x) = true).
  { unfold sdphyr_start, pads_in_data. cbn [p_cmd p_data_width cmdr_params cmd_level cmd_i].
    rewrite Hx. reflexivity. }
  cmdr_unfold.
  destruct Hst as [-> | ->]; cbn [sdphyr_reset r_buf_valid andb]; cmdr_fold_out;
    rewrite (eqb_pos_false tau) by lia; rewrite wrap32_pred by lia;
    unfold sdphyr_step, sdphyr_next;
    cbn [r_run r_demux r_strobe_all r_conv_data r_buf_valid r_buf_data
         p_skip_start_bit cmdr_params];
    fold cmdr_params; rewrite Hs; reflexivity.
Qed.

Lemma cmdr_load (T : Z) (st : cmdr_fsm) (m tau k d e : Z) (q : list read_req) (x : Z) :
  st = CMDR_WAIT \/ st = CMDR_CMD ->
  0 < tau < 2 ^ 32 ->
  cmdr_cycle T (cmdr_loading st m tau k d e, q) (cmd_sample x) =
    ((if k =? 7 then cmdr_full st m (tau - 1) (conv_put d k x) d
      else cmdr_loading st m (tau - 1) (k + 1) (conv_put d k x) d, q),
     (clk_only, [])).
Proof.
  intros Hst Htau. cmdr_unfold.
  destruct Hst as [-> | ->]; cmdr_fold_out;
    rewrite (eqb_pos_false tau) by lia; rewrite wrap32_pred by lia;
    rewrite cmdr_rd_running; cbv zeta; cbn [andb orb negb cmd_level cmd_i];
    destruct (k =? 7); reflexivity.
Qed.

Lemma cmdr_buffer (T : Z) (st : cmdr_fsm) (m tau d e : Z) (q : list read_req) (x : Z) :
  st = CMDR_WAIT \/ st = CMDR_CMD ->
  0 < tau < 2 ^ 32 ->
  cmdr_cycle T (cmdr_full st m tau d e, q) (cmd_sample x) =
    ((cmdr_holding st m (tau - 1) 1 (conv_put d 0 x) d, q), (clk_only, [])).
Proof.
  intros Hst Htau. cmdr_unfold.
  destruct Hst as [-> | ->]; cmdr_fold_out;
    rewrite (eqb_pos_false tau) by lia; rewrite wrap32_pred by lia;
    rewrite cmdr_rd_running; reflexivity.
Qed.

Lemma cmdr_wait_sees_byte (T : Z) (m tau k d b : Z) (q : list read_req) (x : Z) :
  0 < tau < 2 ^ 32 -> 0 <= k < 7 ->
  cmdr_cycle T (cmdr_holding CMDR_WAIT m tau k d b, q) (cmd_sample x) =
    ((cmdr_holding CMDR_CMD m (tau - 1) (k + 1) (conv_put d k x) b, q), (clk_only, [])).
Proof.
  intros Htau Hk. cmdr_unfold. cmdr_fold_out.
  rewrite (eqb_pos_false tau) by lia; rewrite wrap32_pred by lia.
  rewrite cmdr_rd_running; cbv zeta; cbn [andb orb negb cmd_level cmd_i].
  replace (k =? 7) with false by (symmetry; apply Z.eqb_neq; lia).
  reflexivity.
Qed.

Lemma cmdr_xfer_more (T : Z) (m tau k d b : Z) (r : read_req) (q : list read_req) (x : Z) :
  0 < tau < 2 ^ 32 -> 0 <= k < 7 ->
  0 <= m < 255 -> m <> wrap 8 (rq_length r - 1) ->
  cmdr_cycle T (cmdr_holding CMDR_CMD m tau k d b, r :: q) (cmd_sample x) =
    ((cmdr_loading CMDR_CMD (m + 1) (tau - 1) (k + 1) (conv_put d k x) d, r :: q),
     (clk_only, [(b, SDCARD_STREAM_STATUS_OK, false)])).
Proof.
  intros Htau Hk Hm Hlast. cmdr_unfold.
  replace (m =? wrap 8 (rq_length r - 1)) with false by (symmetry; now apply Z.eqb_neq).
  cmdr_fold_out.
  rewrite (eqb_pos_false tau) by lia; rewrite wrap32_pred by lia.
  rewrite (wrap_small 8 (m + 1)) by (change (2 ^ 8) with 256; lia).
  rewrite cmdr_rd_running; cbv zeta; cbn [andb orb negb cmd_level cmd_i].
  replace (k =? 7) with false by (symmetry; apply Z.eqb_neq; lia).
  reflexivity.
Qed.

Lemma cmdr_xfer_last (T : Z) (m tau k d b : Z) (r : read_req) (q : list read_req) (x : Z) :
  0 < tau < 2 ^ 32 ->
  m = wrap 8 (rq_length r - 1) ->
  exists s', cmdr_over s' /\
    cmdr_cycle T (cmdr_holding CMDR_CMD m tau k d b, r :: q) (cmd_sample x) =
      ((s', q), (clk_only, [(b, SDCARD_STREAM_STATUS_OK, true)])).
Proof.
  intros Htau Hm. cmdr_unfold.
  replace (m =? wrap 8 (rq_length r - 1)) with true by (symmetry; now apply Z.eqb_eq).
  cmdr_fold_out. rewrite (eqb_pos_false tau) by lia.
  eexists. split; [|reflexivity].
  unfold cmdr_over. cbn [cmdr_st]. destruct (rq_last r); auto.
Qed.

(** *** Eight line cycles at a time *)

Ltac cmdr_steps :=
  repeat first
    [ rewrite cmdr_start_bit by (auto; lia)
    | rewrite cmdr_buffer by (auto; lia)
    | rewrite cmdr_wait_sees_byte by lia
    | rewrite cmdr_xfer_more by (auto; lia)
    | rewrite cmdr_load by (auto; lia) ];
  cbn [Z.eqb Pos.eqb Z.add Pos.add Pos.succ].

Lemma cmdr_first_byte (T : Z) (st : cmdr_fsm) (tau : Z) (q : list read_req)
    (x0 x1 x2 x3 x4 x5 x6 x7 : Z) :
  st = CMDR_WAIT \/ st = CMDR_CMD ->
  8 <= tau < 2 ^ 32 ->
  low_bits 1 x0 = 0 ->
  exists e,
    run (cmdr_cycle T) (cmdr_armed st tau, q)
        (map cmd_sample [x0; x1; x2; x3; x4; x5; x6; x7]) =
      ((cmdr_full st 0 (tau - 8) (conv_load 0 0 [x0; x1; x2; x3; x4; x5; x6; x7]) e, q),
       repeat (clk_only, []) 8).
Proof.
  intros Hst Htau Hx. eexists.
  cbn [map run].
  do 8 (cmdr_steps; cbn [Z.eqb Pos.eqb Z.add Pos.add Pos.succ]).
  cbn [repeat conv_load Z.add Pos.add Pos.succ]. unfold conv_put.
  replace (tau - 1 - 1 - 1 - 1 - 1 - 1 - 1 - 1) with (tau - 8) by lia.
  reflexivity.
Qed.

Lemma cmdr_next_byte (T : Z) (m tau d e : Z) (r : read_req) (q : list read_req)
    (x0 x1 x2 x3 x4 x5 x6 x7 : Z) :
  8 <= tau < 2 ^ 32 ->
  0 <= m < 255 -> m <> wrap 8 (rq_length r - 1) ->
  exists e' tr,
    run (cmdr_cycle T) (cmdr_full CMDR_CMD m tau d e, r :: q)
        (map cmd_sample [x0; x1; x2; x3; x4; x5; x6; x7]) =
      ((cmdr_full CMDR_CMD (m + 1) (tau - 8)
          (conv_load d 0 [x0; x1; x2; x3; x4; x5; x6; x7]) e', r :: q), tr)
    /\ items_of tr = [(d, SDCARD_STREAM_STATUS_OK, false)].
Proof.
  intros Htau Hm Hlast. do 2 eexists.
  cbn [map run].
  do 8 (cmdr_steps; cbn [Z.eqb Pos.eqb Z.add Pos.add Pos.succ]).
  cbn [conv_load Z.add Pos.add Pos.succ]. unfold conv_put.
  replace (tau - 1 - 1 - 1 - 1 - 1 - 1 - 1 - 1) with (tau - 8) by lia.
  split; reflexivity.
Qed.

Lemma cmdr_next_byte_from_wait (T : Z) (tau d e : Z) (r : read_req) (q : list read_req)
    (x0 x1 x2 x3 x4 x5 x6 x7 : Z) :
  8 <= tau < 2 ^ 32 ->
  0 <> wrap 8 (rq_length r - 1) ->
  exists e' tr,
    run (cmdr_cycle T) (cmdr_full CMDR_WAIT 0 tau d e, r :: q)
        (map cmd_sample [x0; x1; x2; x3; x4; x5; x6; x7]) =
      ((cmdr_full CMDR_CMD 1 (tau - 8)
          (conv_load d 0 [x0; x1; x2; x3; x4; x5; x6; x7]) e', r :: q), tr)
    /\ items_of tr = [(d, SDCARD_STREAM_STATUS_OK, false)].
Proof.
  intros Htau Hlast. do 2 eexists.
  cbn [map run].
  do 8 (cmdr_steps; cbn [Z.eqb Pos.eqb Z.add Pos.add Pos.succ]).
  cbn [conv_load Z.add Pos.add Pos.succ]. unfold conv_put.
  replace (tau - 1 - 1 - 1 - 1 - 1 - 1 - 1 - 1) with (tau - 8) by lia.
  split; reflexivity.
Qed.

Lemma cmdr_last_byte (T : Z) (m tau d e : Z) (r : read_req) (q : list read_req)
    (y0 y1 : Z) :
  2 <= tau < 2 ^ 32 ->
  m = wrap 8 (rq_length r - 1) ->
  exists s' tr,
    cmdr_over s' /\
    run (cmdr_cycle T) (cmdr_full CMDR_CMD m tau d e, r :: q)
        (map cmd_sample [y0; y1]) = ((s', q), tr)
    /\ items_of tr = [(d, SDCARD_STREAM_STATUS_OK, true)].
Proof.
  intros Htau Hm.
  destruct (cmdr_xfer_last T m (tau - 1) 1 (conv_put d 0 y0) d r q y1 ltac:(lia) Hm)
    as (s' & Hover & Hx).
  exists s'. eexists. split; [exact Hover|].
  cbn [map run]. rewrite cmdr_buffer by (auto; lia). rewrite Hx.
  split; reflexivity.
Qed.

Lemma cmdr_only_byte_from_wait (T : Z) (tau d e : Z) (r : read_req) (q : list read_req)
    (y0 y1 y2 : Z) :
  3 <= tau < 2 ^ 32 ->
  0 = wrap 8 (rq_length r - 1) ->
  exists s' tr,
    cmdr_over s' /\
    run (cmdr_cycle T) (cmdr_full CMDR_WAIT 0 tau d e, r :: q)
        (map cmd_sample [y0; y1; y2]) = ((s', q), tr)
    /\ items_of tr = [(d, SDCARD_STREAM_STATUS_OK, true)].
Proof.
  intros Htau Hm.
  destruct (cmdr_xfer_last T 0 (tau - 1 - 1) 2 (conv_put (conv_put d 0 y0) 1 y1) d r q y2
              ltac:(lia) Hm) as (s' & Hover & Hx).
  exists s'. eexists. split; [exact Hover|].
  cbn [map run]. rewrite cmdr_buffer by (auto; lia).
  rewrite cmdr_wait_sees_byte by lia. cbn [Z.add Pos.add].
  rewrite Hx. split; reflexivity.
Qed.

(** *** The byte assembled by the converter *)

Lemma low_bits1_range (x : Z) : 0 <= low_bits 1 x < 2.
Proof.
  unfold low_bits. rewrite Z.land_ones by lia. change (2 ^ 1) with 2.
  apply Z.mod_pos_bound. lia.
Qed.

Lemma low_bits1_testbit (x : Z) : low_bits 1 x = Z.b2z (Z.testbit x 0).
Proof.
  unfold low_bits. rewrite Z.land_ones by lia. change (2 ^ 1) with 2.
  now rewrite Z.bit0_mod.
Qed.

Lemma testbit_above_byte (v i : Z) : 0 <= v < 256 -> 8 <= i -> Z.testbit v i = false.
Proof.
  intros Hv Hi. rewrite <- (Z.mod_small v (2 ^ 8)) by (change (2 ^ 8) with 256; lia).
  apply Z.mod_pow2_bits_high. lia.
Qed.

Lemma sample_byte_bits (t0 t1 t2 t3 t4 t5 t6 t7 : bool) (i : Z) :
  0 <= i ->
  Z.testbit
    (2 * (2 * (2 * (2 * (2 * (2 * (2 * (2 * 0 + Z.b2z t0) + Z.b2z t1) + Z.b2z t2)
       + Z.b2z t3) + Z.b2z t4) + Z.b2z t5) + Z.b2z t6) + Z.b2z t7) i =
    if i =? 0 then t7 else if i =? 1 then t6 else if i =? 2 then t5
    else if i =? 3 then t4 else if i =? 4 then t3 else if i =? 5 then t2
    else if i =? 6 then t1 else if i =? 7 then t0 else false.
Proof.
  intros Hi.
  destruct (Z.ltb_spec i 8) as [Hlt|Hge].
  - assert (Hc : i = 0 \/ i = 1 \/ i = 2 \/ i = 3 \/ i = 4 \/ i = 5 \/ i = 6 \/ i = 7) by lia.
    destruct t0, t1, t2, t3, t4, t5, t6, t7;
      repeat (destruct Hc as [-> | Hc]; [reflexivity|]); subst i; reflexivity.
  - repeat match goal with
           | |- context [i =? ?c] =>
               replace (i =? c) with false by (symmetry; apply Z.eqb_neq; lia)
           end.
    apply testbit_above_byte; [|exact Hge].
    destruct t0, t1, t2, t3, t4, t5, t6, t7; cbn; lia.
Qed.

Lemma conv_load_byte (d x0 x1 x2 x3 x4 x5 x6 x7 : Z) :
  0 <= d < 256 ->
  conv_load d 0 [x0; x1; x2; x3; x4; x5; x6; x7] =
    sample_byte [x0; x1; x2; x3; x4; x5; x6; x7].
Proof.
  intros Hd. unfold sample_byte. cbn [conv_load fold_left Z.add Pos.add Pos.succ].
  rewrite !low_bits1_testbit.
  generalize (Z.testbit x0 0) (Z.testbit x1 0) (Z.testbit x2 0) (Z.testbit x3 0)
             (Z.testbit x4 0) (Z.testbit x5 0) (Z.testbit x6 0) (Z.testbit x7 0).
  intros t0 t1 t2 t3 t4 t5 t6 t7.
  apply Z.bits_inj'. intros i Hi.
  rewrite sample_byte_bits by exact Hi.
  change ((8 - 0 - 1) * 1) with 7; change ((8 - 1 - 1) * 1) with 6;
  change ((8 - 2 - 1) * 1) with 5; change ((8 - 3 - 1) * 1) with 4;
  change ((8 - 4 - 1) * 1) with 3; change ((8 - 5 - 1) * 1) with 2;
  change ((8 - 6 - 1) * 1) with 1; change ((8 - 7 - 1) * 1) with 0.
  rewrite !testbit_set_slice by lia.
  repeat match goal with
         | |- context [(?c <=? i) && (i <? ?c + 1)] =>
             replace ((c <=? i) && (i <? c + 1)) with (i =? c)
               by (destruct (Z.eqb_spec i c), (Z.leb_spec c i), (Z.ltb_spec i (c + 1));
                   cbn [andb]; first [reflexivity | lia])
         end.
  repeat match goal with
         | |- (if i =? ?c then _ else _) = _ =>
             destruct (Z.eqb_spec i c) as [->|?];
               [rewrite Z.sub_diag; apply Z.b2z_bit0|]
         end.
  apply testbit_above_byte; lia.
Qed.

Lemma sample_byte_range (x0 x1 x2 x3 x4 x5 x6 x7 : Z) :
  0 <= sample_byte [x0; x1; x2; x3; x4; x5; x6; x7] < 256.
Proof.
  unfold sample_byte. cbn [fold_left].
  pose proof (low_bits1_range x0); pose proof (low_bits1_range x1);
  pose proof (low_bits1_range x2); pose proof (low_bits1_range x3);
  pose proof (low_bits1_range x4); pose proof (low_bits1_range x5);
  pose proof (low_bits1_range x6); pose proof (low_bits1_range x7).
  lia.
Qed.

(** *** A whole response *)

Lemma wrap8_range (x : Z) : 0 <= wrap 8 x < 256.
Proof. unfold wrap. change (2 ^ 8) with 256. apply Z.mod_pos_bound. lia. Qed.

Lemma octet_byte_range (g : octet) : 0 <= octet_byte g < 256.
Proof. destruct g. apply sample_byte_range. Qed.

(** From a complete byte in the converter to the end of the transaction: the
    remaining octets arrive back to back and every byte is handed over, the
    final one with [last]. *)
Lemma cmdr_stream (T : Z) (r : read_req) (q : list read_req) (y0 y1 : Z)
    (gs : list octet) (m tau d e : Z) :
  0 <= d < 256 -> 0 <= m ->
  m + Z.of_nat (length gs) = wrap 8 (rq_length r - 1) ->
  8 * Z.of_nat (length gs) + 2 <= tau < 2 ^ 32 ->
  exists s' tr,
    cmdr_over s' /\
    run (cmdr_cycle T) (cmdr_full CMDR_CMD m tau d e, r :: q)
        (octets_in gs ++ map cmd_sample [y0; y1]) = ((s', q), tr)
    /\ items_of tr = mark_last (d :: map octet_byte gs).
Proof.
  revert m tau d e; induction gs as [|g gs IH]; intros m tau d e Hd Hm Htgt Htau.
  - cbn [length Z.of_nat] in *. cbn [octets_in flat_map app map mark_last].
    apply cmdr_last_byte; lia.
  - cbn [length] in *. rewrite Nat2Z.inj_succ in *.
    pose proof (wrap8_range (rq_length r - 1)) as Hw.
    destruct g as [x0 x1 x2 x3 x4 x5 x6 x7].
    destruct (cmdr_next_byte T m tau d e r q x0 x1 x2 x3 x4 x5 x6 x7)
      as (e' & tr1 & Hrun1 & Hit1); try lia.
    rewrite conv_load_byte in Hrun1 by exact Hd.
    set (g := {| o0 := x0; o1 := x1; o2 := x2; o3 := x3;
                 o4 := x4; o5 := x5; o6 := x6; o7 := x7 |}) in *.
    destruct (IH (m + 1) (tau - 8) (octet_byte g) e')
      as (s' & tr2 & Hover & Hrun2 & Hit2); try lia.
    { apply octet_byte_range. }
    exists s', (tr1 ++ tr2). split; [exact Hover|]. split.
    + cbn [octets_in flat_map]. rewrite <- app_assoc.
      apply (run_app_eq _ _ _ _ _ _ _ _ Hrun1 Hrun2).
    + rewrite items_of_app, Hit1, Hit2. reflexivity.
Qed.

(** Once the transaction is over and no request is pending the reader hands
    over nothing more. *)
Lemma cmdr_quiet (T : Z) (ins : list line_in) (s : cmdr_state) :
  cmdr_over s ->
  exists s' tr,
    cmdr_over s' /\ run (cmdr_cycle T) (s, []) ins = ((s', []), tr)
    /\ items_of tr = [].
Proof.
  revert s; induction ins as [|i ins IH]; intros s Hs.
  - exists s, []. repeat split; auto.
  - assert (H1 : exists s1 p, cmdr_over s1 /\
                   cmdr_cycle T (s, []) i = ((s1, []), (p, []))).
    { unfold cmdr_cycle, cmdr_step, cmdr_over.
      destruct Hs as [Hs|Hs]; rewrite Hs; cbn [ci_valid andb]; do 2 eexists;
        (split; [|reflexivity]); cbn [cmdr_st]; auto.
      destruct (cmdr_count s =? 8 - 1); auto. }
    destruct H1 as (s1 & p & Hs1 & Hc).
    destruct (IH s1 Hs1) as (s' & tr & Hs' & Hrun & Hit).
    exists s', ((p, []) :: tr). split; [exact Hs'|]. split.
    + cbn [run]. rewrite Hc, Hrun. reflexivity.
    + unfold items_of in *. cbn [map concat snd app]. exact Hit.
Qed.

Lemma items_of_repeat_nil {P : Type} (p : P) (n : nat) :
  items_of (repeat (p, @nil item) n) = [].
Proof. induction n as [|n IH]; [reflexivity|exact IH]. Qed.

(** The reader is armed two cycles after it accepted the request. *)
Lemma cmdr_arm (T : Z) (s : cmdr_state) (r : read_req) (q : list read_req)
    (i0 i1 : line_in) :
  0 < T < 2 ^ 32 -> cmdr_st s = CMDR_IDLE ->
  exists st tr,
    (st = CMDR_WAIT \/ st = CMDR_CMD) /\
    run (cmdr_cycle T) (s, r :: q) [i0; i1] = ((cmdr_armed st (T - 1), r :: q), tr)
    /\ items_of tr = [].
Proof.
  intros HT Hs.
  exists (if sdphyr_valid
               (sdphyr_step cmdr_params (cmdr_rd s) (li_pads i0) false (cmdr_rst s))
          then CMDR_CMD else CMDR_WAIT).
  eexists. split; [destruct (sdphyr_valid _); auto|].
  cbn [run]. rewrite (cmdr_accept T s r q i0 ltac:(lia) Hs), cmdr_release by exact HT.
  split; reflexivity.
Qed.

(** A response of [1 + length gs] bytes whose first bit is the start bit,
    arriving after any number of idle cycles and well before the timeout, is
    handed over byte by byte with status OK, the final byte with [last], and
    the request is consumed.  The requested length is only seen through
    [(length - 1) mod 256]. *)
Lemma cmdr_reads (T : Z) (s : cmdr_state) (r : read_req) (i0 i1 : line_in)
    (ws : list line_in) (g0 : octet) (gs : list octet) (y0 y1 y2 : Z) (ys : list Z) :
  cmdr_st s = CMDR_IDLE ->
  no_start cmdr_params ws ->
  low_bits 1 (o0 g0) = 0 ->
  wrap 8 (rq_length r - 1) = Z.of_nat (length gs) ->
  Z.of_nat (length ws) + 8 * Z.of_nat (length gs) + 12 <= T < 2 ^ 32 ->
  let ins := i0 :: i1 :: ws ++ octets_in (g0 :: gs)
                ++ map cmd_sample (y0 :: y1 :: y2 :: ys) in
  items_of (trace (cmdr_cycle T) (s, [r]) ins) = mark_last (map octet_byte (g0 :: gs))
  /\ snd (final (cmdr_cycle T) (s, [r]) ins) = []
  /\ cmdr_over (fst (final (cmdr_cycle T) (s, [r]) ins)).
Proof.
  intros Hs Hns Hstart Htgt HT ins.
  destruct (cmdr_arm T s r [] i0 i1 ltac:(lia) Hs) as (st & tr0 & Hst & Hrun0 & Hit0).
  pose proof (cmdr_hold T st [r] ws (T - 1) Hst ltac:(lia) Hns) as Hrun1.
  set (tau1 := T - 1 - Z.of_nat (length ws)) in *.
  destruct g0 as [x0 x1 x2 x3 x4 x5 x6 x7]. cbn [o0] in Hstart.
  destruct (cmdr_first_byte T st tau1 [r] x0 x1 x2 x3 x4 x5 x6 x7 Hst
              ltac:(subst tau1; lia) Hstart) as (e & Hrun2).
  rewrite conv_load_byte in Hrun2 by lia.
  set (g0 := {| o0 := x0; o1 := x1; o2 := x2; o3 := x3;
                o4 := x4; o5 := x5; o6 := x6; o7 := x7 |}) in *.
  fold (octet_samples g0) in Hrun2. fold (octet_byte g0) in Hrun2.
  pose proof (octet_byte_range g0) as Hb0.
  (* the bytes after the first one, and the end of the transaction *)
  assert (Hrest : exists s3 tr3,
             cmdr_over s3 /\
             run (cmdr_cycle T) (cmdr_full st 0 (tau1 - 8) (octet_byte g0) e, [r])
                 (octets_in gs ++ map cmd_sample [y0; y1; y2]) = ((s3, []), tr3)
             /\ items_of tr3 = mark_last (octet_byte g0 :: map octet_byte gs)).
  { destruct Hst as [-> | ->].
    - (* the state machine is still in WAIT when the first byte is complete *)
      destruct gs as [|g1 gs].
      + cbn [octets_in flat_map app map mark_last].
        apply cmdr_only_byte_from_wait; [subst tau1; cbn [length] in *; lia|].
        now rewrite Htgt.
      + cbn [length] in Htgt, HT. rewrite Nat2Z.inj_succ in Htgt, HT.
        destruct g1 as [z0 z1 z2 z3 z4 z5 z6 z7].
        destruct (cmdr_next_byte_from_wait T (tau1 - 8) (octet_byte g0) e r []
                    z0 z1 z2 z3 z4 z5 z6 z7) as (e' & tr & Hrun & Hit);
          [subst tau1; lia | lia |].
        rewrite conv_load_byte in Hrun by exact Hb0.
        set (g1 := {| o0 := z0; o1 := z1; o2 := z2; o3 := z3;
                      o4 := z4; o5 := z5; o6 := z6; o7 := z7 |}) in *.
        fold (octet_samples g1) in Hrun. fold (octet_byte g1) in Hrun.
        destruct (cmdr_stream T r [] y0 y1 gs 1 (tau1 - 8 - 8) (octet_byte g1) e')
          as (s3 & tr3 & Hover & Hrun3 & Hit3);
          [apply octet_byte_range | lia | lia | subst tau1; lia |].
        destruct (cmdr_quiet T [cmd_sample y2] s3 Hover) as (s4 & tr4 & Hover4 & Hrun4 & Hit4).
        exists s4, (tr ++ tr3 ++ tr4). split; [exact Hover4|]. split.
        * cbn [octets_in flat_map]. rewrite <- app_assoc.
          apply (run_app_eq _ _ _ _ _ _ _ _ Hrun).
          change (map cmd_sample [y0; y1; y2])
            with (map cmd_sample [y0; y1] ++ [cmd_sample y2]).
          rewrite app_assoc.
          apply (run_app_eq _ _ _ _ _ _ _ _ Hrun3 Hrun4).
        * rewrite !items_of_app, Hit, Hit3, Hit4, app_nil_r. reflexivity.
    - (* a stale byte had already moved the state machine to CMD *)
      destruct (cmdr_stream T r [] y0 y1 gs 0 (tau1 - 8) (octet_byte g0) e)
        as (s3 & tr3 & Hover & Hrun3 & Hit3); [exact Hb0 | lia | lia | subst tau1; lia |].
      destruct (cmdr_quiet T [cmd_sample y2] s3 Hover) as (s4 & tr4 & Hover4 & Hrun4 & Hit4).
      exists s4, (tr3 ++ tr4). split; [exact Hover4|]. split.
      + change (map cmd_sample [y0; y1; y2])
          with (map cmd_sample [y0; y1] ++ [cmd_sample y2]).
        rewrite app_assoc.
        apply (run_app_eq _ _ _ _ _ _ _ _ Hrun3 Hrun4).
      + rewrite !items_of_app, Hit3, Hit4, app_nil_r. reflexivity. }
  destruct Hrest as (s3 & tr3 & Hover3 & Hrun3 & Hit3).
  destruct (cmdr_quiet T (map cmd_sample ys) s3 Hover3) as (s5 & tr5 & Hover5 & Hrun5 & Hit5).
  assert (Hall : run (cmdr_cycle T) (s, [r]) ins =
                 ((s5, []), tr0 ++ repeat (clk_only, []) (length ws)
                                ++ repeat (clk_only, []) 8 ++ tr3 ++ tr5)).
  { subst ins.
    change (i0 :: i1 :: ws ++ octets_in (g0 :: gs) ++ map cmd_sample (y0 :: y1 :: y2 :: ys))
      with ([i0; i1] ++ ws ++ (map cmd_sample (octet_samples g0) ++ octets_in gs)
              ++ (map cmd_sample [y0; y1; y2] ++ map cmd_sample ys)).
    apply (run_app_eq _ _ _ _ _ _ _ _ Hrun0).
    apply (run_app_eq _ _ _ _ _ _ _ _ Hrun1).
    rewrite <- app_assoc.
    apply (run_app_eq _ _ _ _ _ _ _ _ Hrun2).
    rewrite app_assoc.
    apply (run_app_eq _ _ _ _ _ _ _ _ Hrun3 Hrun5). }
  rewrite (run_final _ _ _ _ _ Hall), (run_trace _ _ _ _ _ Hall). cbn [fst snd].
  split; [|split; [reflexivity|exact Hover5]].
  rewrite !items_of_app, Hit0, !items_of_repeat_nil, Hit3, Hit5, app_nil_r.
  reflexivity.
Qed.

Lemma mark_last_length (bs : list Z) : length (mark_last bs) = length bs.
Proof.
  induction bs as [|b [|b' bs] IH]; [reflexivity|reflexivity|].
  change (mark_last (b :: b' :: bs))
    with ((b, SDCARD_STREAM_STATUS_OK, false) :: mark_last (b' :: bs)).
  cbn [length] in *. now rewrite IH.
Qed.

Lemma mark_last_flags (b : Z) (bs : list Z) :
  map item_flags (mark_last (b :: bs)) =
    repeat (SDCARD_STREAM_STATUS_OK, false) (length bs)
    ++ [(SDCARD_STREAM_STATUS_OK, true)].
Proof.
  revert b; induction bs as [|b' bs IH]; intros b; [reflexivity|].
  change (mark_last (b :: b' :: bs))
    with ((b, SDCARD_STREAM_STATUS_OK, false) :: mark_last (b' :: bs)).
  cbn [map length repeat app]. now rewrite IH.
Qed.

Lemma mark_last_data (bs : list Z) : map item_data (mark_last bs) = bs.
Proof.
  induction bs as [|b [|b' bs] IH]; [reflexivity|reflexivity|].
  change (mark_last (b :: b' :: bs))
    with ((b, SDCARD_STREAM_STATUS_OK, false) :: mark_last (b' :: bs)).
  cbn [map]. now rewrite IH.
Qed.

(** C10: in the generated netlist the comparison [count == length - 1] is
    made on 8 bits (see [cmdr_step]), so a command-read request whose length
    field is 0 is compared against [(0 - 1) mod 256 = 255]; when the card
    keeps sending (after an idle prefix [ws] without start bit, a start bit
    and 256 octets in all, then at least three more samples), the result
    stream is ready in every cycle from the start bit on and the timeout
    reload leaves room ([|ws| + 2052 <= T < 2^32]), the reader hands over
    exactly 256 items with status OK, and [last] is set on the 256th only;
    the request does not complete with zero data bytes.  The statement is
    about the netlist reading of the comparison only. *)
Theorem cmdr_length_zero_reads_256 (T : Z) (s : cmdr_state) (r : read_req)
    (i0 i1 : line_in) (ws : list line_in) (g0 : octet) (gs : list octet)
    (y0 y1 y2 : Z) (ys : list Z) :
  cmdr_st s = CMDR_IDLE ->
  rq_length r = 0 ->
  no_start cmdr_params ws ->
  low_bits 1 (o0 g0) = 0 ->
  length gs = 255%nat ->
  Z.of_nat (length ws) + 2052 <= T < 2 ^ 32 ->
  let ins := i0 :: i1 :: ws ++ octets_in (g0 :: gs)
                ++ map cmd_sample (y0 :: y1 :: y2 :: ys) in
  let its := items_of (trace (cmdr_cycle T) (s, [r]) ins) in
  wrap 8 (rq_length r - 1) = 255
  /\ its = mark_last (map octet_byte (g0 :: gs))
  /\ length its = 256%nat
  /\ map item_flags its =
       repeat (SDCARD_STREAM_STATUS_OK, false) 255 ++ [(SDCARD_STREAM_STATUS_OK, true)]
  /\ snd (final (cmdr_cycle T) (s, [r]) ins) = [].
Proof.
  intros Hs Hlen Hns Hstart Hgs HT ins its.
  assert (Hw : wrap 8 (rq_length r - 1) = 255) by (rewrite Hlen; reflexivity).
  destruct (cmdr_reads T s r i0 i1 ws g0 gs y0 y1 y2 ys Hs Hns Hstart)
    as (Hit & Hq & _).
  { rewrite Hw, Hgs. reflexivity. }
  { rewrite Hgs. lia. }
  fold ins in Hit, Hq. fold its in Hit.
  split; [exact Hw|]. split; [exact Hit|].
  split; [rewrite Hit, mark_last_length; cbn [map length]; now rewrite length_map, Hgs|].
  split; [|exact Hq].
  rewrite Hit. cbn [map]. rewrite mark_last_flags, length_map, Hgs. reflexivity.
Qed.

Lemma cmdr_length_zero_reads_256_witness :
  let T := 250000 in
  let r := {| rq_length := 0; rq_last := true |} in
  let ins := cmd_sample 1 :: cmd_sample 1 :: [cmd_sample 1; cmd_sample 1]
               ++ octets_in (start_octet :: repeat start_octet 255)
               ++ map cmd_sample [1; 1; 1] in
  let its := items_of (trace (cmdr_cycle T) (cmdr_idle T, [r]) ins) in
  wrap 8 (rq_length r - 1) = 255
  /\ its = mark_last (map octet_byte (start_octet :: repeat start_octet 255))
  /\ length its = 256%nat
  /\ map item_flags its =
       repeat (SDCARD_STREAM_STATUS_OK, false) 255 ++ [(SDCARD_STREAM_STATUS_OK, true)]
  /\ snd (final (cmdr_cycle T) (cmdr_idle T, [r]) ins) = [].
Proof.
  apply (cmdr_length_zero_reads_256 250000 (cmdr_idle 250000)
           {| rq_length := 0; rq_last := true |} (cmd_sample 1) (cmd_sample 1)
           [cmd_sample 1; cmd_sample 1] start_octet (repeat start_octet 255) 1 1 1 []).
  - reflexivity.
  - reflexivity.
  - repeat constructor.
  - reflexivity.
  - apply repeat_length.
  - split; [discriminate | reflexivity].
Defined.

Lemma cmdr_times_out_witness :
  let ins := cmd_sample 1 :: cmd_sample 1 :: repeat (cmd_sample 1) 5 ++ [] ++ [cmd_sample 1] in
  let r := {| rq_length := 6; rq_last := true |} in
  items_of (trace (cmdr_cycle 5) (cmdr_idle 5, [r]) ins) = [timeout_item]
  /\ snd (final (cmdr_cycle 5) (cmdr_idle 5, [r]) ins) = []
  /\ cmdr_st (fst (final (cmdr_cycle 5) (cmdr_idle 5, [r]) ins)) = CMDR_IDLE.
Proof.
  apply (cmdr_times_out 5 (cmdr_idle 5) {| rq_length := 6; rq_last := true |} []
           (cmd_sample 1) (cmd_sample 1) (repeat (cmd_sample 1) 5) [] (cmd_sample 1)).
  - split; [discriminate | reflexivity].
  - reflexivity.
  - reflexivity.
  - repeat constructor.
  - constructor.
  - reflexivity.
Defined.

(** ** Command writer looped back into the command reader *)

Lemma octet_of_byte_byte (b : Z) : 0 <= b < 256 -> octet_byte (octet_of_byte b) = b.
Proof.
  intros Hb. unfold octet_byte, octet_of_byte, octet_samples, sample_byte.
  cbn [o0 o1 o2 o3 o4 o5 o6 o7 fold_left].
  rewrite !low_bits1_testbit, !Z.b2z_bit0.
  apply Z.bits_inj'. intros i Hi.
  rewrite sample_byte_bits by exact Hi.
  destruct (Z.ltb_spec i 8) as [Hlt|Hge].
  - assert (Hc : i = 0 \/ i = 1 \/ i = 2 \/ i = 3 \/ i = 4 \/ i = 5 \/ i = 6 \/ i = 7) by lia.
    repeat (destruct Hc as [-> | Hc]; [reflexivity|]). subst i. reflexivity.
  - repeat match goal with
           | |- context [i =? ?c] =>
               replace (i =? c) with false by (symmetry; apply Z.eqb_neq; lia)
           end.
    symmetry. now apply testbit_above_byte.
Qed.

Lemma start_bit_of_byte (b : Z) : 0 <= b < 128 -> low_bits 1 (o0 (octet_of_byte b)) = 0.
Proof.
  intros Hb. cbn [octet_of_byte o0].
  rewrite <- (Z.mod_small b (2 ^ 7)) by (change (2 ^ 7) with 128; lia).
  rewrite Z.mod_pow2_bits_high by lia. reflexivity.
Qed.

Lemma loop_back_app (a b : list bool) : loop_back (a ++ b) = loop_back a ++ loop_back b.
Proof. apply map_app. Qed.

Lemma loop_back_byte (b : Z) :
  loop_back (byte_bits b) = map cmd_sample (octet_samples (octet_of_byte b)).
Proof. reflexivity. Qed.

Lemma loop_back_bytes (bs : list Z) :
  loop_back (flat_map byte_bits bs) = octets_in (map octet_of_byte bs).
Proof.
  induction bs as [|b bs IH]; [reflexivity|].
  cbn [flat_map map octets_in]. rewrite loop_back_app, IH, loop_back_byte.
  reflexivity.
Qed.

Lemma loop_back_high (n : nat) : loop_back (repeat true n) = map cmd_sample (repeat 1 n).
Proof. induction n as [|n IH]; [reflexivity|]. cbn [repeat loop_back map] in *. now rewrite <- IH. Qed.

Lemma cmdw_line_mark_queue (b : Z) (bs : list Z) (l : bool) :
  cmdw_line (mark_queue (b :: bs) l) =
    flat_map byte_bits (b :: bs) ++ (if l then repeat true cmdw_trailer else []).
Proof.
  revert b; induction bs as [|b' bs IH]; intros b.
  - cbn [mark_queue cmdw_line flat_map fst snd]. now rewrite !app_nil_r.
  - change (mark_queue (b :: b' :: bs) l) with ((b, false) :: mark_queue (b' :: bs) l).
    unfold cmdw_line in *. cbn [flat_map fst snd]. rewrite IH.
    cbn [flat_map]. now rewrite app_nil_r, <- !app_assoc.
Qed.

(** C8: the bits the command writer, started from reset, clocks out for a
    sequence of 1 to 255 bytes with values in 0..255 whose first byte begins
    with the start bit (its MSB is 0), fed to the command reader one bit per
    line cycle after an idle prefix [ws] without start bit and followed by
    at least three idle-high samples, come back on the reader's result
    stream as the original bytes, each with status OK and [last] on the final
    one, when the read request asks for as many bytes as were written, the
    result stream is ready in every cycle from the start bit on (the
    loop-back is made of [cmd_sample] cycles) and the timeout reload leaves
    room, [|ws| + 8 length + 4 <= T < 2^32]. *)
Theorem cmd_round_trip (T : Z) (s : cmdr_state) (r : read_req) (i0 i1 : line_in)
    (ws : list line_in) (b0 : Z) (bs : list Z) (l : bool) (idle : nat) :
  cmdr_st s = CMDR_IDLE ->
  no_start cmdr_params ws ->
  Forall (fun b => 0 <= b < 256) (b0 :: bs) ->
  b0 < 128 ->
  rq_length r = Z.of_nat (length (b0 :: bs)) ->
  rq_length r <= 255 ->
  Z.of_nat (length ws) + 8 * rq_length r + 4 <= T < 2 ^ 32 ->
  let wq := mark_queue (b0 :: bs) l in
  let line := cmd_line_bits (trace cmdw_cycle (cmdw_reset, wq) (repeat tt (cmdw_cycles wq))) in
  let ins := i0 :: i1 :: ws ++ loop_back line ++ map cmd_sample (repeat 1 (3 + idle)) in
  let its := items_of (trace (cmdr_cycle T) (s, [r]) ins) in
  map item_data its = b0 :: bs
  /\ its = mark_last (b0 :: bs)
  /\ Forall (fun it => snd (fst it) = SDCARD_STREAM_STATUS_OK) its
  /\ snd (final (cmdr_cycle T) (s, [r]) ins) = [].
Proof.
  intros Hs Hns Hbytes Hb0 Hlen Hmax HT wq line ins its.
  assert (Hline : line = cmdw_line wq).
  { subst line. destruct (cmdw_serialises wq 0) as (H & _). exact H. }
  assert (Hin : exists y0 y1 y2 ys,
             ins = i0 :: i1 :: ws ++ octets_in (octet_of_byte b0 :: map octet_of_byte bs)
                     ++ map cmd_sample (y0 :: y1 :: y2 :: ys)).
  { subst ins. rewrite Hline. subst wq. rewrite cmdw_line_mark_queue.
    rewrite loop_back_app, loop_back_bytes. cbn [map].
    destruct l.
    - rewrite loop_back_high, <- app_assoc, <- map_app, <- repeat_app.
      exists 1, 1, 1, (repeat 1 (cmdw_trailer + idle)).
      unfold cmdw_trailer.
      replace (256 + (3 + idle))%nat with (3 + (256 + idle))%nat by lia.
      reflexivity.
    - exists 1, 1, 1, (repeat 1 idle). cbn [loop_back map app].
      rewrite <- app_assoc. reflexivity. }
  destruct Hin as (y0 & y1 & y2 & ys & Hin).
  cbn [length] in Hlen. rewrite Nat2Z.inj_succ in Hlen.
  inversion Hbytes as [|? ? Hr0 Hrs]; subst.
  destruct (cmdr_reads T s r i0 i1 ws (octet_of_byte b0) (map octet_of_byte bs)
              y0 y1 y2 ys Hs Hns) as (Hit & Hq & _).
  { apply start_bit_of_byte. lia. }
  { rewrite length_map, Hlen.
    replace (Z.succ (Z.of_nat (length bs)) - 1) with (Z.of_nat (length bs)) by lia.
    apply wrap_small. change (2 ^ 8) with 256. lia. }
  { rewrite length_map. lia. }
  rewrite <- Hin in Hit, Hq. fold its in Hit.
  assert (Hbytes' : map octet_byte (octet_of_byte b0 :: map octet_of_byte bs) = b0 :: bs).
  { cbn [map]. rewrite octet_of_byte_byte by exact Hr0. f_equal.
    rewrite map_map. clear - Hrs.
    induction Hrs as [|b bs Hb _ IH]; [reflexivity|].
    cbn [map]. now rewrite octet_of_byte_byte, IH. }
  rewrite Hbytes' in Hit.
  split; [rewrite Hit; apply mark_last_data|].
  split; [exact Hit|]. split; [|exact Hq].
  rewrite Hit. clear. generalize (b0 :: bs) as l.
  induction l as [|b [|b' l] IH]; [constructor|repeat constructor|].
  change (mark_last (b :: b' :: l))
    with ((b, SDCARD_STREAM_STATUS_OK, false) :: mark_last (b' :: l)).
  constructor; [reflexivity|exact IH].
Qed.

Lemma cmd_round_trip_witness :
  let wq := mark_queue [64; 0; 0; 0; 0; 149] true in
  let line := cmd_line_bits (trace cmdw_cycle (cmdw_reset, wq) (repeat tt (cmdw_cycles wq))) in
  let ins := cmd_sample 1 :: cmd_sample 1 :: [cmd_sample 1] ++ loop_back line
               ++ map cmd_sample (repeat 1 (3 + 0)) in
  let its := items_of (trace (cmdr_cycle 250000)
                         (cmdr_idle 250000, [{| rq_length := 6; rq_last := true |}]) ins) in
  map item_data its = [64; 0; 0; 0; 0; 149]
  /\ its = mark_last [64; 0; 0; 0; 0; 149]
  /\ Forall (fun it => snd (fst it) = SDCARD_STREAM_STATUS_OK) its
  /\ snd (final (cmdr_cycle 250000)
            (cmdr_idle 250000, [{| rq_length := 6; rq_last := true |}]) ins) = [].
Proof.
  apply (cmd_round_trip 250000 (cmdr_idle 250000) {| rq_length := 6; rq_last := true |}
           (cmd_sample 1) (cmd_sample 1) [cmd_sample 1] 64 [0; 0; 0; 0; 149] true 0).
  - reflexivity.
  - repeat constructor.
  - repeat constructor; discriminate.
  - reflexivity.
  - reflexivity.
  - discriminate.
  - split; [discriminate | reflexivity].
Defined.

(** ** SDPHYCRCR *)

Lemma crcr_await (n : nat) (s1 : crcr_state) (ins : list (pads_i * bool)) :
  crcr_st s1 = CRCR_WAIT_CHECK ->
  length ins = S n ->
  (forall k, (k < n)%nat -> crcr_token_ready s1 ins k = false) ->
  crcr_token_ready s1 ins n = true ->
  trace crcr_step s1 ins =
    repeat crc_silent n
    ++ [{| crc_valid := negb (crcr_token s1 ins n =? 5);
           crc_error := crcr_token s1 ins n =? 5 |}]
  /\ crcr_st (final crcr_step s1 ins) = CRCR_IDLE.
Proof.
  revert s1 ins; induction n as [|n IH]; intros s1 ins Hst Hlen Hbefore Hat.
  - destruct ins as [|[pads start] [|? ?]]; try discriminate Hlen.
    unfold crcr_token_ready, crcr_token in *. cbn [firstn] in *.
    rewrite final_nil in *. unfold sdphyr_valid in Hat.
    rewrite trace_cons, final_cons, trace_nil, final_nil.
    unfold crcr_step. rewrite Hst. unfold sdphyr_valid. rewrite Hat.
    cbn [fst snd repeat app andb crcr_st]. split; reflexivity.
  - destruct ins as [|[pads start] ins]; [discriminate Hlen|].
    cbn [length] in Hlen. injection Hlen as Hlen.
    assert (H0 : sdphyr_valid (crcr_rd s1) = false).
    { specialize (Hbefore 0%nat ltac:(lia)).
      unfold crcr_token_ready in Hbefore. cbn [firstn] in Hbefore.
      now rewrite final_nil in Hbefore. }
    assert (Hstep : snd (crcr_step s1 (pads, start)) = crc_silent
                    /\ crcr_st (fst (crcr_step s1 (pads, start))) = CRCR_WAIT_CHECK).
    { unfold crcr_step. rewrite Hst, H0. split; reflexivity. }
    destruct Hstep as [Hout Hst'].
    destruct (IH (fst (crcr_step s1 (pads, start))) ins Hst' Hlen) as [Htr Hfin].
    + intros k Hk. specialize (Hbefore (S k) ltac:(lia)).
      unfold crcr_token_ready in *. cbn [firstn] in Hbefore.
      now rewrite final_cons in Hbefore.
    + unfold crcr_token_ready in *. cbn [firstn] in Hat.
      now rewrite final_cons in Hat.
    + rewrite trace_cons, final_cons, Hout, Htr. split; [|exact Hfin].
      unfold crcr_token. cbn [firstn repeat app]. now rewrite final_cons.
Qed.

(** C6: a start pulse taken by the idle decoder arms the embedded reader
    ([reset] is asserted for the next cycle) and moves the decoder to
    WAIT-CHECK without a decision; it then waits for the first byte the
    reader presents.  In the cycle in which that token is presented, and in
    no cycle before it, exactly one of [error] and [valid] is asserted:
    [error] if and only if the token equals 0b101, [valid] otherwise; the
    decoder is then back in IDLE, ready for the next pulse. *)
Theorem crcr_one_decision (s : crcr_state) (pads0 : pads_i)
    (ins : list (pads_i * bool)) (n : nat) :
  crcr_st s = CRCR_IDLE ->
  let s1 := fst (crcr_step s (pads0, true)) in
  length ins = S n ->
  (forall k, (k < n)%nat -> crcr_token_ready s1 ins k = false) ->
  crcr_token_ready s1 ins n = true ->
  let token := crcr_token s1 ins n in
  let tr := trace crcr_step s1 ins in
  snd (crcr_step s (pads0, true)) = crc_silent
  /\ crcr_st s1 = CRCR_WAIT_CHECK /\ crcr_rst s1 = true
  /\ tr = repeat crc_silent n
          ++ [{| crc_valid := negb (token =? 5); crc_error := token =? 5 |}]
  /\ map crc_decision tr = repeat false n ++ [true]
  /\ (crc_error (last tr crc_silent) = true <-> token = 5)
  /\ (crc_valid (last tr crc_silent) = true <-> token <> 5)
  /\ crcr_st (final crcr_step s1 ins) = CRCR_IDLE.
Proof.
  intros Hs s1 Hlen Hbefore Hat token tr.
  assert (H1 : snd (crcr_step s (pads0, true)) = crc_silent
               /\ crcr_st s1 = CRCR_WAIT_CHECK /\ crcr_rst s1 = true).
  { subst s1. unfold crcr_step. rewrite Hs. repeat split. }
  destruct H1 as (Ho & Hst & Hrst).
  destruct (crcr_await n s1 ins Hst Hlen Hbefore Hat) as [Htr Hfin].
  fold tr in Htr. fold token in Htr.
  repeat (split; [assumption|]).
  split; [|split; [|split; [|exact Hfin]]].
  - rewrite Htr, map_app, map_repeat. cbn [map crc_decision crc_silent crc_valid crc_error orb].
    now destruct (token =? 5).
  - rewrite Htr, last_last. cbn [crc_error]. apply Z.eqb_eq.
  - rewrite Htr, last_last. cbn [crc_valid]. rewrite negb_true_iff. apply Z.eqb_neq.
Qed.

Lemma crcr_one_decision_witness :
  let s1 := fst (crcr_step crcr_reset (data_level 15, true)) in
  let token := crcr_token s1 crc_response 13 in
  let tr := trace crcr_step s1 crc_response in
  snd (crcr_step crcr_reset (data_level 15, true)) = crc_silent
  /\ crcr_st s1 = CRCR_WAIT_CHECK /\ crcr_rst s1 = true
  /\ tr = repeat crc_silent 13
          ++ [{| crc_valid := negb (token =? 5); crc_error := token =? 5 |}]
  /\ map crc_decision tr = repeat false 13 ++ [true]
  /\ (crc_error (last tr crc_silent) = true <-> token = 5)
  /\ (crc_valid (last tr crc_silent) = true <-> token <> 5)
  /\ crcr_st (final crcr_step s1 crc_response) = CRCR_IDLE.
Proof.
  apply (crcr_one_decision crcr_reset (data_level 15) crc_response 13).
  - reflexivity.
  - reflexivity.
  - intros k Hk. do 13 (destruct k as [|k]; [vm_compute; reflexivity|]). lia.
  - vm_compute. reflexivity.
Defined.

(** On the response of the witness the token is the bad-CRC pattern and the
    decision is [error]. *)
Example crc_response_is_error :
  let s1 := fst (crcr_step crcr_reset (data_level 15, true)) in
  crcr_token s1 crc_response 13 = 5
  /\ last (trace crcr_step s1 crc_response) crc_silent
     = {| crc_valid := false; crc_error := true |}.
Proof. split; vm_compute; reflexivity. Qed.

(** ** SDPHYInit *)

Lemma init_running (trig : list bool) (k : Z) :
  0 <= k -> k + Z.of_nat (length trig) = 80 -> trig <> [] ->
  run init_step {| init_st := INIT_INITIALIZE; init_count := k |} trig =
    ({| init_st := INIT_IDLE; init_count := 80 |}, repeat init_pads (length trig)).
Proof.
  revert k; induction trig as [|t trig IH]; intros k Hk Hlen Hne; [congruence|].
  cbn [length] in Hlen. rewrite Nat2Z.inj_succ in Hlen.
  cbn [run init_step init_st init_count length repeat].
  rewrite (wrap_small 8 (k + 1)) by (change (2 ^ 8) with 256; lia).
  destruct trig as [|t' trig].
  - cbn [length Z.of_nat] in Hlen.
    replace (k =? 80 - 1) with true by (symmetry; apply Z.eqb_eq; lia).
    replace (k + 1) with 80 by lia. reflexivity.
  - replace (k =? 80 - 1) with false
      by (symmetry; apply Z.eqb_neq; cbn [length] in Hlen; lia).
    rewrite IH by (try discriminate; lia). reflexivity.
Qed.

(** The initialisation sequencer, triggered in IDLE, drives the clock, the
    command line and the four data lines high for exactly 80 line cycles,
    whatever its counter held before and whatever the trigger does meanwhile,
    and is idle again afterwards. *)
Theorem init_holds_lines_for_80_cycles (c : Z) (trig : list bool) :
  length trig = 80%nat ->
  let s0 := {| init_st := INIT_IDLE; init_count := c |} in
  trace init_step s0 (true :: trig) = pads_quiet :: repeat init_pads 80
  /\ init_st (final init_step s0 (true :: trig)) = INIT_IDLE
  /\ init_st (final init_step s0 (true :: removelast trig)) = INIT_INITIALIZE.
Proof.
  intros Hlen s0. subst s0.
  rewrite trace_cons, !final_cons. cbn [init_step init_st fst snd].
  assert (Hne : trig <> []) by (intros ->; discriminate Hlen).
  pose proof (init_running trig 0 ltac:(lia) ltac:(rewrite Hlen; reflexivity) Hne) as Hrun.
  rewrite (run_trace _ _ _ _ _ Hrun), (run_final _ _ _ _ _ Hrun), Hlen.
  split; [reflexivity|]. split; [reflexivity|].
  (* one cycle earlier the sequencer is still initialising *)
  clear Hrun.
  assert (Hgen : forall (l : list bool) (k : Z),
             0 <= k -> k + Z.of_nat (length l) < 80 ->
             init_st (final init_step {| init_st := INIT_INITIALIZE; init_count := k |} l)
             = INIT_INITIALIZE).
  { induction l as [|t l IH]; intros k Hk Hl; [reflexivity|].
    cbn [length] in Hl. rewrite Nat2Z.inj_succ in Hl.
    rewrite final_cons. cbn [init_step init_st init_count fst].
    replace (k =? 80 - 1) with false by (symmetry; apply Z.eqb_neq; lia).
    rewrite (wrap_small 8 (k + 1)) by (change (2 ^ 8) with 256; lia).
    apply IH; lia. }
  apply Hgen; [lia|].
  assert (Hl : length (removelast trig) = 79%nat).
  { destruct (exists_last Hne) as (l & a & ->).
    rewrite removelast_last. rewrite length_app in Hlen. cbn [length] in Hlen. lia. }
  rewrite Hl. lia.
Qed.

Lemma init_holds_lines_for_80_cycles_witness :
  let s0 := {| init_st := INIT_IDLE; init_count := 7 |} in
  trace init_step s0 (true :: repeat false 80) = pads_quiet :: repeat init_pads 80
  /\ init_st (final init_step s0 (true :: repeat false 80)) = INIT_IDLE
  /\ init_st (final init_step s0 (true :: removelast (repeat false 80))) = INIT_INITIALIZE.
Proof.
  apply (init_holds_lines_for_80_cycles 7 (repeat false 80)).
  reflexivity.
Defined.

(** ** Shared pads while the card is being initialised *)

Lemma low_bits4_range (x : Z) : 0 <= low_bits 4 x < 16.
Proof.
  unfold low_bits. rewrite Z.land_ones by lia. change (2 ^ 4) with 16.
  apply Z.mod_pos_bound. lia.
Qed.

Lemma lor_15_nibble (x : Z) : 0 <= x < 16 -> Z.lor 15 x = 15.
Proof.
  intros Hx.
  assert (H : x = 0 \/ x = 1 \/ x = 2 \/ x = 3 \/ x = 4 \/ x = 5 \/ x = 6 \/ x = 7 \/
              x = 8 \/ x = 9 \/ x = 10 \/ x = 11 \/ x = 12 \/ x = 13 \/ x = 14 \/ x = 15)
    by lia.
  repeat (destruct H as [-> | H]; [reflexivity|]). subst x. reflexivity.
Qed.

Lemma dataw_data_o_range (s : dataw_state) (i : pads_i * byte_sink) :
  0 <= data_o (dataw_pads (snd (dataw_step s i))) < 16.
Proof.
  destruct i as [pads sink]. unfold dataw_step, high_nibble, low_nibble.
  destruct (dataw_st s); cbn [snd dataw_pads drive_data data_o clk_only];
    try apply low_bits4_range; try lia.
  destruct (bs_valid sink); cbn [drive_data data_o pads_quiet]; [|lia].
  destruct (dataw_wrstarted s); [apply low_bits4_range|lia].
Qed.

Lemma cmdw_data_o_zero (s : cmdw_state) (sink : byte_sink) :
  data_o (cmdw_pads (snd (cmdw_step s sink))) = 0.
Proof. unfold cmdw_step. destruct (cmdw_st s); reflexivity. Qed.

Lemma cmdr_data_o_zero (t : Z) (s : cmdr_state) (i : cmdr_in) :
  data_o (co_pads (snd (cmdr_step t s i))) = 0.
Proof. unfold cmdr_step. destruct (cmdr_st s); reflexivity. Qed.

Lemma datar_data_o_zero (t : Z) (s : datar_state) (i : datar_in) :
  data_o (do_pads (snd (datar_step t s i))) = 0.
Proof.
  unfold datar_step. destruct (datar_st s); try reflexivity.
  cbn. destruct (di_valid i); reflexivity.
Qed.

(** While the initialisation sequencer is in INITIALIZE the shared pads carry
    its pattern (clock enabled, command line and data lines driven high)
    whatever the four protocol state machines do in that cycle: the OR of
    the module outputs cannot pull a line low. *)
Theorem init_pattern_wins (tc td : Z) (s : sdphy_state) (i : sdphy_in) :
  init_st (phy_init s) = INIT_INITIALIZE ->
  sdpads (snd (sdphy_step tc td s i)) = init_pads.
Proof.
  intros Hinit. rewrite sdphy_step_out. cbv zeta.
  unfold sdpads, sdphy_modules.
  cbn [po_init po_cmdw po_cmdr po_dataw po_datar reduce_or_bool reduce_or_bits
       map fold_left].
  assert (Hi : snd (init_step (phy_init s) (pi_initialize i)) = init_pads).
  { unfold init_step. rewrite Hinit. reflexivity. }
  rewrite Hi. cbn [init_pads clk cmd_o cmd_oe data_o data_oe orb].
  rewrite cmdw_data_o_zero, cmdr_data_o_zero, datar_data_o_zero.
  rewrite !Z.lor_0_r.
  rewrite lor_15_nibble by apply dataw_data_o_range.
  reflexivity.
Qed.

Lemma init_pattern_wins_witness :
  sdpads (snd (sdphy_step 250000 250000 sdphy_initializing sdphy_quiet_in)) = init_pads.
Proof.
  apply (init_pattern_wins 250000 250000 sdphy_initializing sdphy_quiet_in).
  reflexivity.
Defined.

(** ** SDPHYR with a stalled consumer *)

Lemma rd_stalled_next (p : sdphyr_params) (st : sdphyr_state) (pads : pads_i) :
  r_strobe_all st = true -> r_buf_valid st = true ->
  let st' := sdphyr_next p st pads false in
  r_strobe_all st' = true /\ r_buf_valid st' = true /\
  r_demux st' = r_demux st /\ r_conv_data st' = r_conv_data st /\
  r_buf_data st' = r_buf_data st.
Proof.
  intros Hs Hb. unfold sdphyr_next.
  cbn [r_strobe_all r_buf_valid r_demux r_conv_data r_buf_data].
  rewrite Hs, Hb. cbn [negb orb andb]. rewrite !andb_false_r. cbn.
  repeat split.
Qed.

(** When the consumer of the reader does not take bytes, the reader keeps one
    byte in its buffer and one in its converter and drops every further line
    sample: its data registers do not change however long the line goes on. *)
Theorem reader_overrun_drops_samples (p : sdphyr_params) (st : sdphyr_state)
    (ins : list (pads_i * bool)) :
  r_strobe_all st = true -> r_buf_valid st = true ->
  Forall (fun i => snd i = false) ins ->
  let st' := final (sdphyr_cycle p) st ins in
  sdphyr_valid st' = true /\ sdphyr_data st' = sdphyr_data st /\
  r_strobe_all st' = true /\ r_conv_data st' = r_conv_data st /\
  r_demux st' = r_demux st.
Proof.
  intros Hs Hb Hins. revert st Hs Hb; induction Hins as [|[pads rdy] ins Hr _ IH];
    intros st Hs Hb; cbv zeta.
  - rewrite final_nil. unfold sdphyr_valid. repeat split; assumption.
  - cbn [snd] in Hr. subst rdy. rewrite final_cons.
    cbn [sdphyr_cycle fst snd sdphyr_step].
    destruct (rd_stalled_next p st pads Hs Hb) as (Hs' & Hb' & Hd & Hc & He).
    destruct (IH _ Hs' Hb') as (H1 & H2 & H3 & H4 & H5).
    unfold sdphyr_data in *. rewrite H2, H4, H5, He, Hc, Hd.
    repeat split; assumption.
Qed.

Lemma reader_overrun_drops_samples_witness :
  let st' := final (sdphyr_cycle datar_params) rd_two_bytes
               [(data_level 5, false); (data_level 6, false)] in
  sdphyr_valid st' = true /\ sdphyr_data st' = sdphyr_data rd_two_bytes /\
  r_strobe_all st' = true /\ r_conv_data st' = r_conv_data rd_two_bytes /\
  r_demux st' = r_demux rd_two_bytes.
Proof.
  apply (reader_overrun_drops_samples datar_params rd_two_bytes
           [(data_level 5, false); (data_level 6, false)]).
  - reflexivity.
  - reflexivity.
  - repeat constructor.
Defined.

(** ** Trailer of the command reader *)




(** ** SDPHYCMDW on any byte queue *)

(** The command writer sends every queued byte MSB first, one bit per clocked
    cycle with the command line's output enabled; after a byte marked [last]
    it holds the line high for 256 clocked cycles, because CLK8 is entered
    with the bit counter at 8 and left only when the 8-bit counter has
    wrapped round to 7.  After [cmdw_cycles q] cycles the queue is consumed
    and the writer is idle. *)
Theorem cmdw_writes_queue (q : list (Z * bool)) (c : Z) :
  let s0 := ({| cmdw_st := CMDW_IDLE; cmdw_count := c |}, q) in
  let n := cmdw_cycles q in
  cmd_line_bits (trace cmdw_cycle s0 (repeat tt n)) =
    flat_map (fun bl : Z * bool =>
                byte_bits (fst bl) ++ (if snd bl then repeat true 256 else [])) q
  /\ snd (final cmdw_cycle s0 (repeat tt n)) = []
  /\ cmdw_st (fst (final cmdw_cycle s0 (repeat tt n))) = CMDW_IDLE.
Proof. exact (cmdw_serialises q c). Qed.

(** ** SDPHYDATAR *)

(** *** One cycle of the data reader *)

Lemma datar_rd_running (k : Z) (s : bool) (d : Z) (v : bool) (e : Z)
    (pads : pads_i) (rdy : bool) :
  sdphyr_step datar_params
    {| r_run := true; r_demux := k; r_strobe_all := s; r_conv_data := d;
       r_buf_valid := v; r_buf_data := e |} pads rdy false =
  let pipe_ce := rdy || negb v in
  let load := negb s || pipe_ce in
  {| r_run := true;
     r_demux := if load then (if k =? 1 then 0 else k + 1) else k;
     r_strobe_all := if load && (k =? 1) then true else if pipe_ce then false else s;
     r_conv_data := if load then conv_put4 d k (data_i pads) else d;
     r_buf_valid := if pipe_ce then s else v;
     r_buf_data := if pipe_ce then d else e |}.
Proof.
  unfold sdphyr_step, sdphyr_next.
  cbn [r_run r_demux r_strobe_all r_conv_data r_buf_valid r_buf_data
       p_skip_start_bit p_cmd p_data_width datar_params pads_in_data].
  rewrite !orb_true_r. reflexivity.
Qed.

Ltac datar_unfold :=
  unfold datar_cycle, datar_step, datar_armed, datar_accepted, datar_loading,
    datar_full, datar_holding, datar_both;
  cbn [datar_st datar_count datar_timeout datar_rst datar_rd di_pads di_ready
       di_valid di_block_length di_last li_pads li_ready data_sample
       sdphyr_valid sdphyr_data r_buf_valid r_buf_data].

Ltac datar_fold_out :=
  cbn [do_sink_ready do_pads do_src emitted src_valid src_data src_status src_last
       src_quiet andb orb negb].

Ltac datar_tick tau :=
  rewrite (eqb_pos_false tau) by lia; rewrite wrap32_pred by lia.

Lemma datar_accept (T : Z) (s : datar_state) (r : read_req) (q : list read_req)
    (li : line_in) :
  0 <= T < 2 ^ 32 ->
  datar_st s = DATAR_IDLE ->
  datar_cycle T (s, r :: q) li =
    ((datar_accepted T
        (sdphyr_step datar_params (datar_rd s) (li_pads li) false (datar_rst s)),
      r :: q),
     (clk_only, [])).
Proof.
  intros HT Hs. unfold datar_cycle, datar_step. rewrite Hs, (wrap_small 32 T) by exact HT.
  reflexivity.
Qed.

Lemma datar_release (T : Z) (rd : sdphyr_state) (q : list read_req) (li : line_in) :
  0 < T < 2 ^ 32 ->
  datar_cycle T (datar_accepted T rd, q) li =
    ((datar_armed (if sdphyr_valid rd then DATAR_DATA else DATAR_WAIT) (T - 1), q),
     (clk_only, [])).
Proof.
  intros HT. unfold datar_cycle, datar_step, datar_accepted, datar_armed.
  cbn [datar_st datar_count datar_timeout datar_rst datar_rd sdphyr_step].
  datar_fold_out. datar_tick T. reflexivity.
Qed.

Lemma datar_hold_step (T : Z) (st : datar_fsm) (tau : Z) (q : list read_req) (li : line_in) :
  st = DATAR_WAIT \/ st = DATAR_DATA ->
  0 < tau < 2 ^ 32 ->
  sdphyr_start datar_params (li_pads li) = false ->
  datar_cycle T (datar_armed st tau, q) li =
    ((datar_armed st (tau - 1), q), (clk_only, [])).
Proof.
  intros Hst Htau Hs. datar_unfold.
  destruct Hst as [-> | ->]; cbn [sdphyr_reset r_buf_valid andb]; datar_fold_out;
    datar_tick tau; unfold sdphyr_step, sdphyr_next;
    cbn [r_run r_demux r_strobe_all r_conv_data r_buf_valid r_buf_data
         p_skip_start_bit datar_params sdphyr_reset andb orb negb];
    fold datar_params; rewrite Hs; reflexivity.
Qed.

Lemma datar_start_nibble (T : Z) (st : datar_fsm) (tau : Z) (q : list read_req) (x : Z) :
  st = DATAR_WAIT \/ st = DATAR_DATA ->
  0 < tau < 2 ^ 32 ->
  low_bits 4 x = 0 ->
  datar_cycle T (datar_armed st tau, q) (data_sample x) =
    ((datar_loading st 0 (tau - 1) 0 0 0, q), (clk_only, [])).
Proof.
  intros Hst Htau Hx.
  assert (Hs : sdphyr_start datar_params (data_level x) = true).
  { unfold sdphyr_start, pads_in_data.
    cbn [p_cmd p_data_width datar_params data_level data_i]. rewrite Hx. reflexivity. }
  datar_unfold.
  destruct Hst as [-> | ->]; cbn [sdphyr_reset r_buf_valid andb]; datar_fold_out;
    datar_tick tau; unfold sdphyr_step, sdphyr_next;
    cbn [r_run r_demux r_strobe_all r_conv_data r_buf_valid r_buf_data
         p_skip_start_bit datar_params andb orb negb];
    fold datar_params; rewrite Hs; reflexivity.
Qed.

Lemma datar_load (T : Z) (st : datar_fsm) (m tau k d e : Z) (q : list read_req) (x : Z) :
  st = DATAR_WAIT \/ st = DATAR_DATA ->
  0 < tau < 2 ^ 32 ->
  datar_cycle T (datar_loading st m tau k d e, q) (data_sample x) =
    ((if k =? 1 then datar_full st m (tau - 1) (conv_put4 d k x) d
      else datar_loading st m (tau - 1) (k + 1) (conv_put4 d k x) d, q),
     (clk_only, [])).
Proof.
  intros Hst Htau. datar_unfold.
  destruct Hst as [-> | ->]; datar_fold_out; datar_tick tau;
    rewrite datar_rd_running; cbv zeta; cbn [andb orb negb data_level data_i];
    destruct (k =? 1); reflexivity.
Qed.

Lemma datar_buffer (T : Z) (st : datar_fsm) (m tau d e : Z) (q : list read_req) (x : Z) :
  st = DATAR_WAIT \/ st = DATAR_DATA ->
  0 < tau < 2 ^ 32 ->
  datar_cycle T (datar_full st m tau d e, q) (data_sample x) =
    ((datar_holding st m (tau - 1) 1 (conv_put4 d 0 x) d, q), (clk_only, [])).
Proof.
  intros Hst Htau. datar_unfold.
  destruct Hst as [-> | ->]; datar_fold_out; datar_tick tau;
    rewrite datar_rd_running; reflexivity.
Qed.

Lemma datar_wait_sees_byte (T : Z) (m tau d b : Z) (q : list read_req) (x : Z) :
  0 < tau < 2 ^ 32 ->
  datar_cycle T (datar_holding DATAR_WAIT m tau 1 d b, q) (data_sample x) =
    ((datar_both DATAR_DATA m (tau - 1) (conv_put4 d 1 x) b, q), (clk_only, [])).
Proof.
  intros Htau. datar_unfold. datar_fold_out. datar_tick tau.
  rewrite datar_rd_running. reflexivity.
Qed.

Lemma datar_xfer_both (T : Z) (m tau d b : Z) (r : read_req) (q : list read_req) (x : Z) :
  0 < tau < 2 ^ 32 ->
  0 <= m < 1023 -> m <> wrap 10 (rq_length r + 8 - 1) ->
  datar_cycle T (datar_both DATAR_DATA m tau d b, r :: q) (data_sample x) =
    ((datar_holding DATAR_DATA (m + 1) (tau - 1) 1 (conv_put4 d 0 x) d, r :: q),
     (clk_only, [(b, SDCARD_STREAM_STATUS_OK, false)])).
Proof.
  intros Htau Hm Hlast. datar_unfold.
  replace (m =? wrap 10 (rq_length r + 8 - 1)) with false
    by (symmetry; now apply Z.eqb_neq).
  datar_fold_out. datar_tick tau.
  rewrite (wrap_small 10 (m + 1)) by (change (2 ^ 10) with 1024; lia).
  rewrite datar_rd_running. reflexivity.
Qed.

Lemma datar_xfer_more (T : Z) (m tau d b : Z) (r : read_req) (q : list read_req) (x : Z) :
  0 < tau < 2 ^ 32 ->
  0 <= m < 1023 -> m <> wrap 10 (rq_length r + 8 - 1) ->
  datar_cycle T (datar_holding DATAR_DATA m tau 1 d b, r :: q) (data_sample x) =
    ((datar_full DATAR_DATA (m + 1) (tau - 1) (conv_put4 d 1 x) d, r :: q),
     (clk_only, [(b, SDCARD_STREAM_STATUS_OK, false)])).
Proof.
  intros Htau Hm Hlast. datar_unfold.
  replace (m =? wrap 10 (rq_length r + 8 - 1)) with false
    by (symmetry; now apply Z.eqb_neq).
  datar_fold_out. datar_tick tau.
  rewrite (wrap_small 10 (m + 1)) by (change (2 ^ 10) with 1024; lia).
  rewrite datar_rd_running. reflexivity.
Qed.

Lemma datar_xfer_last (T : Z) (m tau k d b : Z) (s : bool) (r : read_req)
    (q : list read_req) (x : Z) :
  0 < tau < 2 ^ 32 ->
  m = wrap 10 (rq_length r + 8 - 1) ->
  exists s', datar_over s' /\
    datar_cycle T
      ({| datar_st := DATAR_DATA; datar_count := m; datar_timeout := tau;
          datar_rst := false;
          datar_rd := {| r_run := true; r_demux := k; r_strobe_all := s;
                         r_conv_data := d; r_buf_valid := true; r_buf_data := b |} |},
       r :: q) (data_sample x) =
      ((s', q), (clk_only, [(b, SDCARD_STREAM_STATUS_OK, true)])).
Proof.
  intros Htau Hm. datar_unfold.
  replace (m =? wrap 10 (rq_length r + 8 - 1)) with true
    by (symmetry; now apply Z.eqb_eq).
  datar_fold_out. rewrite (eqb_pos_false tau) by lia.
  eexists. split; [|reflexivity].
  unfold datar_over. cbn [datar_st]. destruct (rq_last r); auto.
Qed.

(** *** The byte assembled from two nibbles *)

Lemma pair_byte_bits (a b i : Z) :
  0 <= i ->
  Z.testbit (pair_byte (a, b)) i =
    if i <? 4 then Z.testbit b i else if i <? 8 then Z.testbit a (i - 4) else false.
Proof.
  intros Hi. unfold pair_byte. cbn [fst snd].
  rewrite Z.lor_spec, Z.shiftl_spec by lia.
  rewrite (testbit_low_bits 4 b i) by lia.
  destruct (Z.ltb_spec i 4).
  - rewrite Z.testbit_neg_r by lia. cbn [orb].
    destruct (Z.testbit b i); reflexivity.
  - rewrite testbit_low_bits by lia.
    destruct (Z.ltb_spec i 8).
    + replace (i - 4 <? 4) with true by (symmetry; apply Z.ltb_lt; lia).
      destruct (Z.testbit a (i - 4)), (Z.testbit b i); reflexivity.
    + replace (i - 4 <? 4) with false by (symmetry; apply Z.ltb_ge; lia).
      destruct (Z.testbit a (i - 4)), (Z.testbit b i); reflexivity.
Qed.

Lemma conv_put4_pair (d a b : Z) :
  0 <= d < 256 -> conv_put4 (conv_put4 d 0 a) 1 b = pair_byte (a, b).
Proof.
  intros Hd. apply Z.bits_inj'. intros i Hi.
  rewrite pair_byte_bits by exact Hi. unfold conv_put4.
  change ((2 - 0 - 1) * 4) with 4. change ((2 - 1 - 1) * 4) with 0.
  rewrite !testbit_set_slice by lia.
  replace (0 <=? i) with true by (symmetry; apply Z.leb_le; lia).
  change (0 + 4) with 4. change (4 + 4) with 8. cbn [andb].
  destruct (Z.ltb_spec i 4).
  - rewrite testbit_low_bits by lia. rewrite Z.sub_0_r.
    replace (i <? 4) with true by (symmetry; apply Z.ltb_lt; lia).
    destruct (Z.testbit b i); reflexivity.
  - replace (4 <=? i) with true by (symmetry; apply Z.leb_le; lia). cbn [andb].
    destruct (Z.ltb_spec i 8).
    + rewrite testbit_low_bits by lia.
      replace (i - 4 <? 4) with true by (symmetry; apply Z.ltb_lt; lia).
      destruct (Z.testbit a (i - 4)); reflexivity.
    + now apply testbit_above_byte.
Qed.

Lemma pair_byte_range (g : Z * Z) : 0 <= pair_byte g < 256.
Proof.
  destruct g as [a b]. unfold pair_byte. cbn [fst snd].
  pose proof (low_bits4_range a) as Ha. pose proof (low_bits4_range b) as Hb.
  assert (H0 : 0 <= Z.lor (Z.shiftl (low_bits 4 a) 4) (low_bits 4 b)).
  { apply Z.lor_nonneg. split; [apply Z.shiftl_nonneg|]; lia. }
  split; [exact H0|].
  destruct (Z.eq_dec (Z.lor (Z.shiftl (low_bits 4 a) 4) (low_bits 4 b)) 0) as [E|E];
    [rewrite E; lia|].
  apply (Z.log2_lt_cancel _ 256). change (Z.log2 256) with 8.
  pose proof (Z.log2_lor (Z.shiftl (low_bits 4 a) 4) (low_bits 4 b)
                ltac:(apply Z.shiftl_nonneg; lia) ltac:(lia)) as Hl.
  rewrite Hl.
  assert (H1 : Z.log2 (Z.shiftl (low_bits 4 a) 4) < 8).
  { rewrite Z.shiftl_mul_pow2 by lia. change (2 ^ 4) with 16.
    destruct (Z.eq_dec (low_bits 4 a) 0) as [Ea|Ea]; [rewrite Ea; cbn; lia|].
    apply Z.log2_lt_pow2; [lia|]. change (2 ^ 8) with 256. lia. }
  assert (H2 : Z.log2 (low_bits 4 b) < 8).
  { destruct (Z.eq_dec (low_bits 4 b) 0) as [Eb|Eb]; [rewrite Eb; cbn; lia|].
    apply Z.log2_lt_pow2; [lia|]. change (2 ^ 8) with 256. lia. }
  lia.
Qed.

(** *** Two line cycles at a time *)

Ltac datar_steps :=
  repeat first
    [ rewrite datar_start_nibble by (auto; lia)
    | rewrite datar_buffer by (auto; lia)
    | rewrite datar_wait_sees_byte by lia
    | rewrite datar_xfer_both by (auto; lia)
    | rewrite datar_xfer_more by (auto; lia)
    | rewrite datar_load by (auto; lia) ];
  cbn [Z.eqb Pos.eqb Z.add Pos.add Pos.succ].

Lemma datar_first_pair (T : Z) (st : datar_fsm) (tau : Z) (q : list read_req)
    (x a b : Z) :
  st = DATAR_WAIT \/ st = DATAR_DATA ->
  3 <= tau < 2 ^ 32 ->
  low_bits 4 x = 0 ->
  exists e,
    run (datar_cycle T) (datar_armed st tau, q) (map data_sample [x; a; b]) =
      ((datar_full st 0 (tau - 3) (pair_byte (a, b)) e, q), repeat (clk_only, []) 3).
Proof.
  intros Hst Htau Hx. eexists. cbn [map run].
  do 3 (datar_steps; cbn [Z.eqb Pos.eqb Z.add Pos.add Pos.succ]).
  rewrite conv_put4_pair by lia.
  replace (tau - 1 - 1 - 1) with (tau - 3) by lia. reflexivity.
Qed.

Lemma datar_next_byte (T : Z) (m tau d e : Z) (r : read_req) (q : list read_req)
    (a b : Z) :
  2 <= tau < 2 ^ 32 -> 0 <= d < 256 ->
  0 <= m < 1023 -> m <> wrap 10 (rq_length r + 8 - 1) ->
  exists e' tr,
    run (datar_cycle T) (datar_full DATAR_DATA m tau d e, r :: q)
        (map data_sample [a; b]) =
      ((datar_full DATAR_DATA (m + 1) (tau - 2) (pair_byte (a, b)) e', r :: q), tr)
    /\ items_of tr = [(d, SDCARD_STREAM_STATUS_OK, false)].
Proof.
  intros Htau Hd Hm Hlast. do 2 eexists. cbn [map run].
  do 2 (datar_steps; cbn [Z.eqb Pos.eqb Z.add Pos.add Pos.succ]).
  rewrite conv_put4_pair by lia.
  replace (tau - 1 - 1) with (tau - 2) by lia. split; reflexivity.
Qed.

Lemma datar_two_from_wait (T : Z) (tau d e : Z) (r : read_req) (q : list read_req)
    (a b c f : Z) :
  4 <= tau < 2 ^ 32 -> 0 <= d < 256 ->
  0 <> wrap 10 (rq_length r + 8 - 1) -> 1 <> wrap 10 (rq_length r + 8 - 1) ->
  exists e' tr,
    run (datar_cycle T) (datar_full DATAR_WAIT 0 tau d e, r :: q)
        (map data_sample [a; b; c; f]) =
      ((datar_full DATAR_DATA 2 (tau - 4) (pair_byte (c, f)) e', r :: q), tr)
    /\ items_of tr = [(d, SDCARD_STREAM_STATUS_OK, false);
                      (pair_byte (a, b), SDCARD_STREAM_STATUS_OK, false)].
Proof.
  intros Htau Hd H0 H1. do 2 eexists. cbn [map run].
  do 4 (datar_steps; cbn [Z.eqb Pos.eqb Z.add Pos.add Pos.succ]).
  rewrite (conv_put4_pair d a b) by lia.
  rewrite conv_put4_pair by apply pair_byte_range.
  replace (tau - 1 - 1 - 1 - 1) with (tau - 4) by lia. split; reflexivity.
Qed.

Lemma datar_last_byte (T : Z) (m tau d e : Z) (r : read_req) (q : list read_req)
    (y0 y1 : Z) :
  2 <= tau < 2 ^ 32 ->
  m = wrap 10 (rq_length r + 8 - 1) ->
  exists s' tr,
    datar_over s' /\
    run (datar_cycle T) (datar_full DATAR_DATA m tau d e, r :: q)
        (map data_sample [y0; y1]) = ((s', q), tr)
    /\ items_of tr = [(d, SDCARD_STREAM_STATUS_OK, true)].
Proof.
  intros Htau Hm.
  destruct (datar_xfer_last T m (tau - 1) 1 (conv_put4 d 0 y0) d false r q y1
              ltac:(lia) Hm) as (s' & Hover & Hx).
  exists s'. eexists. split; [exact Hover|].
  cbn [map run]. rewrite datar_buffer by (auto; lia).
  unfold datar_holding. rewrite Hx. split; reflexivity.
Qed.

Lemma datar_only_byte_from_wait (T : Z) (tau d e : Z) (r : read_req) (q : list read_req)
    (y0 y1 y2 : Z) :
  3 <= tau < 2 ^ 32 ->
  0 = wrap 10 (rq_length r + 8 - 1) ->
  exists s' tr,
    datar_over s' /\
    run (datar_cycle T) (datar_full DATAR_WAIT 0 tau d e, r :: q)
        (map data_sample [y0; y1; y2]) = ((s', q), tr)
    /\ items_of tr = [(d, SDCARD_STREAM_STATUS_OK, true)].
Proof.
  intros Htau Hm.
  destruct (datar_xfer_last T 0 (tau - 1 - 1) 0
              (conv_put4 (conv_put4 d 0 y0) 1 y1) d true r q y2 ltac:(lia) Hm)
    as (s' & Hover & Hx).
  exists s'. eexists. split; [exact Hover|].
  cbn [map run]. rewrite datar_buffer by (auto; lia).
  rewrite datar_wait_sees_byte by lia.
  unfold datar_both. rewrite Hx. split; reflexivity.
Qed.

Lemma datar_two_bytes_from_wait (T : Z) (tau d e : Z) (r : read_req) (q : list read_req)
    (a b y0 y1 : Z) :
  4 <= tau < 2 ^ 32 -> 0 <= d < 256 ->
  1 = wrap 10 (rq_length r + 8 - 1) ->
  exists s' tr,
    datar_over s' /\
    run (datar_cycle T) (datar_full DATAR_WAIT 0 tau d e, r :: q)
        (map data_sample [a; b; y0; y1]) = ((s', q), tr)
    /\ items_of tr = [(d, SDCARD_STREAM_STATUS_OK, false);
                      (pair_byte (a, b), SDCARD_STREAM_STATUS_OK, true)].
Proof.
  intros Htau Hd Hm.
  destruct (datar_xfer_last T 1 (tau - 1 - 1 - 1) 1
              (conv_put4 (pair_byte (a, b)) 0 y0) (pair_byte (a, b)) false r q y1
              ltac:(lia) Hm) as (s' & Hover & Hx).
  exists s'. eexists. split; [exact Hover|].
  cbn [map run]. rewrite datar_buffer by (auto; lia).
  rewrite datar_wait_sees_byte by lia.
  rewrite datar_xfer_both by (try lia; rewrite <- Hm; lia).
  rewrite conv_put4_pair by lia. cbn [Z.add Pos.add].
  unfold datar_holding. rewrite Hx. split; reflexivity.
Qed.

(** *** A whole block *)

Lemma wrap10_range (x : Z) : 0 <= wrap 10 x < 1024.
Proof. unfold wrap. change (2 ^ 10) with 1024. apply Z.mod_pos_bound. lia. Qed.

Lemma datar_stream (T : Z) (r : read_req) (q : list read_req) (y0 y1 : Z)
    (gs : list (Z * Z)) (m tau d e : Z) :
  0 <= d < 256 -> 0 <= m ->
  m + Z.of_nat (length gs) = wrap 10 (rq_length r + 8 - 1) ->
  2 * Z.of_nat (length gs) + 2 <= tau < 2 ^ 32 ->
  exists s' tr,
    datar_over s' /\
    run (datar_cycle T) (datar_full DATAR_DATA m tau d e, r :: q)
        (pairs_in gs ++ map data_sample [y0; y1]) = ((s', q), tr)
    /\ items_of tr = mark_last (d :: map pair_byte gs).
Proof.
  revert m tau d e; induction gs as [|[a b] gs IH]; intros m tau d e Hd Hm Htgt Htau.
  - cbn [length Z.of_nat] in *. cbn [pairs_in flat_map app map mark_last].
    apply datar_last_byte; lia.
  - cbn [length] in *. rewrite Nat2Z.inj_succ in *.
    pose proof (wrap10_range (rq_length r + 8 - 1)) as Hw.
    destruct (datar_next_byte T m tau d e r q a b) as (e' & tr1 & Hrun1 & Hit1); try lia.
    destruct (IH (m + 1) (tau - 2) (pair_byte (a, b)) e')
      as (s' & tr2 & Hover & Hrun2 & Hit2); try lia.
    { apply pair_byte_range. }
    exists s', (tr1 ++ tr2). split; [exact Hover|]. split.
    + cbn [pairs_in flat_map fst snd]. rewrite <- app_assoc.
      apply (run_app_eq _ _ _ _ _ _ _ _ Hrun1 Hrun2).
    + rewrite items_of_app, Hit1, Hit2. reflexivity.
Qed.

Lemma datar_quiet (T : Z) (ins : list line_in) (s : datar_state) :
  datar_over s ->
  exists s' tr,
    datar_over s' /\ run (datar_cycle T) (s, []) ins = ((s', []), tr)
    /\ items_of tr = [].
Proof.
  revert s; induction ins as [|i ins IH]; intros s Hs.
  - exists s, []. repeat split; auto.
  - assert (H1 : exists s1 p, datar_over s1 /\
                   datar_cycle T (s, []) i = ((s1, []), (p, []))).
    { unfold datar_cycle, datar_step, datar_over.
      destruct Hs as [Hs|Hs]; rewrite Hs; cbn [di_valid andb]; do 2 eexists;
        (split; [|reflexivity]); cbn [datar_st]; auto.
      destruct (datar_count s =? 40 - 1); auto. }
    destruct H1 as (s1 & p & Hs1 & Hc).
    destruct (IH s1 Hs1) as (s' & tr & Hs' & Hrun & Hit).
    exists s', ((p, []) :: tr). split; [exact Hs'|]. split.
    + cbn [run]. rewrite Hc, Hrun. reflexivity.
    + unfold items_of in *. cbn [map concat snd app]. exact Hit.
Qed.

Lemma datar_hold (T : Z) (st : datar_fsm) (q : list read_req) (ws : list line_in) (tau : Z) :
  st = DATAR_WAIT \/ st = DATAR_DATA ->
  Z.of_nat (length ws) <= tau < 2 ^ 32 ->
  no_start datar_params ws ->
  run (datar_cycle T) (datar_armed st tau, q) ws =
    ((datar_armed st (tau - Z.of_nat (length ws)), q),
     repeat (clk_only, []) (length ws)).
Proof.
  intros Hst. revert tau; induction ws as [|w ws IH]; intros tau Htau Hns.
  - cbn. now rewrite Z.sub_0_r.
  - inversion Hns as [|? ? Hw Hws]; subst.
    cbn [length] in Htau. cbn [run].
    rewrite datar_hold_step by (auto; lia).
    rewrite IH by (auto; lia).
    cbn [length repeat]. f_equal. f_equal. f_equal. lia.
Qed.

Lemma datar_arm (T : Z) (s : datar_state) (r : read_req) (q : list read_req)
    (i0 i1 : line_in) :
  0 < T < 2 ^ 32 -> datar_st s = DATAR_IDLE ->
  exists st,
    (st = DATAR_WAIT \/ st = DATAR_DATA) /\
    run (datar_cycle T) (s, r :: q) [i0; i1] =
      ((datar_armed st (T - 1), r :: q), repeat (clk_only, []) 2).
Proof.
  intros HT Hs.
  exists (if sdphyr_valid
               (sdphyr_step datar_params (datar_rd s) (li_pads i0) false (datar_rst s))
          then DATAR_DATA else DATAR_WAIT).
  split; [destruct (sdphyr_valid _); auto|].
  cbn [run]. rewrite (datar_accept T s r q i0 ltac:(lia) Hs), datar_release by exact HT.
  reflexivity.
Qed.

(** A block of [1 + length gs] bytes sent as nibble pairs right after the
    start nibble, after any number of idle cycles and well before the
    timeout, is handed over byte by byte with status OK, the final byte with
    [last], and the request is consumed.  The requested block length is only
    seen through [(block_length + 8 - 1) mod 1024]. *)
Lemma datar_reads (T : Z) (s : datar_state) (r : read_req) (i0 i1 : line_in)
    (ws : list line_in) (x : Z) (g0 : Z * Z) (gs : list (Z * Z))
    (y0 y1 y2 : Z) (ys : list Z) :
  datar_st s = DATAR_IDLE ->
  no_start datar_params ws ->
  low_bits 4 x = 0 ->
  wrap 10 (rq_length r + 8 - 1) = Z.of_nat (length gs) ->
  Z.of_nat (length ws) + 2 * Z.of_nat (length gs) + 8 <= T < 2 ^ 32 ->
  let ins := i0 :: i1 :: ws ++ data_sample x :: pairs_in (g0 :: gs)
                ++ map data_sample (y0 :: y1 :: y2 :: ys) in
  items_of (trace (datar_cycle T) (s, [r]) ins) = mark_last (map pair_byte (g0 :: gs))
  /\ snd (final (datar_cycle T) (s, [r]) ins) = []
  /\ datar_over (fst (final (datar_cycle T) (s, [r]) ins)).
Proof.
  intros Hs Hns Hstart Htgt HT ins.
  destruct (datar_arm T s r [] i0 i1 ltac:(lia) Hs) as (st & Hst & Hrun0).
  pose proof (datar_hold T st [r] ws (T - 1) Hst ltac:(lia) Hns) as Hrun1.
  set (tau1 := T - 1 - Z.of_nat (length ws)) in *.
  destruct g0 as [a0 b0].
  destruct (datar_first_pair T st tau1 [r] x a0 b0 Hst ltac:(subst tau1; lia) Hstart)
    as (e & Hrun2).
  pose proof (pair_byte_range (a0, b0)) as Hb0.
  assert (Hrest : exists s3 tr3,
             datar_over s3 /\
             run (datar_cycle T) (datar_full st 0 (tau1 - 3) (pair_byte (a0, b0)) e, [r])
                 (pairs_in gs ++ map data_sample [y0; y1; y2]) = ((s3, []), tr3)
             /\ items_of tr3 = mark_last (pair_byte (a0, b0) :: map pair_byte gs)).
  { destruct Hst as [-> | ->].
    - (* still in WAIT when the first byte is complete *)
      destruct gs as [|[a1 b1] gs].
      + cbn [pairs_in flat_map app map mark_last].
        apply datar_only_byte_from_wait; [subst tau1; cbn [length] in *; lia|].
        now rewrite Htgt.
      + destruct gs as [|[a2 b2] gs].
        * cbn [length] in Htgt, HT.
          destruct (datar_two_bytes_from_wait T (tau1 - 3) (pair_byte (a0, b0)) e r []
                      a1 b1 y0 y1) as (s3 & tr3 & Hover & Hrun3 & Hit3);
            [subst tau1; lia | exact Hb0 | now rewrite Htgt |].
          destruct (datar_quiet T [data_sample y2] s3 Hover)
            as (s4 & tr4 & Hover4 & Hrun4 & Hit4).
          exists s4, (tr3 ++ tr4). split; [exact Hover4|]. split.
          -- cbn [pairs_in flat_map fst snd app map].
             change [data_sample a1; data_sample b1; data_sample y0;
                     data_sample y1; data_sample y2]
               with (map data_sample [a1; b1; y0; y1] ++ [data_sample y2]).
             apply (run_app_eq _ _ _ _ _ _ _ _ Hrun3 Hrun4).
          -- rewrite items_of_app, Hit3, Hit4, app_nil_r. reflexivity.
        * cbn [length] in Htgt, HT. rewrite !Nat2Z.inj_succ in Htgt, HT.
          destruct (datar_two_from_wait T (tau1 - 3) (pair_byte (a0, b0)) e r []
                      a1 b1 a2 b2) as (e' & tr & Hrun & Hit);
            [subst tau1; lia | exact Hb0 | lia | lia |].
          destruct (datar_stream T r [] y0 y1 gs 2 (tau1 - 3 - 4) (pair_byte (a2, b2)) e')
            as (s3 & tr3 & Hover & Hrun3 & Hit3);
            [apply pair_byte_range | lia | lia | subst tau1; lia |].
          destruct (datar_quiet T [data_sample y2] s3 Hover)
            as (s4 & tr4 & Hover4 & Hrun4 & Hit4).
          exists s4, (tr ++ tr3 ++ tr4). split; [exact Hover4|]. split.
          -- replace (pairs_in ((a1, b1) :: (a2, b2) :: gs) ++ map data_sample [y0; y1; y2])
               with (map data_sample [a1; b1; a2; b2]
                       ++ (pairs_in gs ++ map data_sample [y0; y1]) ++ [data_sample y2])
               by (unfold pairs_in; simpl; rewrite <- ?app_assoc; reflexivity).
             apply (run_app_eq _ _ _ _ _ _ _ _ Hrun).
             apply (run_app_eq _ _ _ _ _ _ _ _ Hrun3 Hrun4).
          -- rewrite !items_of_app, Hit, Hit3, Hit4, app_nil_r. reflexivity.
    - (* a stale byte had already moved the state machine to DATA *)
      destruct (datar_stream T r [] y0 y1 gs 0 (tau1 - 3) (pair_byte (a0, b0)) e)
        as (s3 & tr3 & Hover & Hrun3 & Hit3); [exact Hb0 | lia | lia | subst tau1; lia |].
      destruct (datar_quiet T [data_sample y2] s3 Hover)
        as (s4 & tr4 & Hover4 & Hrun4 & Hit4).
      exists s4, (tr3 ++ tr4). split; [exact Hover4|]. split.
      + change (map data_sample [y0; y1; y2])
          with (map data_sample [y0; y1] ++ [data_sample y2]).
        rewrite app_assoc.
        apply (run_app_eq _ _ _ _ _ _ _ _ Hrun3 Hrun4).
      + rewrite !items_of_app, Hit3, Hit4, app_nil_r. reflexivity. }
  destruct Hrest as (s3 & tr3 & Hover3 & Hrun3 & Hit3).
  destruct (datar_quiet T (map data_sample ys) s3 Hover3)
    as (s5 & tr5 & Hover5 & Hrun5 & Hit5).
  assert (Hall : run (datar_cycle T) (s, [r]) ins =
                 ((s5, []), repeat (clk_only, []) 2 ++ repeat (clk_only, []) (length ws)
                                ++ repeat (clk_only, []) 3 ++ tr3 ++ tr5)).
  { subst ins.
    change (i0 :: i1 :: ws ++ data_sample x :: pairs_in ((a0, b0) :: gs)
              ++ map data_sample (y0 :: y1 :: y2 :: ys))
      with ([i0; i1] ++ ws ++ (map data_sample [x; a0; b0] ++ pairs_in gs)
              ++ (map data_sample [y0; y1; y2] ++ map data_sample ys)).
    apply (run_app_eq _ _ _ _ _ _ _ _ Hrun0).
    apply (run_app_eq _ _ _ _ _ _ _ _ Hrun1).
    rewrite <- app_assoc.
    apply (run_app_eq _ _ _ _ _ _ _ _ Hrun2).
    rewrite app_assoc.
    apply (run_app_eq _ _ _ _ _ _ _ _ Hrun3 Hrun5). }
  rewrite (run_final _ _ _ _ _ Hall), (run_trace _ _ _ _ _ Hall). cbn [fst snd].
  split; [|split; [reflexivity|exact Hover5]].
  rewrite !items_of_app, !items_of_repeat_nil, Hit3, Hit5, app_nil_r.
  reflexivity.
Qed.

(** A block read of [N] bytes with [0 <= N <= 1016], from any IDLE state,
    under these provisos: after an idle prefix [ws] without start nibble the
    card sends the start nibble (all four data lines low), then [N + 8]
    bytes as nibble pairs, high nibble first, one nibble per line cycle, and
    at least three more samples follow; the result stream is ready in every
    cycle from the start nibble on (the frame is made of [data_sample]
    cycles); and the timeout reload [T] leaves room,
    [|ws| + 2 (N + 8) + 6 <= T < 2^32].
    Then the data reader hands over exactly [N + 8] items with status OK,
    [last] set on the final one only, each byte made of its two nibbles, and
    consumes the request. *)
Theorem datar_block_has_N_plus_8_bytes (T : Z) (s : datar_state) (r : read_req)
    (i0 i1 : line_in) (ws : list line_in) (x : Z) (g0 : Z * Z) (gs : list (Z * Z))
    (y0 y1 y2 : Z) (ys : list Z) :
  datar_st s = DATAR_IDLE ->
  0 <= rq_length r <= 1016 ->
  no_start datar_params ws ->
  low_bits 4 x = 0 ->
  Z.of_nat (length (g0 :: gs)) = rq_length r + 8 ->
  Z.of_nat (length ws) + 2 * (rq_length r + 8) + 6 <= T < 2 ^ 32 ->
  let ins := i0 :: i1 :: ws ++ data_sample x :: pairs_in (g0 :: gs)
                ++ map data_sample (y0 :: y1 :: y2 :: ys) in
  let its := items_of (trace (datar_cycle T) (s, [r]) ins) in
  its = mark_last (map pair_byte (g0 :: gs))
  /\ Z.of_nat (length its) = rq_length r + 8
  /\ map item_flags its =
       repeat (SDCARD_STREAM_STATUS_OK, false) (length gs)
       ++ [(SDCARD_STREAM_STATUS_OK, true)]
  /\ snd (final (datar_cycle T) (s, [r]) ins) = [].
Proof.
  intros Hs HN Hns Hx Hlen HT ins its.
  cbn [length] in Hlen. rewrite Nat2Z.inj_succ in Hlen.
  destruct (datar_reads T s r i0 i1 ws x g0 gs y0 y1 y2 ys Hs Hns Hx) as (Hit & Hq & _).
  { rewrite wrap_small by (change (2 ^ 10) with 1024; lia). lia. }
  { lia. }
  fold ins in Hit, Hq. fold its in Hit.
  split; [exact Hit|]. split; [|split; [|exact Hq]].
  - rewrite Hit, mark_last_length, length_map. cbn [length].
    rewrite Nat2Z.inj_succ. lia.
  - rewrite Hit. cbn [map]. now rewrite mark_last_flags, length_map.
Qed.

Lemma datar_block_has_N_plus_8_bytes_witness :
  let r := {| rq_length := 1; rq_last := false |} in
  let ins := data_sample 15 :: data_sample 15 :: [data_sample 15]
               ++ data_sample 0 :: pairs_in nine_pairs
               ++ map data_sample [15; 15; 15] in
  let its := items_of (trace (datar_cycle 250000) (datar_idle 0, [r]) ins) in
  its = mark_last (map pair_byte nine_pairs)
  /\ Z.of_nat (length its) = rq_length r + 8
  /\ map item_flags its =
       repeat (SDCARD_STREAM_STATUS_OK, false) 8 ++ [(SDCARD_STREAM_STATUS_OK, true)]
  /\ snd (final (datar_cycle 250000) (datar_idle 0, [r]) ins) = [].
Proof.
  apply (datar_block_has_N_plus_8_bytes 250000 (datar_idle 0)
           {| rq_length := 1; rq_last := false |} (data_sample 15) (data_sample 15)
           [data_sample 15] 0 (1, 2) (tl nine_pairs) 15 15 15 []).
  - reflexivity.
  - split; discriminate.
  - repeat constructor.
  - reflexivity.
  - reflexivity.
  - split; [discriminate | reflexivity].
Defined.

(** In the generated netlist the block-length comparison is made on 10
    bits (see [datar_step]): for a requested block length [N] from 1017 to
    1023 the sum [N + 8 - 1] wraps round, and the data reader sets [last] on
    byte number [N + 8 - 1024], consuming the request after [N - 1016] bytes
    instead of [N + 8].  The provisos are those of a block read: idle prefix
    [ws] without start nibble, start nibble, [N - 1016] bytes as nibble
    pairs and at least three more samples, the result stream ready in every
    cycle from the start nibble on, and [|ws| + 22 <= T < 2^32].  The
    statement is about the netlist reading of the comparison only. *)
Theorem datar_block_length_wraps (T : Z) (s : datar_state) (r : read_req)
    (i0 i1 : line_in) (ws : list line_in) (x : Z) (g0 : Z * Z) (gs : list (Z * Z))
    (y0 y1 y2 : Z) (ys : list Z) :
  datar_st s = DATAR_IDLE ->
  1017 <= rq_length r <= 1023 ->
  no_start datar_params ws ->
  low_bits 4 x = 0 ->
  Z.of_nat (length (g0 :: gs)) = rq_length r - 1016 ->
  Z.of_nat (length ws) + 22 <= T < 2 ^ 32 ->
  let ins := i0 :: i1 :: ws ++ data_sample x :: pairs_in (g0 :: gs)
                ++ map data_sample (y0 :: y1 :: y2 :: ys) in
  let its := items_of (trace (datar_cycle T) (s, [r]) ins) in
  its = mark_last (map pair_byte (g0 :: gs))
  /\ Z.of_nat (length its) = rq_length r - 1016
  /\ snd (final (datar_cycle T) (s, [r]) ins) = [].
Proof.
  intros Hs HN Hns Hx Hlen HT ins its.
  cbn [length] in Hlen. rewrite Nat2Z.inj_succ in Hlen.
  destruct (datar_reads T s r i0 i1 ws x g0 gs y0 y1 y2 ys Hs Hns Hx) as (Hit & Hq & _).
  { unfold wrap. change (2 ^ 10) with 1024.
    replace (rq_length r + 8 - 1) with (rq_length r - 1017 + 1 * 1024) by lia.
    rewrite Z.mod_add by lia. rewrite Z.mod_small by lia. lia. }
  { lia. }
  fold ins in Hit, Hq. fold its in Hit.
  split; [exact Hit|]. split; [|exact Hq].
  rewrite Hit, mark_last_length, length_map. cbn [length].
  rewrite Nat2Z.inj_succ. lia.
Qed.

Lemma datar_block_length_wraps_witness :
  let r := {| rq_length := 1017; rq_last := false |} in
  let ins := data_sample 15 :: data_sample 15 :: []
               ++ data_sample 0 :: pairs_in [(10, 11)]
               ++ map data_sample [15; 15; 15] in
  let its := items_of (trace (datar_cycle 250000) (datar_idle 0, [r]) ins) in
  its = mark_last (map pair_byte [(10, 11)])
  /\ Z.of_nat (length its) = rq_length r - 1016
  /\ snd (final (datar_cycle 250000) (datar_idle 0, [r]) ins) = [].
Proof.
  apply (datar_block_length_wraps 250000 (datar_idle 0)
           {| rq_length := 1017; rq_last := false |} (data_sample 15) (data_sample 15)
           [] 0 (10, 11) [] 15 15 15 []).
  - reflexivity.
  - split; discriminate.
  - constructor.
  - reflexivity.
  - reflexivity.
  - split; [discriminate | reflexivity].
Defined.

(** *** Trailer of the data reader *)




(** *** Timeout of the data reader *)

Lemma datar_release_expired (rd : sdphyr_state) (r : read_req) (q : list read_req)
    (li : line_in) :
  exists s', datar_st s' = DATAR_TIMEOUT /\
    datar_cycle 0 (datar_accepted 0 rd, r :: q) li = ((s', q), (clk_only, [])).
Proof. eexists. split; [|reflexivity]. reflexivity. Qed.

Lemma datar_expire (T : Z) (st : datar_fsm) (r : read_req) (q : list read_req)
    (li : line_in) :
  st = DATAR_WAIT \/ st = DATAR_DATA ->
  exists s', datar_st s' = DATAR_TIMEOUT /\
    datar_cycle T (datar_armed st 0, r :: q) li = ((s', q), (clk_only, [])).
Proof.
  intros [-> | ->]; eexists; (split; [|reflexivity]); reflexivity.
Qed.

Lemma datar_timeout_stall (T : Z) (s : datar_state) (q : list read_req) (ws : list line_in) :
  datar_st s = DATAR_TIMEOUT -> stalled ws ->
  exists s', datar_st s' = DATAR_TIMEOUT /\
    final (datar_cycle T) (s, q) ws = (s', q) /\
    items_of (trace (datar_cycle T) (s, q) ws) = [].
Proof.
  revert s; induction ws as [|w ws IH]; intros s Hs Hst.
  - exists s. repeat split; auto.
  - inversion Hst as [|? ? Hw Hws]; subst.
    rewrite final_cons, trace_cons.
    assert (E : datar_cycle T (s, q) w =
                (({| datar_st := DATAR_TIMEOUT; datar_count := datar_count s;
                     datar_timeout := datar_timeout s; datar_rst := datar_rst s;
                     datar_rd := sdphyr_step datar_params (datar_rd s) (li_pads w)
                                   false (datar_rst s) |}, q),
                 (pads_quiet, []))).
    { unfold datar_cycle, datar_step. rewrite Hs.
      cbn [di_ready do_sink_ready do_pads do_src emitted src_valid andb].
      rewrite Hw. reflexivity. }
    rewrite E. cbn [fst snd].
    edestruct IH as (s' & H1 & H2 & H3); [|exact Hws|].
    2:{ exists s'. split; [exact H1|]. split; [exact H2|].
        unfold items_of in *. cbn [map concat snd app]. exact H3. }
    reflexivity.
Qed.

Lemma datar_timeout_accept (T : Z) (s : datar_state) (q : list read_req) (li : line_in) :
  datar_st s = DATAR_TIMEOUT -> li_ready li = true ->
  exists s', datar_st s' = DATAR_IDLE /\
    datar_cycle T (s, q) li = ((s', q), (pads_quiet, [timeout_item])).
Proof.
  intros Hs Hr. eexists. split; [|unfold datar_cycle, datar_step; rewrite Hs;
    cbn [di_ready do_sink_ready do_pads do_src emitted src_valid src_data
         src_status src_last andb]; rewrite Hr; reflexivity].
  reflexivity.
Qed.

(** A block request whose data lines show no start nibble while the timeout
    counter, reloaded when the request is accepted, runs down to zero is
    consumed, and the data reader hands over exactly one item, with status
    TIMEOUT and [last], as soon as the result stream is ready; no data byte
    is produced and the request queued behind it is kept. *)
Theorem datar_times_out (T : Z) (s : datar_state) (r : read_req) (q : list read_req)
    (i0 i1 : line_in) (ws stall : list line_in) (fin : line_in) :
  0 <= T < 2 ^ 32 ->
  datar_st s = DATAR_IDLE ->
  Z.of_nat (length ws) = T ->
  no_start datar_params ws ->
  stalled stall ->
  li_ready fin = true ->
  let ins := i0 :: i1 :: ws ++ stall ++ [fin] in
  items_of (trace (datar_cycle T) (s, r :: q) ins) = [timeout_item]
  /\ snd (final (datar_cycle T) (s, r :: q) ins) = q
  /\ datar_st (fst (final (datar_cycle T) (s, r :: q) ins)) = DATAR_IDLE.
Proof.
  intros HT Hs Hlen Hns Hstall Hfin ins. subst ins.
  assert (Hexp : exists s1, datar_st s1 = DATAR_TIMEOUT /\
            final (datar_cycle T) (s, r :: q) (i0 :: i1 :: ws) = (s1, q) /\
            items_of (trace (datar_cycle T) (s, r :: q) (i0 :: i1 :: ws)) = []).
  { rewrite !final_cons, !trace_cons, (datar_accept T s r q i0 ltac:(lia) Hs). cbn [fst snd].
    destruct ws as [|w ws _] using rev_ind.
    - cbn [length Z.of_nat] in Hlen. subst T.
      destruct (datar_release_expired
                  (sdphyr_step datar_params (datar_rd s) (li_pads i0) false (datar_rst s))
                  r q i1) as (s1 & H1 & H2).
      exists s1. rewrite H2. repeat split; auto.
    - rewrite length_app in Hlen. cbn [length] in Hlen.
      rewrite datar_release by lia. cbn [fst snd].
      apply Forall_app in Hns. destruct Hns as [Hns Hw].
      set (st := if sdphyr_valid _ then DATAR_DATA else DATAR_WAIT).
      assert (Hst : st = DATAR_WAIT \/ st = DATAR_DATA)
        by (subst st; destruct (sdphyr_valid _); auto).
      rewrite final_app, trace_app.
      pose proof (datar_hold T st (r :: q) ws (T - 1) Hst ltac:(lia) Hns) as Hh.
      rewrite (run_final _ _ _ _ _ Hh), (run_trace _ _ _ _ _ Hh).
      replace (T - 1 - Z.of_nat (length ws)) with 0 by lia.
      destruct (datar_expire T st r q w Hst) as (s1 & H1 & H2).
      exists s1. split; [exact H1|].
      rewrite final_cons, trace_cons, H2. cbn [fst snd final_nil].
      split; [reflexivity|].
      unfold items_of. cbn [map concat snd app].
      rewrite map_app, concat_app. cbn [map concat snd app].
      rewrite app_nil_r.
      clear. induction (length ws); cbn; auto. }
  destruct Hexp as (s1 & Hs1 & Hf1 & Hi1).
  change (i0 :: i1 :: ws ++ stall ++ [fin]) with ((i0 :: i1 :: ws) ++ stall ++ [fin]).
  rewrite !final_app, !trace_app, !items_of_app, Hf1, Hi1.
  destruct (datar_timeout_stall T s1 q stall Hs1 Hstall) as (s2 & Hs2 & Hf2 & Hi2).
  rewrite Hf2, Hi2.
  destruct (datar_timeout_accept T s2 q fin Hs2 Hfin) as (s3 & Hs3 & Hc3).
  rewrite final_cons, trace_cons, Hc3. cbn [fst snd final_nil].
  repeat split; auto.
Qed.

Lemma datar_times_out_witness :
  let ins := data_sample 15 :: data_sample 15 :: repeat (data_sample 15) 5
               ++ [] ++ [data_sample 15] in
  let r := {| rq_length := 512; rq_last := true |} in
  items_of (trace (datar_cycle 5) (datar_idle 0, [r]) ins) = [timeout_item]
  /\ snd (final (datar_cycle 5) (datar_idle 0, [r]) ins) = []
  /\ datar_st (fst (final (datar_cycle 5) (datar_idle 0, [r]) ins)) = DATAR_IDLE.
Proof.
  apply (datar_times_out 5 (datar_idle 0) {| rq_length := 512; rq_last := true |} []
           (data_sample 15) (data_sample 15) (repeat (data_sample 15) 5) []
           (data_sample 15)).
  - split; [discriminate | reflexivity].
  - reflexivity.
  - reflexivity.
  - repeat constructor.
  - constructor.
  - reflexivity.
Defined.

(** ** SDPHYDATAW: the data writer *)

Lemma dataw_start_nibble (s : dataw_state) (c d : Z) (l : bool) (q : list (Z * bool))
    (p1 p2 : pads_i) :
  dataw_regs s = (DATAW_IDLE, false, c) ->
  exists s', dataw_regs s' = (DATAW_DATA, true, c) /\
    run dataw_cycle (s, (d, l) :: q) [p1; p2] =
      ((s', (d, l) :: q), [drive_data 0; drive_data (high_nibble d)]).
Proof.
  destruct s as [st w c' crc]. unfold dataw_regs. cbn [dataw_st dataw_wrstarted dataw_count].
  intros H. inversion H; subst. eexists. split; [|reflexivity]. reflexivity.
Qed.

Lemma dataw_low_more (s : dataw_state) (c d d' : Z) (l' : bool) (q : list (Z * bool))
    (p1 p2 : pads_i) :
  dataw_regs s = (DATAW_DATA, true, c) ->
  exists s', dataw_regs s' = (DATAW_DATA, true, c) /\
    run dataw_cycle (s, (d, false) :: (d', l') :: q) [p1; p2] =
      ((s', (d', l') :: q), [drive_data (low_nibble d); drive_data (high_nibble d')]).
Proof.
  destruct s as [st w c' crc]. unfold dataw_regs. cbn [dataw_st dataw_wrstarted dataw_count].
  intros H. inversion H; subst. eexists. split; [|reflexivity]. reflexivity.
Qed.

Lemma dataw_low_last (s : dataw_state) (c d : Z) (q : list (Z * bool)) (p : pads_i) :
  dataw_regs s = (DATAW_DATA, true, c) ->
  exists s', dataw_regs s' = (DATAW_STOP, true, c) /\
    dataw_cycle (s, (d, true) :: q) p = ((s', (d, true) :: q), drive_data (low_nibble d)).
Proof.
  destruct s as [st w c' crc]. unfold dataw_regs. cbn [dataw_st dataw_wrstarted dataw_count].
  intros H. inversion H; subst. eexists. split; [|reflexivity]. reflexivity.
Qed.

Lemma dataw_stop (s : dataw_state) (w : bool) (c : Z) (q : list (Z * bool)) (p : pads_i) :
  dataw_regs s = (DATAW_STOP, w, c) ->
  exists s', dataw_regs s' = (DATAW_RESPONSE, false, c) /\
    dataw_cycle (s, q) p = ((s', q), drive_data 15).
Proof.
  destruct s as [st w' c' crc]. unfold dataw_regs. cbn [dataw_st dataw_wrstarted dataw_count].
  intros H. inversion H; subst. eexists. split; [|reflexivity]. reflexivity.
Qed.

Lemma dataw_body (rest : list (Z * bool)) (ds : list Z) :
  forall (d : Z) (s : dataw_state) (c : Z) (ps : list pads_i),
  dataw_regs s = (DATAW_DATA, true, c) ->
  length ps = S (2 * length ds) ->
  exists s' dl, dataw_regs s' = (DATAW_STOP, true, c) /\
    run dataw_cycle (s, mark_queue (d :: ds) true ++ rest) ps =
      ((s', (dl, true) :: rest),
       map drive_data (low_nibble d :: flat_map byte_nibbles ds)).
Proof.
  induction ds as [|d' ds IH]; intros d s c ps Hs Hlen.
  - destruct ps as [|p [|? ?]]; try discriminate Hlen.
    destruct (dataw_low_last s c d rest p Hs) as (s' & Hs' & Hc).
    exists s', d. split; [exact Hs'|].
    cbn [mark_queue app run]. rewrite Hc. reflexivity.
  - destruct ps as [|p1 [|p2 ps]]; try discriminate Hlen.
    cbn [length] in Hlen.
    assert (Hq : exists l' q', mark_queue (d' :: ds) true ++ rest = (d', l') :: q').
    { destruct ds; cbn; eauto. }
    destruct Hq as (l' & q' & Hq).
    change (mark_queue (d :: d' :: ds) true) with ((d, false) :: mark_queue (d' :: ds) true).
    cbn [app].
    destruct (dataw_low_more s c d d' l' q' p1 p2 Hs) as (s1 & Hs1 & Hr1).
    destruct (IH d' s1 c ps Hs1 ltac:(lia)) as (s2 & dl & Hs2 & Hr2).
    exists s2, dl. split; [exact Hs2|].
    change (p1 :: p2 :: ps) with ([p1; p2] ++ ps).
    rewrite Hq in *.
    rewrite (run_app_eq _ _ _ _ _ _ _ _ Hr1 Hr2). reflexivity.
Qed.




Lemma dataw_frame (s : dataw_state) (c d0 : Z) (ds : list Z) (rest : list (Z * bool))
    (ps : list pads_i) :
  dataw_regs s = (DATAW_IDLE, false, c) ->
  length ps = length (block_nibbles (d0 :: ds)) ->
  exists s' dl, dataw_regs s' = (DATAW_RESPONSE, false, c) /\
    run dataw_cycle (s, mark_queue (d0 :: ds) true ++ rest) ps =
      ((s', (dl, true) :: rest), map drive_data (block_nibbles (d0 :: ds))).
Proof.
  intros Hs Hlen.
  unfold block_nibbles in Hlen.
  cbn [flat_map byte_nibbles app length] in Hlen.
  rewrite length_app in Hlen. cbn [length] in Hlen.
  assert (Hfl : length (flat_map byte_nibbles ds) = (2 * length ds)%nat).
  { clear. induction ds as [|d ds IH]; [reflexivity|].
    cbn [flat_map byte_nibbles app length]. lia. }
  rewrite Hfl in Hlen.
  destruct ps as [|p1 [|p2 ps]]; try discriminate Hlen.
  cbn [length] in Hlen.
  assert (Hsplit : exists body p, ps = body ++ [p] /\ length body = S (2 * length ds)).
  { destruct ps as [|p ps _] using rev_ind; [cbn in Hlen; lia|].
    exists ps, p. split; [reflexivity|]. rewrite length_app in Hlen. cbn [length] in Hlen. lia. }
  destruct Hsplit as (body & p & -> & Hbody).
  assert (Hq : exists l q', mark_queue (d0 :: ds) true ++ rest = (d0, l) :: q').
  { destruct ds; cbn; eauto. }
  destruct Hq as (l & q' & Hq).
  destruct (dataw_start_nibble s c d0 l q' p1 p2 Hs) as (s1 & Hs1 & Hr1).
  destruct (dataw_body rest ds d0 s1 c body Hs1 Hbody) as (s2 & dl & Hs2 & Hr2).
  destruct (dataw_stop s2 true c ((dl, true) :: rest) p Hs2) as (s3 & Hs3 & Hc3).
  exists s3, dl. split; [exact Hs3|].
  change (p1 :: p2 :: body ++ [p]) with ([p1; p2] ++ body ++ [p]).
  rewrite Hq in *.
  replace (map drive_data (block_nibbles (d0 :: ds)))
    with ([drive_data 0; drive_data (high_nibble d0)]
            ++ map drive_data (low_nibble d0 :: flat_map byte_nibbles ds)
            ++ [drive_data 15]).
  2:{ unfold block_nibbles. cbn [flat_map byte_nibbles app map].
      rewrite map_app. reflexivity. }
  apply (run_app_eq _ _ _ _ _ _ _ _ Hr1).
  apply (run_app_eq _ _ _ _ _ _ _ _ Hr2).
  cbn [run]. rewrite Hc3. reflexivity.
Qed.



Lemma dataw_step_inv (s : dataw_state) (i : pads_i * byte_sink) :
  dataw_inv s -> dataw_inv (fst (dataw_step s i)).
Proof.
  destruct s as [st w c crc], i as [p sink]. unfold dataw_inv, dataw_step.
  cbn [dataw_st dataw_wrstarted dataw_count dataw_crc fst].
  intros [Hc Hst].
  destruct st; [destruct (bs_valid sink), w | | destruct (bs_last sink) | |
                destruct (Z.ltb_spec c 16);
                [|destruct (Z.testbit (data_i p) 0)]];
    cbn [fst negb andb dataw_st dataw_wrstarted dataw_count];
    rewrite ?wrap_small by (change (2 ^ 8) with 256; lia);
    intuition (try lia; try congruence).
Qed.

(** Data Writer invariant: whatever the pads and the byte stream do, from
    reset the response counter stays within 0..16 and is 0 outside RESPONSE,
    and the block-started flag is clear in START and RESPONSE and set in DATA
    and STOP. *)
Theorem dataw_invariant (ins : list (pads_i * byte_sink)) :
  dataw_inv (final dataw_step dataw_reset ins).
Proof.
  assert (H : forall s, dataw_inv s -> dataw_inv (final dataw_step s ins)).
  { induction ins as [|i ins IH]; intros s Hs.
    - exact Hs.
    - rewrite final_cons. apply IH, dataw_step_inv, Hs. }
  apply H. unfold dataw_inv, dataw_reset. cbn. lia.
Qed.

(** The CRC status decoder embedded in the data writer has no influence on
    it: two writers that differ only in the decoder's state drive the same
    pads and give the same [ready] in every cycle of any input sequence. *)
Theorem dataw_ignores_crc (ins : list (pads_i * byte_sink)) (s : dataw_state)
    (c : crcr_state) :
  trace dataw_step (dataw_with_crc s c) ins = trace dataw_step s ins.
Proof.
  revert s c. induction ins as [|i ins IH]; intros s c.
  - reflexivity.
  - rewrite !trace_cons.
    assert (Hout : snd (dataw_step (dataw_with_crc s c) i) = snd (dataw_step s i)).
    { destruct s as [st w n crc], i as [p sink]. destruct st; reflexivity. }
    assert (Hnext : fst (dataw_step (dataw_with_crc s c) i) =
                    dataw_with_crc (fst (dataw_step s i))
                      (dataw_crc (fst (dataw_step (dataw_with_crc s c) i)))).
    { destruct s as [st w n crc], i as [p sink]. destruct st; reflexivity. }
    rewrite Hout, Hnext, IH. reflexivity.
Qed.

(** ** Data writer and data reader back to back *)

Lemma pair_byte_nibbles (d : Z) : 0 <= d < 256 -> pair_byte (nibble_pair d) = d.
Proof.
  intros Hd. apply Z.bits_inj'. intros i Hi.
  unfold nibble_pair. rewrite pair_byte_bits by exact Hi.
  unfold high_nibble, low_nibble.
  destruct (Z.ltb_spec i 4) as [H4|H4].
  - rewrite testbit_low_bits by lia.
    replace (i <? 4) with true by (symmetry; apply Z.ltb_lt; lia).
    apply andb_true_r.
  - destruct (Z.ltb_spec i 8) as [H8|H8].
    + rewrite testbit_low_bits by lia.
      replace (i - 4 <? 4) with true by (symmetry; apply Z.ltb_lt; lia).
      rewrite andb_true_r, Z.shiftr_spec by lia. f_equal. lia.
    + symmetry. apply testbit_above_byte; lia.
Qed.

Lemma data_loop_back_drive (vs : list Z) :
  data_loop_back (map drive_data vs) = map data_sample vs.
Proof.
  unfold data_loop_back. induction vs as [|v vs IH]; [reflexivity|].
  cbn [map filter drive_data clk data_oe andb data_o]. now rewrite IH.
Qed.

Lemma pairs_in_nibbles (bs : list Z) :
  map data_sample (flat_map byte_nibbles bs) = pairs_in (map nibble_pair bs).
Proof.
  unfold pairs_in. induction bs as [|b bs IH]; [reflexivity|].
  cbn [flat_map byte_nibbles map app nibble_pair fst snd]. now rewrite IH.
Qed.

Lemma pair_byte_nibbles_all (bs : list Z) :
  Forall (fun b => 0 <= b < 256) bs -> map pair_byte (map nibble_pair bs) = bs.
Proof.
  induction 1 as [|b bs Hb _ IH]; [reflexivity|].
  cbn [map]. now rewrite pair_byte_nibbles, IH.
Qed.

(** Data round trip: the nibbles the data writer, in IDLE with no block
    under way, drives for a block of [N + 8] bytes with values in 0..255 and
    [0 <= N <= 1016] (start nibble,
    bytes high nibble first, stop nibble), fed to the data reader one nibble
    per line cycle after an idle prefix [ws] without start nibble and
    followed by at least two more samples, come back on the reader's result
    stream as the original bytes, each with status OK and [last] on the final
    one, when the read request asks for a block of [N] bytes, the result
    stream is ready in every cycle from the start nibble on (the loop-back
    is made of [data_sample] cycles) and the timeout reload leaves room,
    [|ws| + 2 (N + 8) + 6 <= T < 2^32]. *)
Theorem data_round_trip (T : Z) (sw : dataw_state) (sr : datar_state) (r : read_req)
    (i0 i1 : line_in) (ws : list line_in) (d0 : Z) (ds : list Z)
    (rest : list (Z * bool)) (ps : list pads_i) (y1 y2 : Z) (ys : list Z) :
  dataw_st sw = DATAW_IDLE ->
  dataw_wrstarted sw = false ->
  length ps = length (block_nibbles (d0 :: ds)) ->
  datar_st sr = DATAR_IDLE ->
  no_start datar_params ws ->
  Forall (fun b => 0 <= b < 256) (d0 :: ds) ->
  0 <= rq_length r <= 1016 ->
  Z.of_nat (length (d0 :: ds)) = rq_length r + 8 ->
  Z.of_nat (length ws) + 2 * (rq_length r + 8) + 6 <= T < 2 ^ 32 ->
  let wq := mark_queue (d0 :: ds) true ++ rest in
  let line := data_loop_back (trace dataw_cycle (sw, wq) ps) in
  let ins := i0 :: i1 :: ws ++ line ++ map data_sample (y1 :: y2 :: ys) in
  let its := items_of (trace (datar_cycle T) (sr, [r]) ins) in
  its = mark_last (d0 :: ds)
  /\ map item_data its = d0 :: ds
  /\ snd (final (datar_cycle T) (sr, [r]) ins) = [].
Proof.
  intros Hst Hw Hps Hsr Hns Hbytes HN Hlen HT wq line ins its.
  cbn [length] in Hlen. rewrite Nat2Z.inj_succ in Hlen.
  assert (Hsw : dataw_regs sw = (DATAW_IDLE, false, dataw_count sw)).
  { unfold dataw_regs. now rewrite Hst, Hw. }
  destruct (dataw_frame sw (dataw_count sw) d0 ds rest ps Hsw Hps) as (s1 & dl & _ & Hr1).
  assert (Hin : ins = i0 :: i1 :: ws ++ data_sample 0
                        :: pairs_in (nibble_pair d0 :: map nibble_pair ds)
                        ++ map data_sample (15 :: y1 :: y2 :: ys)).
  { subst ins line wq. rewrite (run_trace _ _ _ _ _ Hr1), data_loop_back_drive.
    unfold block_nibbles. cbn [map]. rewrite map_app, pairs_in_nibbles.
    cbn [map app]. rewrite <- app_assoc. reflexivity. }
  destruct (datar_reads T sr r i0 i1 ws 0 (nibble_pair d0) (map nibble_pair ds)
              15 y1 y2 ys Hsr Hns eq_refl) as (Hit & Hq & _).
  { rewrite wrap_small by (change (2 ^ 10) with 1024; lia). rewrite length_map. lia. }
  { rewrite length_map. lia. }
  rewrite <- Hin in Hit, Hq. fold its in Hit.
  change (nibble_pair d0 :: map nibble_pair ds) with (map nibble_pair (d0 :: ds)) in Hit.
  rewrite pair_byte_nibbles_all in Hit by exact Hbytes.
  split; [exact Hit|]. split; [|exact Hq].
  rewrite Hit. apply mark_last_data.
Qed.

Lemma data_round_trip_witness :
  let bytes := [171; 1; 2; 3; 4; 5; 6; 7; 8] in
  let r := {| rq_length := 1; rq_last := false |} in
  let wq := mark_queue bytes true ++ [] in
  let line := data_loop_back
                (trace dataw_cycle (dataw_reset, wq) (repeat (data_level 15) 20)) in
  let ins := data_sample 15 :: data_sample 15 :: [data_sample 15] ++ line
               ++ map data_sample [15; 15] in
  let its := items_of (trace (datar_cycle 250000) (datar_idle 0, [r]) ins) in
  its = mark_last bytes
  /\ map item_data its = bytes
  /\ snd (final (datar_cycle 250000) (datar_idle 0, [r]) ins) = [].
Proof.
  apply (data_round_trip 250000 dataw_reset (datar_idle 0)
           {| rq_length := 1; rq_last := false |} (data_sample 15) (data_sample 15)
           [data_sample 15] 171 [1; 2; 3; 4; 5; 6; 7; 8] []
           (repeat (data_level 15) 20) 15 15 []).
  - reflexivity.
  - reflexivity.
  - reflexivity.
  - reflexivity.
  - repeat constructor.
  - repeat constructor; discriminate.
  - split; discriminate.
  - reflexivity.
  - split; [discriminate | reflexivity].
Defined.

(** ** SDPHYCRCR on the line *)

Lemma crcr_rd_running (k : Z) (s : bool) (d : Z) (v : bool) (e : Z)
    (pads : pads_i) (rdy : bool) :
  sdphyr_step crcr_params
    {| r_run := true; r_demux := k; r_strobe_all := s; r_conv_data := d;
       r_buf_valid := v; r_buf_data := e |} pads rdy false =
  let pipe_ce := rdy || negb v in
  let load := negb s || pipe_ce in
  {| r_run := true;
     r_demux := if load then (if k =? 7 then 0 else k + 1) else k;
     r_strobe_all := if load && (k =? 7) then true else if pipe_ce then false else s;
     r_conv_data := if load then conv_put d k (data_i pads) else d;
     r_buf_valid := if pipe_ce then s else v;
     r_buf_data := if pipe_ce then d else e |}.
Proof.
  unfold sdphyr_step, sdphyr_next.
  cbn [r_run r_demux r_strobe_all r_conv_data r_buf_valid r_buf_data
       p_skip_start_bit p_cmd p_data_width crcr_params pads_in_data].
  rewrite !orb_true_r. reflexivity.
Qed.

Lemma crcr_rd_load (k d e : Z) (v rdy : bool) (x : Z) :
  rdy || negb v = true ->
  sdphyr_step crcr_params (rd_loading k d v e) (data_level x) rdy false =
    if k =? 7 then rd_full (conv_put d k x) false d
    else rd_loading (k + 1) (conv_put d k x) false d.
Proof.
  intros H. unfold rd_loading. rewrite crcr_rd_running. cbv zeta. rewrite H.
  cbn [negb orb andb data_level data_i]. destruct (k =? 7); reflexivity.
Qed.

Lemma crcr_rd_buffer (d e : Z) (rdy : bool) (x : Z) :
  sdphyr_step crcr_params (rd_full d false e) (data_level x) rdy false =
    rd_loading 1 (conv_put d 0 x) true d.
Proof.
  unfold rd_full. rewrite crcr_rd_running. cbv zeta.
  rewrite orb_true_r. reflexivity.
Qed.

Lemma crcr_rd_waiting (x : Z) (rdy : bool) :
  sdphyr_step crcr_params sdphyr_reset (data_level x) rdy false =
    if low_bits 1 x =? 0 then rd_loading 0 0 false 0 else sdphyr_reset.
Proof.
  unfold sdphyr_step, sdphyr_next, sdphyr_start, pads_in_data, sdphyr_reset.
  cbn [r_run r_demux r_strobe_all r_conv_data r_buf_valid r_buf_data
       p_skip_start_bit p_cmd p_data_width crcr_params data_level data_i].
  rewrite orb_true_r. cbn [negb andb orb].
  destruct (low_bits 1 x =? 0); reflexivity.
Qed.

Lemma crcr_wait_step (rd : sdphyr_state) (i : pads_i * bool) :
  r_buf_valid rd = false ->
  crcr_step (crcr_at CRCR_WAIT_CHECK rd) i =
    (crcr_at CRCR_WAIT_CHECK (sdphyr_step crcr_params rd (fst i) true false), crc_silent).
Proof.
  intros H. destruct i as [p a]. unfold crcr_step, crcr_at, sdphyr_valid.
  cbn [crcr_st crcr_rst crcr_rd fst]. rewrite H. reflexivity.
Qed.

Lemma crcr_decide_step (rd : sdphyr_state) (i : pads_i * bool) :
  r_buf_valid rd = true ->
  crcr_step (crcr_at CRCR_WAIT_CHECK rd) i =
    (crcr_at CRCR_IDLE (sdphyr_step crcr_params rd (fst i) true false),
     crc_verdict (r_buf_data rd)).
Proof.
  intros H. destruct i as [p a]. unfold crcr_step, crcr_at, sdphyr_valid, sdphyr_data.
  cbn [crcr_st crcr_rst crcr_rd fst]. rewrite H. reflexivity.
Qed.

Lemma crcr_idle_step (rd : sdphyr_state) (v : Z) :
  crcr_step (crcr_at CRCR_IDLE rd) (crc_in v) =
    (crcr_at CRCR_IDLE (sdphyr_step crcr_params rd (data_level v) false false), crc_silent).
Proof. reflexivity. Qed.

(** The start pulse and the cycle after it, when no byte is pending. *)
Lemma crcr_arm (s : crcr_state) (i0 i1 : pads_i * bool) :
  crcr_st s = CRCR_IDLE -> rd_no_byte (crcr_rd s) -> snd i0 = true ->
  run crcr_step s [i0; i1] = (crcr_at CRCR_WAIT_CHECK sdphyr_reset, [crc_silent; crc_silent]).
Proof.
  intros Hst [Hv Hs] Hi0. destruct s as [st rst rd], i0 as [p0 a0], i1 as [p1 a1].
  cbn [crcr_st crcr_rd snd] in *. subst st a0.
  assert (Hrd : r_buf_valid (sdphyr_step crcr_params rd p0 false rst) = false).
  { unfold sdphyr_step. destruct rst; [reflexivity|].
    unfold sdphyr_next. cbn [r_buf_valid]. rewrite Hv. cbn [negb orb]. exact Hs. }
  cbn [run]. unfold crcr_step at 1. cbn [crcr_st crcr_rst crcr_rd].
  unfold crcr_step. cbn [crcr_st crcr_rst crcr_rd]. unfold sdphyr_valid. rewrite Hrd.
  reflexivity.
Qed.

Lemma crcr_idle_line (vs : list Z) :
  d0_high vs ->
  run crcr_step (crcr_at CRCR_WAIT_CHECK sdphyr_reset) (map crc_in vs) =
    (crcr_at CRCR_WAIT_CHECK sdphyr_reset, repeat crc_silent (length vs)).
Proof.
  induction 1 as [|v vs Hv _ IH]; [reflexivity|].
  cbn [map run length repeat].
  rewrite crcr_wait_step by reflexivity. cbn [crc_in fst].
  rewrite crcr_rd_waiting.
  replace (low_bits 1 v =? 0) with false by (symmetry; now apply Z.eqb_neq).
  rewrite IH. reflexivity.
Qed.

(** From the start bit to the decision: the eight samples after the start
    bit are the token; the decision falls two cycles after the last of them. *)
Lemma crcr_token_run (x b0 b1 b2 b3 b4 b5 b6 b7 y0 y1 : Z) :
  low_bits 1 x = 0 ->
  run crcr_step (crcr_at CRCR_WAIT_CHECK sdphyr_reset)
      (map crc_in [x; b0; b1; b2; b3; b4; b5; b6; b7; y0; y1]) =
    (crcr_at CRCR_IDLE
       (rd_loading 2
          (conv_load (sample_byte [b0; b1; b2; b3; b4; b5; b6; b7]) 0 [y0; y1]) false
          (conv_load (sample_byte [b0; b1; b2; b3; b4; b5; b6; b7]) 0 [y0])),
     repeat crc_silent 10 ++ [crc_verdict (sample_byte [b0; b1; b2; b3; b4; b5; b6; b7])]).
Proof.
  intros Hx.
  rewrite <- (conv_load_byte 0 b0 b1 b2 b3 b4 b5 b6 b7) by lia.
  cbn [map run].
  rewrite crcr_wait_step by reflexivity. cbn [crc_in fst].
  rewrite crcr_rd_waiting, Hx. cbn [Z.eqb].
  do 8 (rewrite crcr_wait_step by reflexivity; cbn [crc_in fst];
        rewrite crcr_rd_load by reflexivity;
        cbn [Z.eqb Pos.eqb Z.add Pos.add Pos.succ]).
  rewrite crcr_wait_step by reflexivity. cbn [crc_in fst].
  rewrite crcr_rd_buffer.
  rewrite crcr_decide_step by reflexivity. cbn [crc_in fst].
  rewrite crcr_rd_load by reflexivity.
  cbn [Z.eqb Pos.eqb Z.add Pos.add Pos.succ rd_loading r_buf_data repeat app conv_load].
  unfold conv_put. reflexivity.
Qed.

(** After the decision the decoder idles but its reader keeps running: the
    next eight samples fill the buffer. *)
Lemma crcr_idle_fill (t e y0 y1 y2 y3 y4 y5 y6 y7 z : Z) :
  0 <= t < 256 ->
  run crcr_step (crcr_at CRCR_IDLE (rd_loading 2 (conv_load t 0 [y0; y1]) false e))
      (map crc_in [y2; y3; y4; y5; y6; y7; z]) =
    (crcr_at CRCR_IDLE
       (rd_loading 1 (conv_put (sample_byte [y0; y1; y2; y3; y4; y5; y6; y7]) 0 z) true
          (sample_byte [y0; y1; y2; y3; y4; y5; y6; y7])),
     repeat crc_silent 7).
Proof.
  intros Ht.
  rewrite <- (conv_load_byte t y0 y1 y2 y3 y4 y5 y6 y7) by exact Ht.
  cbn [map run].
  do 6 (rewrite crcr_idle_step; rewrite crcr_rd_load by reflexivity;
        cbn [Z.eqb Pos.eqb Z.add Pos.add Pos.succ]).
  rewrite crcr_idle_step, crcr_rd_buffer.
  cbn [conv_load repeat Z.add Pos.add Pos.succ]. unfold conv_put. reflexivity.
Qed.

(** A byte pending in the reader of the idle decoder stays there, and the
    next start pulse is answered from it one cycle later. *)
Lemma crcr_stale_run (b : Z) (vs : list Z) (i0 i1 : pads_i * bool) :
  forall rd : sdphyr_state,
  r_buf_valid rd = true -> r_buf_data rd = b -> snd i0 = true ->
  run crcr_step (crcr_at CRCR_IDLE rd) (map crc_in vs ++ [i0; i1]) =
    (crcr_at CRCR_IDLE sdphyr_reset,
     repeat crc_silent (length vs) ++ [crc_silent; crc_verdict b]).
Proof.
  assert (Hkeep : forall rd p, r_buf_valid rd = true ->
            r_buf_valid (sdphyr_step crcr_params rd p false false) = true /\
            r_buf_data (sdphyr_step crcr_params rd p false false) = r_buf_data rd).
  { intros rd p Hv. unfold sdphyr_step, sdphyr_next. cbn [r_buf_valid r_buf_data].
    rewrite Hv. cbn [negb orb]. split; reflexivity. }
  induction vs as [|v vs IH]; intros rd Hv Hb Hi0.
  - destruct i0 as [p0 a0], i1 as [p1 a1]. cbn [snd] in Hi0. subst a0.
    destruct (Hkeep rd p0 Hv) as [Hv' Hb'].
    cbn [map app run length repeat].
    unfold crcr_step, crcr_at, sdphyr_valid, sdphyr_data.
    cbn [crcr_st crcr_rst crcr_rd]. rewrite Hv', Hb', Hb. reflexivity.
  - destruct (Hkeep rd (data_level v) Hv) as [Hv' Hb'].
    cbn [map app run length repeat].
    rewrite crcr_idle_step.
    rewrite (IH _ Hv' ltac:(congruence) Hi0). reflexivity.
Qed.

(** CRC status decoder on the line: after a start pulse taken in IDLE with
    no byte pending in its reader, the decoder waits while data line 0 is
    high; the first low sample is the start bit, the eight samples after it
    are the token, first sample in bit 7, and the single decision falls two
    cycles after the last token bit: [error] if the token is 0b101, [valid]
    otherwise.  The decoder is then back in IDLE. *)
Theorem crcr_decodes_token (s : crcr_state) (i0 i1 : pads_i * bool) (idle : list Z)
    (x b0 b1 b2 b3 b4 b5 b6 b7 y0 y1 : Z) :
  crcr_st s = CRCR_IDLE ->
  rd_no_byte (crcr_rd s) ->
  snd i0 = true ->
  d0_high idle ->
  low_bits 1 x = 0 ->
  let token := sample_byte [b0; b1; b2; b3; b4; b5; b6; b7] in
  let ins := i0 :: i1 :: map crc_in idle
               ++ map crc_in [x; b0; b1; b2; b3; b4; b5; b6; b7; y0; y1] in
  trace crcr_step s ins = repeat crc_silent (length idle + 12) ++ [crc_verdict token]
  /\ (crc_error (crc_verdict token) = true <-> token = 5)
  /\ (crc_valid (crc_verdict token) = true <-> token <> 5)
  /\ crcr_st (final crcr_step s ins) = CRCR_IDLE.
Proof.
  intros Hst Hrd Hi0 Hidle Hx token ins.
  pose proof (crcr_arm s i0 i1 Hst Hrd Hi0) as H1.
  pose proof (crcr_idle_line idle Hidle) as H2.
  pose proof (crcr_token_run x b0 b1 b2 b3 b4 b5 b6 b7 y0 y1 Hx) as H3.
  fold token in H3.
  assert (Hall : run crcr_step s ins =
            (crcr_at CRCR_IDLE
               (rd_loading 2 (conv_load token 0 [y0; y1]) false (conv_load token 0 [y0])),
             repeat crc_silent (length idle + 12) ++ [crc_verdict token])).
  { subst ins. change (i0 :: i1 :: ?l) with ([i0; i1] ++ l).
    rewrite (run_app_eq _ _ _ _ _ _ _ _ H1 (run_app_eq _ _ _ _ _ _ _ _ H2 H3)).
    f_equal. rewrite !app_assoc. f_equal.
    change [crc_silent; crc_silent] with (repeat crc_silent 2).
    rewrite <- !repeat_app. f_equal. lia. }
  rewrite (run_trace _ _ _ _ _ Hall), (run_final _ _ _ _ _ Hall).
  split; [reflexivity|]. split; [|split; [|reflexivity]].
  - cbn [crc_verdict crc_error]. apply Z.eqb_eq.
  - cbn [crc_verdict crc_valid]. rewrite negb_true_iff. apply Z.eqb_neq.
Qed.

Lemma crcr_decodes_token_witness :
  let token := sample_byte [0; 0; 0; 0; 0; 1; 0; 1] in
  let ins := crc_start 15 :: crc_in 15 :: map crc_in [15; 15]
               ++ map crc_in [14; 0; 0; 0; 0; 0; 1; 0; 1; 15; 15] in
  trace crcr_step crcr_reset ins = repeat crc_silent (2 + 12) ++ [crc_verdict token]
  /\ (crc_error (crc_verdict token) = true <-> token = 5)
  /\ (crc_valid (crc_verdict token) = true <-> token <> 5)
  /\ crcr_st (final crcr_step crcr_reset ins) = CRCR_IDLE.
Proof.
  apply (crcr_decodes_token crcr_reset (crc_start 15) (crc_in 15) [15; 15]
           14 0 0 0 0 0 1 0 1 15 15).
  - reflexivity.
  - split; reflexivity.
  - reflexivity.
  - repeat constructor; discriminate.
  - reflexivity.
Defined.

(** The decoder's reader is not stopped by a decision: it keeps sampling
    while the decoder idles, so the eight samples that follow a token are
    left pending as a byte.  When the next start pulse comes (seven or more
    cycles after the decision), the decoder decides in the very next cycle,
    on that old byte and not on anything the card sends in answer to the new
    block. *)
Theorem crcr_next_start_decides_on_old_samples (s : crcr_state)
    (i0 i1 : pads_i * bool) (idle : list Z)
    (x b0 b1 b2 b3 b4 b5 b6 b7 y0 y1 y2 y3 y4 y5 y6 y7 z : Z) (later : list Z)
    (j0 j1 : pads_i * bool) :
  crcr_st s = CRCR_IDLE ->
  rd_no_byte (crcr_rd s) ->
  snd i0 = true ->
  d0_high idle ->
  low_bits 1 x = 0 ->
  snd j0 = true ->
  let token := sample_byte [b0; b1; b2; b3; b4; b5; b6; b7] in
  let old := sample_byte [y0; y1; y2; y3; y4; y5; y6; y7] in
  let ins := (i0 :: i1 :: map crc_in idle
                ++ map crc_in [x; b0; b1; b2; b3; b4; b5; b6; b7; y0; y1])
             ++ map crc_in [y2; y3; y4; y5; y6; y7; z]
             ++ map crc_in later ++ [j0; j1] in
  trace crcr_step s ins =
    (repeat crc_silent (length idle + 12) ++ [crc_verdict token])
    ++ repeat crc_silent 7
    ++ repeat crc_silent (length later) ++ [crc_silent; crc_verdict old]
  /\ final crcr_step s ins = crcr_at CRCR_IDLE sdphyr_reset.
Proof.
  intros Hst Hrd Hi0 Hidle Hx Hj0 token old ins.
  pose proof (crcr_arm s i0 i1 Hst Hrd Hi0) as H1.
  pose proof (crcr_idle_line idle Hidle) as H2.
  pose proof (crcr_token_run x b0 b1 b2 b3 b4 b5 b6 b7 y0 y1 Hx) as H3.
  fold token in H3.
  pose proof (crcr_idle_fill token (conv_load token 0 [y0]) y0 y1 y2 y3 y4 y5 y6 y7 z
                (sample_byte_range b0 b1 b2 b3 b4 b5 b6 b7)) as H4.
  fold old in H4.
  pose proof (crcr_stale_run old later j0 j1 (rd_loading 1 (conv_put old 0 z) true old)
                eq_refl eq_refl Hj0) as H5.
  assert (Hall : run crcr_step s ins =
            (crcr_at CRCR_IDLE sdphyr_reset,
             (repeat crc_silent (length idle + 12) ++ [crc_verdict token])
             ++ repeat crc_silent 7
             ++ repeat crc_silent (length later) ++ [crc_silent; crc_verdict old])).
  { subst ins. change (i0 :: i1 :: ?l) with ([i0; i1] ++ l).
    assert (H123 := run_app_eq _ _ _ _ _ _ _ _ H1 (run_app_eq _ _ _ _ _ _ _ _ H2 H3)).
    rewrite (run_app_eq _ _ _ _ _ _ _ _ H123 (run_app_eq _ _ _ _ _ _ _ _ H4 H5)).
    f_equal. f_equal. rewrite !app_assoc. f_equal.
    change [crc_silent; crc_silent] with (repeat crc_silent 2).
    rewrite <- !repeat_app. f_equal. lia. }
  rewrite (run_trace _ _ _ _ _ Hall), (run_final _ _ _ _ _ Hall).
  split; reflexivity.
Qed.

Lemma crcr_next_start_decides_on_old_samples_witness :
  let token := sample_byte [0; 1; 0; 1; 1; 1; 1; 1] in
  let old := sample_byte [1; 0; 0; 0; 0; 0; 1; 0] in
  let ins := (crc_start 15 :: crc_in 15 :: map crc_in [15]
                ++ map crc_in [14; 0; 1; 0; 1; 1; 1; 1; 1; 1; 0])
             ++ map crc_in [0; 0; 0; 0; 1; 0; 1]
             ++ map crc_in [15; 15] ++ [crc_start 15; crc_in 15] in
  trace crcr_step crcr_reset ins =
    (repeat crc_silent (1 + 12) ++ [crc_verdict token])
    ++ repeat crc_silent 7
    ++ repeat crc_silent 2 ++ [crc_silent; crc_verdict old]
  /\ final crcr_step crcr_reset ins = crcr_at CRCR_IDLE sdphyr_reset.
Proof.
  apply (crcr_next_start_decides_on_old_samples crcr_reset (crc_start 15) (crc_in 15)
           [15] 14 0 1 0 1 1 1 1 1 1 0 0 0 0 0 1 0 1 [15; 15]
           (crc_start 15) (crc_in 15)).
  - reflexivity.
  - split; reflexivity.
  - reflexivity.
  - repeat constructor; discriminate.
  - reflexivity.
  - reflexivity.
Defined.

(** ** SDPHYIOEmulator *)

Lemma emulator_data_i_bits (c : emu_card) (i : Z) :
  0 <= i ->
  Z.testbit (emulator_data_i c) i =
    (i <? 4) && (Z.testbit (pad_dat_t c) i || Z.testbit (pad_dat_o c) i).
Proof.
  intros Hi. unfold emulator_data_i. cbn [fold_left].
  assert (H15 : Z.testbit 15 i = (i <? 4)).
  { change 15 with (Z.ones 4). destruct (Z.ltb_spec i 4).
    - apply Z.ones_spec_low. lia.
    - apply Z.ones_spec_high. lia. }
  assert (Hb : forall (b : bool) (j : Z), 0 <= j ->
            Z.testbit (Z.b2z b) j = (j =? 0) && b).
  { intros b j Hj. destruct (Z.eqb_spec j 0) as [->|Hne].
    - apply Z.b2z_bit0.
    - destruct b; cbn [Z.b2z andb].
      + change 1 with (Z.ones 1). apply Z.ones_spec_high. lia.
      + apply Z.bits_0. }
  assert (Hcase : i = 0 \/ i = 1 \/ i = 2 \/ i = 3 \/ 4 <= i) by lia.
  destruct Hcase as [->|[->|[->|[->|H4]]]];
    destruct (Z.testbit (pad_dat_t c) 0) eqn:T0, (Z.testbit (pad_dat_t c) 1) eqn:T1,
             (Z.testbit (pad_dat_t c) 2) eqn:T2, (Z.testbit (pad_dat_t c) 3) eqn:T3;
    cbn [negb];
    rewrite ?testbit_set_slice by lia; rewrite ?Hb by lia; rewrite H15;
    try (replace (i <? 4) with false by (symmetry; apply Z.ltb_ge; lia));
    repeat match goal with
           | |- context [(?a <=? i) && (i <? ?b)] =>
               replace ((a <=? i) && (i <? b)) with false
                 by (symmetry; apply andb_false_iff; right; apply Z.ltb_ge; lia)
           end;
    try reflexivity;
    generalize (Z.testbit (pad_dat_o c) 0) (Z.testbit (pad_dat_o c) 1)
               (Z.testbit (pad_dat_o c) 2) (Z.testbit (pad_dat_o c) 3);
    intros o0 o1 o2 o3; destruct o0, o1, o2, o3; reflexivity.
Qed.

(** With the emulated pads a reader detects a start only when the card
    actively drives the line low: the command reader when the card enables
    its command output with value 0, the data reader when the card enables
    and drives low all four data lines, the CRC status reader when it does
    so on data line 0.  A released line reads high, whatever the engine
    itself drives. *)
Theorem emulator_start_needs_card_drive (c : emu_card) :
  (sdphyr_start cmdr_params (emulator_to_host c) = true <->
     pad_cmd_t c = false /\ pad_cmd_o c = false)
  /\ (sdphyr_start datar_params (emulator_to_host c) = true <->
        forall i, 0 <= i < 4 ->
          Z.testbit (pad_dat_t c) i = false /\ Z.testbit (pad_dat_o c) i = false)
  /\ (sdphyr_start crcr_params (emulator_to_host c) = true <->
        Z.testbit (pad_dat_t c) 0 = false /\ Z.testbit (pad_dat_o c) 0 = false).
Proof.
  unfold sdphyr_start, pads_in_data, emulator_to_host.
  cbn [p_cmd p_data_width cmdr_params datar_params crcr_params cmd_i data_i].
  split; [|split].
  - destruct (pad_cmd_t c), (pad_cmd_o c); cbn; intuition congruence.
  - rewrite Z.eqb_eq. split.
    + intros H0 i Hi.
      assert (Hb : Z.testbit (low_bits 4 (emulator_data_i c)) i = false)
        by (rewrite H0; apply Z.bits_0).
      rewrite testbit_low_bits, emulator_data_i_bits in Hb by lia.
      replace (i <? 4) with true in Hb by (symmetry; apply Z.ltb_lt; lia).
      cbn [andb] in Hb. rewrite andb_true_r in Hb.
      now apply orb_false_iff in Hb.
    + intros H. apply Z.bits_inj'. intros i Hi.
      rewrite Z.bits_0, testbit_low_bits, emulator_data_i_bits by lia.
      destruct (Z.ltb_spec i 4) as [Hlt|Hge]; [|reflexivity].
      destruct (H i ltac:(lia)) as [-> ->]. reflexivity.
  - rewrite low_bits1_testbit, emulator_data_i_bits by lia.
    change (0 <? 4) with true. cbn [andb].
    destruct (Z.testbit (pad_dat_t c) 0), (Z.testbit (pad_dat_o c) 0);
      cbn; intuition congruence.
Qed.

(** ** The command reader waits for the command writer *)

Lemma cmdw_busy_one_byte (c b : Z) (l : bool) (q : list (Z * bool)) :
  let s0 := ({| cmdw_st := CMDW_IDLE; cmdw_count := c |}, (b, l) :: q) in
  let n := (9 + (if l then cmdw_trailer else 0))%nat in
  run cmdw_done_cycle s0 (repeat tt n) =
    (({| cmdw_st := CMDW_IDLE; cmdw_count := 8 |}, q), repeat false n).
Proof.
  destruct l; vm_compute; reflexivity.
Qed.

Lemma cmdw_busy (q : list (Z * bool)) (c : Z) :
  exists c',
    run cmdw_done_cycle ({| cmdw_st := CMDW_IDLE; cmdw_count := c |}, q)
        (repeat tt (cmdw_cycles q)) =
      (({| cmdw_st := CMDW_IDLE; cmdw_count := c' |}, []), repeat false (cmdw_cycles q)).
Proof.
  revert c; induction q as [|[b l] q IH]; intros c.
  - exists c. reflexivity.
  - destruct (IH 8) as (c' & IHrun). exists c'.
    cbn [cmdw_cycles]. rewrite !repeat_app.
    apply (run_app_eq _ _ _ _ _ _ _ _ (cmdw_busy_one_byte c b l q) IHrun).
Qed.

Lemma cmdw_done_cycle_pads (n : nat) :
  forall sq : cmdw_state * list (Z * bool),
  final cmdw_done_cycle sq (repeat tt n) = final cmdw_cycle sq (repeat tt n).
Proof.
  induction n as [|n IH]; intros [s q]; [reflexivity|].
  cbn [repeat]. rewrite !final_cons.
  assert (E : fst (cmdw_done_cycle (s, q) tt) = fst (cmdw_cycle (s, q) tt)).
  { unfold cmdw_done_cycle, cmdw_cycle. destruct (cmdw_step s (sink_of_queue q)). reflexivity. }
  rewrite E. apply IH.
Qed.

(** While the writer does not signal [done], an idle reader stays idle and
    silent, and the writer behaves as on its own. *)
Lemma cmd_cycle_reader_idle (T : Z) (ins : list line_in) :
  forall (wst : cmdw_state * list (Z * bool)) (c : cmdr_state) (rq : list read_req),
  cmdr_st c = CMDR_IDLE ->
  trace cmdw_done_cycle wst (repeat tt (length ins)) = repeat false (length ins) ->
  exists c',
    cmdr_st c' = CMDR_IDLE /\
    run (cmd_cycle T) (wst, (c, rq)) ins =
      ((final cmdw_cycle wst (repeat tt (length ins)), (c', rq)),
       map (fun o => (o, (pads_quiet, [])))
           (trace cmdw_cycle wst (repeat tt (length ins)))).
Proof.
  induction ins as [|li ins IH]; intros [w wq] c rq Hc Hbusy.
  - exists c. split; [exact Hc|reflexivity].
  - cbn [length repeat] in *. rewrite trace_cons in Hbusy.
    assert (Hd := f_equal (hd true) Hbusy). assert (Hrest := f_equal (@tl bool) Hbusy).
    cbn [hd tl] in Hd, Hrest. clear Hbusy.
    rewrite final_cons, trace_cons.
    assert (Hstep : exists c1, cmdr_st c1 = CMDR_IDLE /\
              cmd_cycle T ((w, wq), (c, rq)) li =
                ((fst (cmdw_cycle (w, wq) tt), (c1, rq)),
                 (snd (cmdw_cycle (w, wq) tt), (pads_quiet, [])))).
    { unfold cmd_cycle, cmdw_cycle, cmdw_done_cycle in *.
      destruct (cmdw_step w (sink_of_queue wq)) as [w' ow]. cbn [snd fst] in *.
      unfold cmdr_step. rewrite Hc. cbn [ci_valid ci_cmdw_done]. rewrite Hd.
      rewrite andb_false_r. eexists. split; [|reflexivity]. reflexivity. }
    destruct Hstep as (c1 & Hc1 & Hstep).
    assert (E : fst (cmdw_done_cycle (w, wq) tt) = fst (cmdw_cycle (w, wq) tt)).
    { unfold cmdw_done_cycle, cmdw_cycle. destruct (cmdw_step w (sink_of_queue wq)). reflexivity. }
    rewrite E in Hrest.
    destruct (IH (fst (cmdw_cycle (w, wq) tt)) c1 rq Hc1 Hrest) as (c2 & Hc2 & Hrun).
    exists c2. split; [exact Hc2|].
    cbn [run map]. rewrite Hstep, Hrun. reflexivity.
Qed.

(** The command reader waits for the command writer: with command bytes
    queued for the writer and a read request queued for the reader, the
    reader stays in IDLE, drives nothing and hands over nothing for the whole
    time the writer needs (9 cycles per byte, 256 more after a byte marked
    [last]), and the writer's pads are those it drives on its own; the reader
    accepts the request in the first cycle in which the writer is idle with
    an empty queue. *)
Theorem cmd_read_waits_for_write (T c0 : Z) (wq : list (Z * bool)) (c : cmdr_state)
    (r : read_req) (rq : list read_req) (ins : list line_in) (li : line_in) :
  cmdr_st c = CMDR_IDLE ->
  length ins = cmdw_cycles wq ->
  let w0 := {| cmdw_st := CMDW_IDLE; cmdw_count := c0 |} in
  let st0 := ((w0, wq), (c, r :: rq)) in
  map snd (trace (cmd_cycle T) st0 ins) = repeat (pads_quiet, []) (cmdw_cycles wq)
  /\ map fst (trace (cmd_cycle T) st0 ins) = trace cmdw_cycle (w0, wq) (repeat tt (cmdw_cycles wq))
  /\ snd (fst (final (cmd_cycle T) st0 ins)) = []
  /\ snd (snd (final (cmd_cycle T) st0 ins)) = r :: rq
  /\ cmdr_st (fst (snd (final (cmd_cycle T) st0 ins))) = CMDR_IDLE
  /\ cmdr_st (fst (snd (final (cmd_cycle T) st0 (ins ++ [li])))) = CMDR_WAIT
  /\ snd (snd (final (cmd_cycle T) st0 (ins ++ [li]))) = r :: rq.
Proof.
  intros Hc Hlen w0 st0.
  destruct (cmdw_busy wq c0) as (c' & Hbusy). fold w0 in Hbusy.
  destruct (cmd_cycle_reader_idle T ins (w0, wq) c (r :: rq) Hc) as (c1 & Hc1 & Hrun).
  { rewrite Hlen. apply (run_trace _ _ _ _ _ Hbusy). }
  rewrite Hlen in Hrun. fold st0 in Hrun.
  assert (Hfin : final cmdw_cycle (w0, wq) (repeat tt (cmdw_cycles wq)) =
                 ({| cmdw_st := CMDW_IDLE; cmdw_count := c' |}, [])).
  { rewrite <- cmdw_done_cycle_pads. apply (run_final _ _ _ _ _ Hbusy). }
  rewrite Hfin in Hrun.
  rewrite final_app, (run_final _ _ _ _ _ Hrun), (run_trace _ _ _ _ _ Hrun).
  rewrite !map_map. cbn [fst snd].
  split; [|split; [|split; [|split; [|split]]]]; try reflexivity.
  - rewrite map_const, trace_length, repeat_length. reflexivity.
  - apply map_id.
  - exact Hc1.
  - rewrite final_cons, final_nil.
    unfold cmd_cycle. cbn [cmdw_step cmdw_st sink_of_queue bs_valid negb cmdw_done
                           cmdw_sink_ready].
    unfold cmdr_step. rewrite Hc1. cbn [ci_valid ci_cmdw_done andb fst snd cmdr_st co_sink_ready].
    split; reflexivity.
Qed.

Lemma cmd_read_waits_for_write_witness :
  let w0 := {| cmdw_st := CMDW_IDLE; cmdw_count := 0 |} in
  let r := {| rq_length := 6; rq_last := true |} in
  let wq := [(64, false); (1, false)] in
  let ins := repeat (cmd_sample 1) 18 in
  let st0 := ((w0, wq), (cmdr_idle 1000, [r])) in
  map snd (trace (cmd_cycle 1000) st0 ins) = repeat (pads_quiet, []) (cmdw_cycles wq)
  /\ map fst (trace (cmd_cycle 1000) st0 ins)
     = trace cmdw_cycle (w0, wq) (repeat tt (cmdw_cycles wq))
  /\ snd (fst (final (cmd_cycle 1000) st0 ins)) = []
  /\ snd (snd (final (cmd_cycle 1000) st0 ins)) = [r]
  /\ cmdr_st (fst (snd (final (cmd_cycle 1000) st0 ins))) = CMDR_IDLE
  /\ cmdr_st (fst (snd (final (cmd_cycle 1000) st0 (ins ++ [cmd_sample 1])))) = CMDR_WAIT
  /\ snd (snd (final (cmd_cycle 1000) st0 (ins ++ [cmd_sample 1]))) = [r].
Proof.
  apply (cmd_read_waits_for_write 1000 0 [(64, false); (1, false)] (cmdr_idle 1000)
           {| rq_length := 6; rq_last := true |} [] (repeat (cmd_sample 1) 18)
           (cmd_sample 1)).
  - reflexivity.
  - reflexivity.
Defined.

(** ** A response of any length *)

(** A command read of [N] bytes, [1 <= N <= 255], from any IDLE state, under
    these provisos: after an idle prefix [ws] without start bit the card
    sends [N] octets, the first beginning with the start bit, one bit per
    line cycle, and at least three more samples follow; the result stream is
    ready in every cycle from the start bit on (the frame is made of
    [cmd_sample] cycles); and the timeout reload [T] leaves room,
    [|ws| + 8 N + 4 <= T < 2^32].  Then the command reader hands over exactly [N] items with status
    OK, each byte made of its eight samples with the first sample in bit 7,
    [last] set on the final one only, and consumes the request; the start
    bit is part of the first byte. *)
Theorem cmdr_response_has_N_bytes (T : Z) (s : cmdr_state) (r : read_req)
    (i0 i1 : line_in) (ws : list line_in) (g0 : octet) (gs : list octet)
    (y0 y1 y2 : Z) (ys : list Z) :
  cmdr_st s = CMDR_IDLE ->
  1 <= rq_length r <= 255 ->
  no_start cmdr_params ws ->
  low_bits 1 (o0 g0) = 0 ->
  Z.of_nat (length (g0 :: gs)) = rq_length r ->
  Z.of_nat (length ws) + 8 * rq_length r + 4 <= T < 2 ^ 32 ->
  let ins := i0 :: i1 :: ws ++ octets_in (g0 :: gs)
                ++ map cmd_sample (y0 :: y1 :: y2 :: ys) in
  let its := items_of (trace (cmdr_cycle T) (s, [r]) ins) in
  its = mark_last (map octet_byte (g0 :: gs))
  /\ Z.of_nat (length its) = rq_length r
  /\ map item_flags its =
       repeat (SDCARD_STREAM_STATUS_OK, false) (length gs)
       ++ [(SDCARD_STREAM_STATUS_OK, true)]
  /\ Z.testbit (item_data (hd (0, 0, false) its)) 7 = false
  /\ snd (final (cmdr_cycle T) (s, [r]) ins) = [].
Proof.
  intros Hs HN Hns Hstart Hlen HT ins its.
  cbn [length] in Hlen. rewrite Nat2Z.inj_succ in Hlen.
  destruct (cmdr_reads T s r i0 i1 ws g0 gs y0 y1 y2 ys Hs Hns Hstart) as (Hit & Hq & _).
  { rewrite wrap_small by (change (2 ^ 8) with 256; lia). lia. }
  { lia. }
  fold ins in Hit, Hq. fold its in Hit.
  split; [exact Hit|]. split; [|split; [|split; [|exact Hq]]].
  - rewrite Hit, mark_last_length, length_map. cbn [length].
    rewrite Nat2Z.inj_succ. lia.
  - rewrite Hit. cbn [map]. now rewrite mark_last_flags, length_map.
  - assert (Hhd : item_data (hd (0, 0, false) its) = octet_byte g0).
    { rewrite Hit. cbn [map]. destruct (map octet_byte gs); reflexivity. }
    rewrite Hhd. destruct g0 as [x0 x1 x2 x3 x4 x5 x6 x7]. cbn [o0] in Hstart.
    unfold octet_byte, octet_samples. cbn [o0 o1 o2 o3 o4 o5 o6 o7].
    unfold sample_byte. cbn [fold_left]. rewrite Hstart.
    rewrite !low_bits1_testbit.
    generalize (Z.testbit x1 0) (Z.testbit x2 0) (Z.testbit x3 0) (Z.testbit x4 0)
               (Z.testbit x5 0) (Z.testbit x6 0) (Z.testbit x7 0).
    intros t1 t2 t3 t4 t5 t6 t7.
    destruct t1, t2, t3, t4, t5, t6, t7; reflexivity.
Qed.

Lemma cmdr_response_has_N_bytes_witness :
  let r := {| rq_length := 2; rq_last := false |} in
  let ins := cmd_sample 1 :: cmd_sample 1 :: [cmd_sample 1]
               ++ octets_in (start_octet :: [start_octet])
               ++ map cmd_sample [1; 1; 1] in
  let its := items_of (trace (cmdr_cycle 250000) (cmdr_idle 250000, [r]) ins) in
  its = mark_last (map octet_byte (start_octet :: [start_octet]))
  /\ Z.of_nat (length its) = rq_length r
  /\ map item_flags its =
       repeat (SDCARD_STREAM_STATUS_OK, false) 1 ++ [(SDCARD_STREAM_STATUS_OK, true)]
  /\ Z.testbit (item_data (hd (0, 0, false) its)) 7 = false
  /\ snd (final (cmdr_cycle 250000) (cmdr_idle 250000, [r]) ins) = [].
Proof.
  apply (cmdr_response_has_N_bytes 250000 (cmdr_idle 250000)
           {| rq_length := 2; rq_last := false |} (cmd_sample 1) (cmd_sample 1)
           [cmd_sample 1] start_octet [start_octet] 1 1 1 []).
  - reflexivity.
  - split; discriminate.
  - repeat constructor.
  - reflexivity.
  - reflexivity.
  - split; [discriminate | reflexivity].
Defined.

(** ** The data writer when its byte stream runs dry *)

Lemma dataw_idle_gap (gap : list (pads_i * byte_sink)) :
  forall s : dataw_state,
  dataw_st s = DATAW_IDLE -> sink_empty gap ->
  dataw_regs (final dataw_step s gap) = dataw_regs s /\
  map dataw_pads (trace dataw_step s gap) = repeat pads_quiet (length gap) /\
  map dataw_sink_ready (trace dataw_step s gap) = repeat false (length gap).
Proof.
  induction gap as [|[p sink] gap IH]; intros s Hs Hgap.
  - repeat split.
  - inversion Hgap as [|? ? Hv Hrest]; subst. cbn [snd] in Hv.
    rewrite final_cons, trace_cons.
    assert (Hstep : dataw_regs (fst (dataw_step s (p, sink))) = dataw_regs s /\
                    snd (dataw_step s (p, sink)) =
                      {| dataw_pads := pads_quiet; dataw_sink_ready := false |}).
    { unfold dataw_step, dataw_regs. rewrite Hs, Hv.
      cbn [fst snd dataw_st dataw_wrstarted dataw_count]. split; reflexivity. }
    destruct Hstep as [Hregs Hout].
    destruct (IH (fst (dataw_step s (p, sink)))) as (H1 & H2 & H3).
    { unfold dataw_regs in Hregs. rewrite Hs in Hregs. congruence. }
    { exact Hrest. }
    rewrite Hout. cbn [map length repeat dataw_pads dataw_sink_ready].
    rewrite H1, H2, H3, Hregs. repeat split.
Qed.

(** Data Writer underrun: when the byte stream has nothing to offer between
    two bytes of a block, the writer stops the line clock and drives nothing
    for as long as the gap lasts, keeps its registers, and resumes with the
    high nibble of the next byte as soon as one is offered, without a second
    start nibble; the byte is not taken in that cycle. *)
Theorem dataw_underrun_gates_clock (s : dataw_state) (gap : list (pads_i * byte_sink))
    (p : pads_i) (sink : byte_sink) :
  dataw_st s = DATAW_IDLE ->
  dataw_wrstarted s = true ->
  sink_empty gap ->
  bs_valid sink = true ->
  let ins := gap ++ [(p, sink)] in
  map dataw_pads (trace dataw_step s ins) =
    repeat pads_quiet (length gap) ++ [drive_data (high_nibble (bs_data sink))]
  /\ map dataw_sink_ready (trace dataw_step s ins) = repeat false (length gap + 1)
  /\ dataw_regs (final dataw_step s ins) = (DATAW_DATA, true, dataw_count s).
Proof.
  intros Hs Hw Hgap Hv ins. subst ins.
  destruct (dataw_idle_gap gap s Hs Hgap) as (Hregs & Hpads & Hrdy).
  rewrite trace_app, final_app, !map_app, Hpads, Hrdy.
  set (s1 := final dataw_step s gap) in *.
  assert (Hs1 : dataw_st s1 = DATAW_IDLE /\ dataw_wrstarted s1 = true /\
                dataw_count s1 = dataw_count s).
  { unfold dataw_regs in Hregs. rewrite Hs, Hw in Hregs.
    injection Hregs as H1 H2 H3. auto. }
  destruct Hs1 as (Hst1 & Hw1 & Hc1).
  rewrite final_cons, trace_cons, final_nil, trace_nil.
  unfold dataw_step, dataw_regs. rewrite Hst1, Hv, Hw1.
  cbn [fst snd map dataw_pads dataw_sink_ready dataw_st dataw_wrstarted dataw_count].
  rewrite Hc1. split; [reflexivity|]. split; [|reflexivity].
  rewrite repeat_app. reflexivity.
Qed.

Lemma dataw_underrun_gates_clock_witness :
  let s := {| dataw_st := DATAW_IDLE; dataw_wrstarted := true; dataw_count := 0;
              dataw_crc := crcr_reset |} in
  let none := {| bs_valid := false; bs_data := 0; bs_last := false |} in
  let next := {| bs_valid := true; bs_data := 171; bs_last := false |} in
  let ins := [(data_level 15, none); (data_level 15, none)] ++ [(data_level 15, next)] in
  map dataw_pads (trace dataw_step s ins) =
    repeat pads_quiet 2 ++ [drive_data (high_nibble 171)]
  /\ map dataw_sink_ready (trace dataw_step s ins) = repeat false (2 + 1)
  /\ dataw_regs (final dataw_step s ins) = (DATAW_DATA, true, 0).
Proof.
  apply (dataw_underrun_gates_clock
           {| dataw_st := DATAW_IDLE; dataw_wrstarted := true; dataw_count := 0;
              dataw_crc := crcr_reset |}
           [(data_level 15, {| bs_valid := false; bs_data := 0; bs_last := false |});
            (data_level 15, {| bs_valid := false; bs_data := 0; bs_last := false |})]
           (data_level 15) {| bs_valid := true; bs_data := 171; bs_last := false |}).
  - reflexivity.
  - reflexivity.
  - repeat constructor.
  - reflexivity.
Defined.
